(** * Credit-card statement extraction: [extract_cc_data.py]

    A shallow embedding of [StatementParser] and the properties of its
    line classifier, field extractor, year aggregator and exporter.

    Text is a [string] of 8-bit characters, read as the code points
    0..255 of a Python [str]; the character classes [\d] and [\s] of
    Python's [re] are the Unicode ones cut down to that range.  The
    amount of a record is a binary64 number ([spec_float]), as [float]
    makes it. *)

From Stdlib Require Import Bool Arith ZArith NArith Lia List Ascii String.
From Stdlib Require Import Permutation Sorted OrderedTypeEx.
From Stdlib Require Import Floats.SpecFloat.
Import ListNotations.
Open Scope string_scope.
Open Scope nat_scope.

Set Implicit Arguments.
Set Warnings "-abstract-large-number".

(* ================================================================== *)
(** * Characters and character classes *)
(* ================================================================== *)

Module Chars.

Definition code (c : ascii) : nat := nat_of_ascii c.

Definition in_range (lo hi : ascii) (c : ascii) : bool :=
  (code lo <=? code c) && (code c <=? code hi).

(** [[A-Z]], [[a-z]] and [\d]. *)
Definition is_upper : ascii -> bool := in_range "A" "Z".
Definition is_lower : ascii -> bool := in_range "a" "z".
Definition is_digit : ascii -> bool := in_range "0" "9".

(** [\s], which is also what [str.split()] and [str.strip()] treat as
    blank: TAB, LF, VT, FF, CR, FS, GS, RS, US, space, NEL and NBSP. *)
Definition is_space (c : ascii) : bool :=
  let n := code c in
  ((9 <=? n) && (n <=? 13)) || ((28 <=? n) && (n <=? 32))
  || (n =? 133) || (n =? 160).

Definition newline : ascii := ascii_of_nat 10.

(** A literal character of a pattern. *)
Definition lit (a : ascii) : ascii -> bool := Ascii.eqb a.

(** [str.lower()] on one character (ASCII letters; the other
    characters never reach it). *)
Definition lower (c : ascii) : ascii :=
  if is_upper c then ascii_of_nat (code c + 32) else c.

(** A literal letter under [re.IGNORECASE]. *)
Definition lit_ci (a : ascii) (c : ascii) : bool := Ascii.eqb a (lower c).

Definition digit_value (c : ascii) : nat := code c - 48.

Arguments lit a c : simpl never.
Arguments lit_ci a c : simpl never.

End Chars.
Import Chars.

(* ================================================================== *)
(** * Strings: the [str] methods the program calls *)
(* ================================================================== *)

Module Str.

Fixpoint forall_chars (p : ascii -> bool) (s : string) : bool :=
  match s with
  | EmptyString => true
  | String c s' => p c && forall_chars p s'
  end.

Fixpoint contains_char (a : ascii) (s : string) : bool :=
  match s with
  | EmptyString => false
  | String c s' => Ascii.eqb a c || contains_char a s'
  end.

Fixpoint filter_chars (p : ascii -> bool) (s : string) : string :=
  match s with
  | EmptyString => EmptyString
  | String c s' => if p c then String c (filter_chars p s') else filter_chars p s'
  end.

Fixpoint map_chars (f : ascii -> ascii) (s : string) : string :=
  match s with
  | EmptyString => EmptyString
  | String c s' => String (f c) (map_chars f s')
  end.

Fixpoint rev_onto (s acc : string) : string :=
  match s with
  | EmptyString => acc
  | String c s' => rev_onto s' (String c acc)
  end.

Definition rev (s : string) : string := rev_onto s EmptyString.

(** [s.replace(old, new)] for a one-character [old]. *)
Fixpoint replace (old : ascii) (new : string) (s : string) : string :=
  match s with
  | EmptyString => EmptyString
  | String c s' =>
      if Ascii.eqb old c then new ++ replace old new s'
      else String c (replace old new s')
  end.

(** [s.lower()]. *)
Definition lower (s : string) : string := map_chars Chars.lower s.

(** [s.lstrip()], [s.rstrip()], [s.strip()]. *)
Fixpoint lstrip (s : string) : string :=
  match s with
  | EmptyString => EmptyString
  | String c s' => if is_space c then lstrip s' else s
  end.

Definition rstrip (s : string) : string := rev (lstrip (rev s)).

Definition strip (s : string) : string := rstrip (lstrip s).

(** [s.split()]: the maximal runs of non-blank characters. [cur] is the
    run being read. *)
Fixpoint split_from (cur : string) (s : string) : list string :=
  match s with
  | EmptyString =>
      match cur with EmptyString => [] | _ => [cur] end
  | String c s' =>
      if is_space c then
        match cur with
        | EmptyString => split_from EmptyString s'
        | _ => cur :: split_from EmptyString s'
        end
      else split_from (cur ++ String c EmptyString) s'
  end.

Definition split (s : string) : list string := split_from EmptyString s.

(** [s.split(sep)] for a one-character [sep]: the pieces between the
    separators, empty pieces kept. *)
Fixpoint split_on_from (sep : ascii) (cur : string) (s : string) : list string :=
  match s with
  | EmptyString => [cur]
  | String c s' =>
      if Ascii.eqb sep c then cur :: split_on_from sep EmptyString s'
      else split_on_from sep (cur ++ String c EmptyString) s'
  end.

Definition split_on (sep : ascii) (s : string) : list string :=
  split_on_from sep EmptyString s.

(** [sep.join(ls)] is [String.concat sep ls]. *)
Definition join (sep : string) (ls : list string) : string :=
  String.concat sep ls.

(** [s[:n]]. *)
Definition take (n : nat) (s : string) : string := substring 0 n s.

(** A token as [split()] produces them: not empty, no blank inside. *)
Definition no_space (s : string) : bool :=
  forall_chars (fun c => negb (is_space c)) s.

Definition is_token (s : string) : Prop :=
  negb (String.eqb s EmptyString) && no_space s = true.

End Str.

(* ================================================================== *)
(** * Lists: Python slices *)
(* ================================================================== *)

Module Slice.

(** The bound [i] of a slice of a list of length [n], as Python
    normalises it: negative bounds count from the end, and both are
    clamped to [0..n]. *)
Definition bound (n : nat) (i : Z) : nat :=
  if (i <? 0)%Z then Z.to_nat (Z.max 0 (i + Z.of_nat n))
  else Nat.min (Z.to_nat i) n.

(** [l[start:stop]]. *)
Definition slice {A : Type} (l : list A) (start stop : Z) : list A :=
  let a := bound (List.length l) start in
  let b := bound (List.length l) stop in
  firstn (b - a) (skipn a l).

End Slice.

(* ================================================================== *)
(** * Regular expressions: Python's [re.match] *)
(* ================================================================== *)

Module Regex.

(** The fragment of the pattern language that the program and
    [_strptime] use. *)
Inductive regex : Type :=
| Eps
| Chr (p : ascii -> bool)        (* a literal, a class or an escape *)
| Seq (r1 r2 : regex)
| Alt (r1 r2 : regex)            (* [r1|r2], [r1] tried first *)
| Star (r : regex)               (* [r*], greedy *)
| Bol                            (* [^] *)
| Eol                            (* [$] *)
| Group (name : string) (r : regex).   (* [(?P<name>r)] *)

Infix ">>" := Seq (at level 61, right associativity).

(** [r+], [r?], [r{n}], [r{0,n}], [r{m,n}]. *)
Definition Plus (r : regex) : regex := r >> Star r.
Definition Opt (r : regex) : regex := Alt r Eps.

Fixpoint Rep (n : nat) (r : regex) : regex :=
  match n with
  | 0 => Eps
  | S n' => r >> Rep n' r
  end.

Fixpoint UpTo (n : nat) (r : regex) : regex :=
  match n with
  | 0 => Eps
  | S n' => Opt (r >> UpTo n' r)
  end.

Definition Range (m n : nat) (r : regex) : regex := Rep m r >> UpTo (n - m) r.

(** A word, each letter under [re.IGNORECASE]. *)
Fixpoint Word_ci (w : string) : regex :=
  match w with
  | EmptyString => Eps
  | String a w' => Chr (lit_ci a) >> Word_ci w'
  end.

(** A word, literally. *)
Fixpoint Word (w : string) : regex :=
  match w with
  | EmptyString => Eps
  | String a w' => Chr (lit a) >> Word w'
  end.

(** [a1|a2|...|an]. *)
Fixpoint Alts (rs : list regex) (last : regex) : regex :=
  match rs with
  | [] => last
  | r :: rs' => Alt r (Alts rs' last)
  end.

(** The state of a match: how many characters were consumed, what is
    left of the text, and the named groups closed so far. *)
Record mstate : Type := MState {
  pos : nat;
  rest : string;
  groups : list (string * string)
}.

Definition step (st : mstate) (s' : string) : mstate :=
  MState (S (pos st)) s' (groups st).

Definition close_group (name : string) (st0 st : mstate) : mstate :=
  MState (pos st) (rest st)
         ((name, substring 0 (pos st - pos st0) (rest st0)) :: groups st).

Section Matcher.
Variable A : Type.

(** The loop of [r*]: one more [body] that consumes something, then
    the loop again, else the continuation.  Each round consumes a
    character, so [fuel] = the length of the text left is never
    used up before the text is. *)
Fixpoint star_loop (body : mstate -> (mstate -> option A) -> option A)
         (fuel : nat) (st : mstate) (k : mstate -> option A) : option A :=
  match fuel with
  | 0 => k st
  | S fuel' =>
      match body st (fun st' =>
                       if pos st <? pos st' then star_loop body fuel' st' k
                       else None) with
      | Some x => Some x
      | None => k st
      end
  end.

(** The backtracking matcher in continuation-passing style: the
    first success in the engine's order of preference (left
    alternative first, longest repetition first). *)
Fixpoint rmatch (r : regex) (st : mstate) (k : mstate -> option A) : option A :=
  match r with
  | Eps => k st
  | Chr p =>
      match rest st with
      | String c s' => if p c then k (step st s') else None
      | EmptyString => None
      end
  | Seq r1 r2 => rmatch r1 st (fun st' => rmatch r2 st' k)
  | Alt r1 r2 =>
      match rmatch r1 st k with
      | Some x => Some x
      | None => rmatch r2 st k
      end
  | Star r1 => star_loop (rmatch r1) (String.length (rest st)) st k
  | Bol => if pos st =? 0 then k st else None
  | Eol =>
      match rest st with
      | EmptyString => k st
      | String c EmptyString => if Ascii.eqb c newline then k st else None
      | _ => None
      end
  | Group name r1 => rmatch r1 st (fun st' => k (close_group name st st'))
  end.
End Matcher.

(** [re.match(pattern, text)]: a match anchored at the start of
    [text]; [None] when there is none. *)
Definition re_match (r : regex) (text : string) : option mstate :=
  rmatch r (MState 0 text []) (fun st => Some st).

(** [m.group(name)] / [m.groupdict()[name]]. *)
Fixpoint group (name : string) (gs : list (string * string)) : option string :=
  match gs with
  | [] => None
  | (n, v) :: gs' => if String.eqb n name then Some v else group name gs'
  end.

Definition is_some {B : Type} (o : option B) : bool :=
  match o with Some _ => true | None => false end.

End Regex.
Import Regex.

(* ================================================================== *)
(** * The line classifier *)
(* ================================================================== *)

(** [date_pattern = r'^[A-Z][a-z]{2}\s+\d{1,2}$'] *)
Definition date_pattern : regex :=
  Bol >> Chr is_upper >> Rep 2 (Chr is_lower) >> Plus (Chr is_space)
      >> Range 1 2 (Chr is_digit) >> Eol.

(** [amount_pattern = r'^\$\d{1,3}(,\d{3})*\.\d{2}$'] *)
Definition amount_pattern : regex :=
  Bol >> Chr (lit "$") >> Range 1 3 (Chr is_digit)
      >> Star (Chr (lit ",") >> Rep 3 (Chr is_digit))
      >> Chr (lit ".") >> Rep 2 (Chr is_digit) >> Eol.

(** [is_date]: [bool(re.match(date_pattern, text))]. *)
Definition is_date (text : string) : bool := is_some (re_match date_pattern text).

(** [is_amount]: [bool(re.match(amount_pattern, text))]. *)
Definition is_amount (text : string) : bool := is_some (re_match amount_pattern text).

(** The condition of [parse_statement] on the tokens of a line:
    [len(parts) >= 4 and self.is_date(parts[0] + ' ' + parts[1])
     and self.is_amount(parts[-1])]. *)
Definition is_transaction_line (parts : list string) : bool :=
  (4 <=? List.length parts)
  && is_date (nth 0 parts "" ++ " " ++ nth 1 parts "")
  && is_amount (last parts "").

(* ================================================================== *)
(** * Numbers: [int], [float] and zero-padded decimal output *)
(* ================================================================== *)

Module Num.

(** What the calls of the standard library raise here: each is a
    [ValueError] in Python. *)
Inductive value_error : Type :=
| Data_does_not_match_format   (* _strptime: no match of the format *)
| Unconverted_data_remains   (* _strptime: the match stops early *)
| Out_of_range               (* datetime: year, month or day *)
| Invalid_literal.           (* int, float, list.index *)

Inductive result (A : Type) : Type :=
| Ok (a : A)
| Raise (e : value_error).
Arguments Ok {A} a.
Arguments Raise {A} e.

Definition bind {A B : Type} (x : result A) (f : A -> result B) : result B :=
  match x with
  | Ok a => f a
  | Raise e => Raise e
  end.

Notation "x <- e1 ;; e2" := (bind e1 (fun x => e2))
  (at level 100, e1 at next level, right associativity).

(** The number a string of decimal digits spells. *)
Fixpoint decimal_from (acc : N) (s : string) : N :=
  match s with
  | EmptyString => acc
  | String c s' => decimal_from (10 * acc + N.of_nat (digit_value c))%N s'
  end.

Definition decimal (s : string) : N := decimal_from 0%N s.

Definition is_digits (s : string) : bool :=
  negb (String.eqb s "") && Str.forall_chars is_digit s.

(** [int(s)] on what [_strptime] hands it: decimal digits, possibly
    with blanks around. *)
Definition int (s : string) : result nat :=
  let t := Str.strip s in
  if is_digits t then Ok (N.to_nat (decimal t)) else Raise Invalid_literal.

Definition digit_char (n : nat) : ascii := ascii_of_nat (48 + n mod 10).

(** [%02d] and [%04d]. *)
Definition pad2 (n : nat) : string :=
  String (digit_char (n / 10)) (String (digit_char n) "").

Definition pad4 (n : nat) : string :=
  String (digit_char (n / 1000)) (String (digit_char (n / 100))
    (String (digit_char (n / 10)) (String (digit_char n) ""))).

(** The binary64 number nearest to [n / d] (ties to even, infinite
    past the largest finite one), with the sign [neg]. *)
Definition binary64_of_ratio (neg : bool) (n : N) (d : positive) : spec_float :=
  match n with
  | N0 => S754_zero neg
  | Npos p => SFdiv 53 1024 (S754_finite neg p 0) (S754_finite false d 0)
  end.

Fixpoint pow10 (n : nat) : positive :=
  match n with
  | 0 => 1%positive
  | S n' => (10 * pow10 n')%positive
  end.

(** [float(s)] on plain decimals: blanks around, an optional sign,
    digits, and optionally a point and more digits, with a digit on
    one side of the point at least.  The amount tokens that reach
    [float] are of that form.  The builtin also reads exponents,
    [inf], [nan] and [_] between digits; those spellings are not
    covered here and are sent to [None] ([ValueError]) with the
    malformed ones. *)
Definition float (s : string) : option spec_float :=
  let t := Str.strip s in
  let '(neg, body) :=
    match t with
    | String "-" b => (true, b)
    | String "+" b => (false, b)
    | _ => (false, t)
    end in
  match Str.split_on "." body with
  | [ip] =>
      if is_digits ip then Some (binary64_of_ratio neg (decimal ip) 1) else None
  | [ip; fp] =>
      if Str.forall_chars is_digit ip && Str.forall_chars is_digit fp
         && negb (String.eqb (ip ++ fp) "")
      then Some (binary64_of_ratio neg (decimal (ip ++ fp))
                                   (pow10 (String.length fp)))
      else None
  | _ => None
  end.

(** [0.0 <= x], as Python compares floats. *)
Definition nonneg (x : spec_float) : bool := SFleb (S754_zero false) x.

(** The rational [num / den] that a finite binary64 number is. *)
Definition exact_value (x : spec_float) : option (Z * positive) :=
  match x with
  | S754_zero _ => Some (0%Z, 1%positive)
  | S754_finite s m e =>
      let n := if s then Zneg m else Zpos m in
      match e with
      | Z0 => Some (n, 1%positive)
      | Zpos p => Some ((n * Z.pow 2 (Zpos p))%Z, 1%positive)
      | Zneg p => Some (n, Pos.pow 2 p)
      end
  | _ => None
  end.

(** [x] is exactly the decimal [cents / 100]. *)
Definition is_cents (x : spec_float) (cents : Z) : Prop :=
  match exact_value x with
  | Some (n, d) => (n * 100 = cents * Zpos d)%Z
  | None => False
  end.

End Num.
Import Num.

(* ================================================================== *)
(** * Dates: [datetime.strptime] and [strftime] *)
(* ================================================================== *)

Module Datetime.

(** A [datetime] at midnight, which is all that the two formats of
    the program produce. *)
Record datetime : Type := Date {
  year : nat;
  month : nat;
  day : nat
}.

Definition is_leap (y : nat) : bool :=
  (y mod 4 =? 0) && (negb (y mod 100 =? 0) || (y mod 400 =? 0)).

Definition days_in_month (y m : nat) : nat :=
  match m with
  | 2 => if is_leap y then 29 else 28
  | 4 | 6 | 9 | 11 => 30
  | _ => 31
  end.

Definition valid_date (y m d : nat) : bool :=
  (1 <=? y) && (y <? 10000) && (1 <=? m) && (m <=? 12)
  && (1 <=? d) && (d <=? days_in_month y m).

(** The constructor [datetime(y, m, d)]. *)
Definition make (y m d : nat) : result datetime :=
  if valid_date y m d then Ok (Date y m d) else Raise Out_of_range.

(** [<] on [datetime]. *)
Definition ltb (a b : datetime) : bool :=
  (year a <? year b)
  || ((year a =? year b)
      && ((month a <? month b)
          || ((month a =? month b) && (day a <? day b)))).

(** [locale_time.a_month[1:]] in the C locale. *)
Definition a_month : list string :=
  ["jan"; "feb"; "mar"; "apr"; "may"; "jun";
   "jul"; "aug"; "sep"; "oct"; "nov"; "dec"].

(** [locale_time.a_month.index(s)]. *)
Fixpoint index_from (n : nat) (s : string) (l : list string) : result nat :=
  match l with
  | [] => Raise Invalid_literal
  | x :: l' => if String.eqb x s then Ok n else index_from (S n) s l'
  end.

Definition month_index (s : string) : result nat := index_from 1 s a_month.

(** The table of [TimeRE]:
    [%d] is [(?P<d>3[0-1]|[1-2]\d|0[1-9]|[1-9]| [1-9])],
    [%m] is [(?P<m>1[0-2]|0[1-9]|[1-9])],
    [%Y] is [(?P<Y>\d\d\d\d)],
    [%b] is [(?P<b>jan|feb|...|dec)]. *)
Definition directive_d : regex :=
  Group "d" (Alts [ Chr (lit "3") >> Chr (in_range "0" "1");
                    Chr (in_range "1" "2") >> Chr is_digit;
                    Chr (lit "0") >> Chr (in_range "1" "9");
                    Chr (in_range "1" "9") ]
                  (Chr (lit " ") >> Chr (in_range "1" "9"))).

Definition directive_m : regex :=
  Group "m" (Alts [ Chr (lit "1") >> Chr (in_range "0" "2");
                    Chr (lit "0") >> Chr (in_range "1" "9") ]
                  (Chr (in_range "1" "9"))).

Definition directive_Y : regex := Group "Y" (Rep 4 (Chr is_digit)).

Definition directive_b : regex :=
  Group "b" (Alts (map Word_ci (removelast a_month)) (Word_ci (last a_month ""))).

(** [TimeRE.compile('%b %d %Y')]: the blank of the format becomes
    [\s+]; the whole is compiled with [IGNORECASE]. *)
Definition format_b_d_Y : regex :=
  directive_b >> Plus (Chr is_space) >> directive_d
              >> Plus (Chr is_space) >> directive_Y.

(** [TimeRE.compile('%Y-%m-%d')]. *)
Definition format_Y_m_d : regex :=
  directive_Y >> Chr (lit "-") >> directive_m >> Chr (lit "-") >> directive_d.

(** [datetime.strptime(data_string, format)], [format] given by its
    compiled pattern: the match must reach the end of the string; the
    year comes from [%Y] (1900 without it), the month from [%m] or
    [%b] and the day from [%d] (1 without them). *)
Definition strptime (data_string : string) (format : regex) : result datetime :=
  match re_match format data_string with
  | None => Raise Data_does_not_match_format
  | Some found =>
      if negb (String.length data_string =? pos found)
      then Raise Unconverted_data_remains
      else
        let found_dict := groups found in
        y <- match group "Y" found_dict with
             | Some v => int v
             | None => Ok 1900
             end ;;
        m <- match group "m" found_dict, group "b" found_dict with
             | Some v, _ => int v
             | None, Some v => month_index (Str.lower v)
             | None, None => Ok 1
             end ;;
        d <- match group "d" found_dict with
             | Some v => int v
             | None => Ok 1
             end ;;
        make y m d
  end.

(** [%Y] as [strftime] writes it: CPython hands the format to the C
    library, and glibc writes the year as a decimal number without
    leading zeros, so that a year below 1000 has fewer than four
    digits.  The year of a [datetime] is between 1 and 9999. *)
Definition year_digits (y : nat) : string :=
  if y <? 10 then String (digit_char y) ""
  else if y <? 100 then pad2 y
  else if y <? 1000 then String (digit_char (y / 100)) (pad2 y)
  else pad4 y.

(** [dt.strftime('%Y-%m-%d')]: the year as above, the month and the
    day on two digits each. *)
Definition strftime_Y_m_d (dt : datetime) : string :=
  year_digits (year dt) ++ "-" ++ pad2 (month dt) ++ "-" ++ pad2 (day dt).

End Datetime.
Import Datetime.

(* ================================================================== *)
(** * Stable sorting: [sorted(l, key=...)] *)
(* ================================================================== *)

Module Sorting.
Section Sorted.
Variables (A K : Type).
Variable lt : K -> K -> bool.      (* [<] on the keys *)
Variable key : A -> K.

(** [x] goes in front of the first element whose key is not below
    its own: an element met earlier stays before its equals. *)
Fixpoint insert (x : A) (l : list A) : list A :=
  match l with
  | [] => [x]
  | y :: l' => if lt (key y) (key x) then y :: insert x l' else x :: l
  end.

(** [sorted(l, key=key)]: ascending, stable, comparing with [<]
    only. *)
Fixpoint sorted (l : list A) : list A :=
  match l with
  | [] => []
  | x :: l' => insert x (sorted l')
  end.

(** [x] is not after [y]: the key of [y] is not below the key of
    [x]. *)
Definition not_after (x y : A) : Prop := lt (key y) (key x) = false.
End Sorted.
End Sorting.

(* ================================================================== *)
(** * [StatementParser] *)
(* ================================================================== *)

(** A transaction: the [dict] with the keys ['Transaction Date'],
    ['Post Date'], ['Description'] and ['Amount']. *)
Record transaction : Type := Transaction {
  transaction_date : string;
  post_date : string;
  description : string;
  amount : spec_float
}.

(** What the program prints, one constructor for each [print] of the
    three methods below; the wording of the messages is left out. *)
Inductive event : Type :=
| Warning_could_not_parse_line (pdf_name line : string)
| Error_detail (e : value_error)
| Error_processing_pdf (pdf_name : string)
| No_matching_files
| Found_files (n : nat)
| Listed_file (pdf_name : string)
| Starting_processing
| Processing (pdf_name : string)
| Added_transactions (n : nat) (year : string)
| No_transactions_found (pdf_name : string)
| No_transactions_to_save
| Saved_transactions (n : nat) (year output_file : string)
| Error_saving_csv (year : string).

(** [self.transactions_by_year]: a [defaultdict(list)], whose keys are
    kept in the order of their first insertion. *)
Definition aggregator : Type := list (string * list transaction).

(** A row of an output file, and the files written so far. *)
Inductive csv_row : Type :=
| Header_row (fieldnames : list string)
| Data_row (t : transaction).

Definition file_system : Type := string -> option (list csv_row).

Definition write_file (fs : file_system) (path : string) (rows : list csv_row)
  : file_system :=
  fun p => if String.eqb p path then Some rows else fs p.

(** What the outside world does when an output file is written: all
    goes well, [open] raises, or the [n+1]-th [writerow] raises. *)
Inductive io_outcome : Type :=
| Io_ok
| Open_raises
| Write_raises (n : nat).

(** POSIX paths as [pathlib] reads and writes them. *)
Module Path.

(** A component that counts: the empty pieces between slashes and
    the [.] components are dropped when a path is read. *)
Definition proper (x : string) : bool :=
  negb (String.eqb x "") && negb (String.eqb x ".").

Definition components (s : string) : list string :=
  filter proper (Str.split_on "/" s).

(** The root: [/], or [//] when the text starts with exactly two
    slashes, or nothing. *)
Definition root (s : string) : string :=
  match s with
  | String "/" (String "/" (String "/" _)) => "/"
  | String "/" (String "/" _) => "//"
  | String "/" _ => "/"
  | _ => ""
  end.

(** A path: its root and its components. *)
Definition path : Type := (string * list string)%type.

(** [pathlib.Path(s)]. *)
Definition parse (s : string) : path := (root s, components s).

(** [a / b]: a rooted [b] replaces [a]. *)
Definition join (a b : path) : path :=
  if String.eqb (fst b) "" then (fst a, (snd a ++ snd b)%list) else b.

(** [str(p)]. *)
Definition str (p : path) : string :=
  match p with
  | (EmptyString, []) => "."
  | (r, parts) => r ++ Str.join "/" parts
  end.

(** [p.name]: the last component, empty when there is none. *)
Definition name (p : path) : string := last (snd p) "".

End Path.

(** [pathlib.Path(p).name]. *)
Definition path_name (p : string) : string := Path.name (Path.parse p).

(** [extract_year_from_filename]: [pathlib.Path(filename).name[:4]]. *)
Definition extract_year_from_filename (filename : string) : string :=
  Str.take 4 (path_name filename).

(** [parse_amount]:
    [float(amount_str.replace('$', '').replace(',', ''))]. *)
Definition parse_amount (amount_str : string) : option spec_float :=
  float (Str.replace "," "" (Str.replace "$" "" amount_str)).

(** The body of the inner [try] of [parse_statement], on the tokens of
    a line that passed the condition: the record, or the [ValueError]
    that [strptime] or [float] raises. *)
Definition extract (year : string) (parts : list string) : result transaction :=
  let trans_date := Str.join " " (Slice.slice parts 0 2) in
  let post_date := Str.join " " (Slice.slice parts 2 4) in
  let amount := last parts "" in
  let description := Str.join " " (Slice.slice parts 4 (-1)) in
  trans_date <- strptime (trans_date ++ " " ++ year) format_b_d_Y ;;
  post_date <- strptime (post_date ++ " " ++ year) format_b_d_Y ;;
  amount <- match parse_amount amount with
            | Some a => Ok a
            | None => Raise Invalid_literal
            end ;;
  Ok (Transaction (strftime_Y_m_d trans_date) (strftime_Y_m_d post_date)
                  description amount).

(** The state of the loops of [parse_statement]: the list
    [transactions] and what was printed. *)
Definition parse_state : Type := (list transaction * list event)%type.

(** One round of [for line in text_lines]. *)
Definition parse_line (pdf_name year : string) (st : parse_state) (line : string)
  : parse_state :=
  let '(transactions, out) := st in
  if String.eqb (Str.strip line) "" then st
  else
    let parts := Str.split line in
    if is_transaction_line parts then
      match extract year parts with
      | Ok t => ((transactions ++ [t])%list, out)
      | Raise e =>
          (transactions,
           (out ++ [Warning_could_not_parse_line pdf_name line; Error_detail e])%list)
      end
    else st.

Definition parse_lines (pdf_name year : string) (st : parse_state)
           (text_lines : list string) : parse_state :=
  fold_left (parse_line pdf_name year) text_lines st.

(** A page is the text that [page.extract_text()] returns, or [None]
    when the call raises (or hands back no text, on which [split]
    raises); a document is its pages, or [None] when
    [pdfplumber.open] raises. *)
Definition page : Type := option string.
Definition document : Type := option (list page).

(** [for page in pdf.pages], inside the outer [try]: [None] is the
    [return None] of its handler. *)
Fixpoint parse_pages (pdf_name year : string) (st : parse_state)
         (pages : list page) : option (list transaction) * list event :=
  match pages with
  | [] => (Some (fst st), snd st)
  | None :: _ => (None, (snd st ++ [Error_processing_pdf pdf_name])%list)
  | Some text :: pages' =>
      parse_pages pdf_name year
                  (parse_lines pdf_name year st (Str.split_on newline text))
                  pages'
  end.

Section StatementParser.

(** [self.directory], and the two collaborators of the class: what
    [pdfplumber] makes of each path, and what happens to each output
    file. *)
Variable directory : string.
Variable pdf_open : string -> document.
Variable io : string -> io_outcome.

(** [parse_statement]. *)
Definition parse_statement (pdf_path : string)
  : option (list transaction) * list event :=
  let year := extract_year_from_filename pdf_path in
  match pdf_open pdf_path with
  | None => (None, [Error_processing_pdf (path_name pdf_path)])
  | Some pages => parse_pages (path_name pdf_path) year ([], []) pages
  end.

(** [self.transactions_by_year[year].extend(transactions)]. *)
Fixpoint extend (year : string) (transactions : list transaction)
         (agg : aggregator) : aggregator :=
  match agg with
  | [] => [(year, transactions)]
  | (y, ts) :: agg' =>
      if String.eqb y year then (y, (ts ++ transactions)%list) :: agg'
      else (y, ts) :: extend year transactions agg'
  end.

(** [self.transactions_by_year.get(year, [])]. *)
Fixpoint ledger (year : string) (agg : aggregator) : list transaction :=
  match agg with
  | [] => []
  | (y, ts) :: agg' => if String.eqb y year then ts else ledger year agg'
  end.

(** One round of the second loop of [process_all_statements]. *)
Definition process_file (st : aggregator * list event) (pdf_file : string)
  : aggregator * list event :=
  let '(agg, out) := st in
  let out := (out ++ [Processing (path_name pdf_file)])%list in
  let '(transactions, printed) := parse_statement pdf_file in
  let out := (out ++ printed)%list in
  match transactions with
  | Some (t :: ts) =>
      let year := extract_year_from_filename pdf_file in
      (extend year (t :: ts) agg,
       (out ++ [Added_transactions (List.length (t :: ts)) year])%list)
  | _ => (agg, (out ++ [No_transactions_found (path_name pdf_file)])%list)
  end.

(** [process_all_statements], [pdf_files] being what
    [get_statement_files()] returned. *)
Definition process_all_statements (pdf_files : list string) (agg : aggregator)
  : bool * aggregator * list event :=
  match pdf_files with
  | [] => (false, agg, [No_matching_files])
  | _ =>
      let files := Sorting.sorted String.ltb (fun f => f) pdf_files in
      let out := ([Found_files (List.length pdf_files)]
                    ++ map (fun f => Listed_file (path_name f)) files
                    ++ [Starting_processing])%list in
      let '(agg', out') := fold_left process_file files (agg, out) in
      (negb (match agg' with [] => true | _ => false end), agg', out')
  end.

Definition fieldnames : list string :=
  ["Transaction Date"; "Post Date"; "Description"; "Amount"].

(** The keys of [sorted(transactions, key=lambda x:
    datetime.strptime(x['Transaction Date'], '%Y-%m-%d'))]: every key
    is computed before anything is compared. *)
Fixpoint sort_keys (transactions : list transaction)
  : result (list (datetime * transaction)) :=
  match transactions with
  | [] => Ok []
  | t :: ts =>
      k <- strptime (transaction_date t) format_Y_m_d ;;
      rest <- sort_keys ts ;;
      Ok ((k, t) :: rest)
  end.

Definition sorted_transactions (transactions : list transaction)
  : result (list transaction) :=
  keyed <- sort_keys transactions ;;
  Ok (map snd (Sorting.sorted Datetime.ltb fst keyed)).

Definition output_file (year : string) : string :=
  directory ++ "/" ++ year ++ "_transactions.csv".

(** What is in the file when the [n+1]-th [writerow] raises. *)
Definition written (limit : option nat) (rows : list csv_row)
  : bool * list csv_row :=
  match limit with
  | None => (true, rows)
  | Some n => if n <? List.length rows then (false, firstn n rows) else (true, rows)
  end.

(** One round of [for year, transactions in
    self.transactions_by_year.items()]: [false] is the [return False]
    of the handler. *)
Definition save_year (fs : file_system) (year : string)
           (transactions : list transaction)
  : bool * file_system * list event :=
  let path := output_file year in
  match io path with
  | Open_raises => (false, fs, [Error_saving_csv year])
  | outcome =>
      let limit := match outcome with Write_raises n => Some n | _ => None end in
      match sorted_transactions transactions with
      | Raise _ =>
          (false, write_file fs path (snd (written limit [Header_row fieldnames])),
           [Error_saving_csv year])
      | Ok sorted_transactions =>
          let rows := Header_row fieldnames :: map Data_row sorted_transactions in
          let '(ok, rows') := written limit rows in
          (ok, write_file fs path rows',
           if ok then [Saved_transactions (List.length transactions) year path]
           else [Error_saving_csv year])
      end
  end.

Fixpoint save_years (items : aggregator) (fs : file_system) (out : list event)
  : bool * file_system * list event :=
  match items with
  | [] => (true, fs, out)
  | (year, transactions) :: items' =>
      let '(ok, fs', printed) := save_year fs year transactions in
      if ok then save_years items' fs' (out ++ printed)%list
      else (false, fs', (out ++ printed)%list)
  end.

(** [save_transactions_by_year]. *)
Definition save_transactions_by_year (agg : aggregator) (fs : file_system)
  : bool * file_system * list event :=
  match agg with
  | [] => (false, fs, [No_transactions_to_save])
  | _ => save_years agg fs []
  end.

End StatementParser.

(* ================================================================== *)
(** * A declarative reading of the patterns *)
(* ================================================================== *)

Module Semantics.

(** Zero or more rounds of [R], each of which moves forward. *)
Inductive star_rel (R : mstate -> mstate -> Prop) : mstate -> mstate -> Prop :=
| star_stop : forall st, star_rel R st st
| star_more : forall st st1 st2,
    R st st1 -> pos st < pos st1 -> star_rel R st1 st2 -> star_rel R st st2.

(** [matches r st st']: [r] can take the match from [st] to [st']. *)
Fixpoint matches (r : regex) (st st' : mstate) : Prop :=
  match r with
  | Eps => st' = st
  | Chr p => exists c s', rest st = String c s' /\ p c = true /\ st' = step st s'
  | Seq r1 r2 => exists mid, matches r1 st mid /\ matches r2 mid st'
  | Alt r1 r2 => matches r1 st st' \/ matches r2 st st'
  | Star r1 => star_rel (matches r1) st st'
  | Bol => pos st = 0 /\ st' = st
  | Eol => (rest st = "" \/ rest st = String newline "") /\ st' = st
  | Group name r1 => exists e, matches r1 st e /\ st' = close_group name st e
  end.

(** A pattern without named groups. *)
Fixpoint group_free (r : regex) : bool :=
  match r with
  | Group _ _ => false
  | Seq r1 r2 | Alt r1 r2 => group_free r1 && group_free r2
  | Star r1 => group_free r1
  | _ => true
  end.

(** What is consumed is counted by [pos]. *)
Definition measure (st : mstate) : nat := pos st + String.length (rest st).

End Semantics.
Import Semantics.

(* ================================================================== *)
(** * The shapes of the tokens *)
(* ================================================================== *)

Module Shapes.

(** A capitalised word of three letters: one upper-case letter and
    two lower-case ones. *)
Definition capitalized3 (a : string) : bool :=
  match a with
  | String u (String l1 (String l2 EmptyString)) =>
      is_upper u && is_lower l1 && is_lower l2
  | _ => false
  end.

(** One or two digits. *)
Definition day_digits (b : string) : bool :=
  match b with
  | String d1 EmptyString => is_digit d1
  | String d1 (String d2 EmptyString) => is_digit d1 && is_digit d2
  | _ => false
  end.

(** [n] digits exactly. *)
Definition digits_exactly (n : nat) (s : string) : Prop :=
  String.length s = n /\ Str.forall_chars is_digit s = true.

(** From one to [n] digits. *)
Definition digits_upto (n : nat) (s : string) : Prop :=
  1 <= String.length s <= n /\ Str.forall_chars is_digit s = true.

(** The chunks [g1; g2; ...] written [,g1,g2...]. *)
Fixpoint comma_chunks (gs : list string) : string :=
  match gs with
  | [] => EmptyString
  | g :: gs' => String "," (g ++ comma_chunks gs')
  end.

(** The amounts that [amount_pattern] describes: [$], a first chunk of
    one to three digits, then chunks of exactly three digits, each
    after a comma, then a point and two digits. *)
Definition amount_grammar (tok : string) : Prop :=
  exists (head : string) (chunks : list string) (cents : string),
    tok = String "$" (head ++ comma_chunks chunks ++ String "." cents)
    /\ digits_upto 3 head
    /\ Forall (digits_exactly 3) chunks
    /\ digits_exactly 2 cents.

(** The amounts as the specification words them: [$], digits in
    chunks of at most three separated by commas, a point and two
    digits. *)
Definition spec_amount_grammar (tok : string) : Prop :=
  exists (head : string) (chunks : list string) (cents : string),
    tok = String "$" (head ++ comma_chunks chunks ++ String "." cents)
    /\ digits_upto 3 head
    /\ Forall (digits_upto 3) chunks
    /\ digits_exactly 2 cents.

(** The digits of an amount of the grammar, point and commas left
    out: the amount in cents. *)
Definition cents_of (tok : string) : N :=
  decimal (Str.filter_chars is_digit tok).

(** The chunk [,\d{3}] of [amount_pattern]. *)
Definition chunk : regex := Chr (lit ",") >> Rep 3 (Chr is_digit).

(** [\.\d{2}$] *)
Definition tail_pattern : regex :=
  Chr (lit ".") >> Rep 2 (Chr is_digit) >> Eol.

(** The digits of the chunks, commas left out. *)
Fixpoint chunk_digits (gs : list string) : string :=
  match gs with
  | [] => ""
  | g :: gs' => g ++ chunk_digits gs'
  end.

(** The form [YYYY-MM-DD]: four digits, two digits and two digits
    between hyphens. *)
Definition iso_date_form (s : string) : bool :=
  match s with
  | String y1 (String y2 (String y3 (String y4 (String "-"
      (String m1 (String m2 (String "-" (String d1 (String d2 EmptyString))))))))) =>
      is_digit y1 && is_digit y2 && is_digit y3 && is_digit y4
      && is_digit m1 && is_digit m2 && is_digit d1 && is_digit d2
  | _ => false
  end.

(** A day as [%d] takes it in a token: [1]..[9], [01]..[09] or
    [10]..[31]. *)
Definition day_token (b : string) : bool :=
  match b with
  | String c EmptyString => in_range "1" "9" c
  | String c1 (String c2 EmptyString) =>
      (lit "3" c1 && in_range "0" "1" c2)
      || (in_range "1" "2" c1 && is_digit c2)
      || (lit "0" c1 && in_range "1" "9" c2)
  | _ => false
  end.

(** A year label that starts with [0], and a label of four digits
    that does not: a year from 1000 to 9999. *)
Definition leading_zero (year : string) : bool :=
  match year with
  | String c _ => Ascii.eqb c "0"
  | EmptyString => false
  end.

Definition full_year (year : string) : Prop :=
  digits_exactly 4 year /\ leading_zero year = false.

(** The numbers that [strptime] reads in two tokens and a year: the
    year in [y], the month named by [a] and the day in [b]. *)
Definition read_date (a b y : string) : result datetime :=
  yy <- int y ;;
  mm <- month_index (Str.lower a) ;;
  dd <- int b ;;
  make yy mm dd.

(** The two ways in which the date pair [a b] cannot be read in the
    year [y]: [a] names none of the twelve months, or the day [b] is
    past the end of the month [a] of that year. *)
Definition unknown_month (a : string) : Prop :=
  ~ In (Str.lower a) a_month.

Definition day_out_of_range (y a b : string) : Prop :=
  exists yy mm dd,
    int y = Ok yy /\ month_index (Str.lower a) = Ok mm /\ int b = Ok dd
    /\ days_in_month yy mm < dd.

(** The text that [extract] hands to [strptime] for the pair [a b]. *)
Definition date_text (a b year : string) : string :=
  (a ++ " " ++ b) ++ " " ++ year.

(** The sort key of a record, [==] on dates, the records of a given
    date, and the order of two records by their dates. *)
Definition date_key (t : transaction) : result datetime :=
  strptime (transaction_date t) format_Y_m_d.

Definition datetime_eqb (a b : datetime) : bool :=
  (year a =? year b) && (month a =? month b) && (day a =? day b).

Definition dated (k : datetime) (t : transaction) : bool :=
  match date_key t with
  | Ok k' => datetime_eqb k' k
  | Raise _ => false
  end.

Definition in_date_order (x y : transaction) : Prop :=
  forall kx ky,
    date_key x = Ok kx -> date_key y = Ok ky -> Datetime.ltb ky kx = false.

(** A document that fails as a whole: it cannot be opened, or the
    text of one of its pages cannot be extracted. *)
Definition document_fails (doc : document) : Prop :=
  doc = None \/ exists pages, doc = Some pages /\ In None pages.

(** The record has a sort key. *)
Definition has_date_key (t : transaction) : Prop :=
  exists k, date_key t = Ok k.

(** Every record of every year satisfies [P]. *)
Definition all_records (P : transaction -> Prop) (agg : aggregator) : Prop :=
  Forall (fun entry => Forall P (snd entry)) agg.

End Shapes.
Import Shapes.

(* ================================================================== *)
(** * The statement files and the command line *)
(* ================================================================== *)

(** The [pattern] of [get_statement_files]:
    [[0-9]{4} (Jan|Feb|Mar|Apr|May|Jun|Jul|Aug|Sep|Oct|Nov|Dec) CreditCardStatement\.pdf];
    the group is the first of the pattern and has no name. *)
Definition pattern : regex :=
  Rep 4 (Chr (in_range "0" "9")) >> Chr (lit " ")
      >> Group "1" (Alts [Word "Jan"; Word "Feb"; Word "Mar"; Word "Apr";
                          Word "May"; Word "Jun"; Word "Jul"; Word "Aug";
                          Word "Sep"; Word "Oct"; Word "Nov"] (Word "Dec"))
      >> Word " CreditCardStatement.pdf".

(** What [get_statement_files] and [main] print besides the three
    methods above, again without the wording. *)
Inductive message : Type :=
| Printed (e : event)
| Debugging_information
| All_pdf_files_found
| Pdf_found (name : string)
| Pattern_used
| Directory_not_found (directory : string)
| Processing_statements_in (directory : string)
| Processing_complete
| Summary
| Total_transactions_processed (n : nat)
| Year_transactions (year : string) (n : nat)
| Failed_to_save
| No_transactions_processed.

Section StatementFiles.

(** The text that [self.directory] was made from, and the names of
    the files that [self.directory.glob('*.pdf')] yields, in its
    order. *)
Variable directory : string.
Variable glob_pdf : list string.

(** [get_statement_files]. *)
Definition get_statement_files : list string * list message :=
  let pdf_files :=
    map (fun name =>
           Path.str (Path.join (Path.parse directory) (Path.parse name)))
        (filter (fun name => is_some (re_match pattern name)) glob_pdf) in
  match pdf_files with
  | [] =>
      ([], ([Debugging_information; All_pdf_files_found]
              ++ map Pdf_found glob_pdf ++ [Pattern_used])%list)
  | _ => (pdf_files, [])
  end.

End StatementFiles.

(** [s.strip(chars)]. *)
Fixpoint lstrip_chars (chars : string) (s : string) : string :=
  match s with
  | EmptyString => EmptyString
  | String c s' =>
      if Str.contains_char c chars then lstrip_chars chars s' else s
  end.

Definition rstrip_chars (chars : string) (s : string) : string :=
  Str.rev (lstrip_chars chars (Str.rev s)).

Definition strip_chars (chars : string) (s : string) : string :=
  rstrip_chars chars (lstrip_chars chars s).

(** The two characters that [main] strips: the double and the single
    quote. *)
Definition quotes : string :=
  String (ascii_of_nat 34) (String (ascii_of_nat 39) EmptyString).

Section Main.

(** The outside world of [main]: [os.path.isdir], how [pathlib.Path]
    writes a directory, what each directory holds, what [pdfplumber]
    makes of each path and what happens to each output file. *)
Variable isdir : string -> bool.
Variable path_of : string -> string.
Variable glob_pdf : string -> list string.
Variable pdf_open : string -> document.
Variable io : string -> io_outcome.

(** [sum(len(trans) for trans in parser.transactions_by_year.values())] *)
Definition total_transactions (agg : aggregator) : nat :=
  list_sum (map (fun entry => List.length (snd entry)) agg).

(** The lines of the summary, one for each year in
    [sorted(parser.transactions_by_year.keys())]. *)
Definition summary (agg : aggregator) : list message :=
  map (fun year => Year_transactions year (List.length (ledger year agg)))
      (Sorting.sorted String.ltb (fun y => y) (map fst agg)).

(** [main], [typed] being what [input] returns. *)
Definition main (typed : string) (fs : file_system)
  : file_system * list message :=
  let directory := strip_chars quotes (Str.strip typed) in
  if negb (isdir directory) then (fs, [Directory_not_found directory])
  else
    let out := [Processing_statements_in directory] in
    let self_directory := path_of directory in
    let '(pdf_files, printed) :=
      get_statement_files self_directory (glob_pdf self_directory) in
    let out := (out ++ printed)%list in
    let '(processed, agg, printed) :=
      process_all_statements pdf_open pdf_files [] in
    let out := (out ++ map Printed printed)%list in
    if processed then
      let '(saved, fs', printed) :=
        save_transactions_by_year self_directory io agg fs in
      let out := (out ++ map Printed printed)%list in
      if saved then
        (fs', (out ++ [Processing_complete; Summary;
                       Total_transactions_processed (total_transactions agg)]
                   ++ summary agg)%list)
      else (fs', (out ++ [Failed_to_save])%list)
    else (fs, (out ++ [No_transactions_processed])%list).

End Main.

(* ================================================================== *)
(** * More shapes of texts and of runs *)
(* ================================================================== *)

Module Forms.
Import Str.

Definition month_names : list string :=
  ["Jan"; "Feb"; "Mar"; "Apr"; "May"; "Jun";
   "Jul"; "Aug"; "Sep"; "Oct"; "Nov"; "Dec"].

(** The name of a statement file: four digits, a blank, the
    abbreviation of a month, [ CreditCardStatement.pdf], and then
    anything. *)
Definition statement_name (name : string) : Prop :=
  exists y m tail : string,
    name = y ++ " " ++ m ++ " CreditCardStatement.pdf" ++ tail
    /\ digits_exactly 4 y /\ In m month_names.

(** A name of a directory entry: no [/] in it. *)
Definition entry_name (name : string) : Prop :=
  contains_char "/" name = false.

(** A run of blanks, one at least. *)
Definition blanks (ws : string) : Prop :=
  ws <> "" /\ forall_chars is_space ws = true.

(** A capitalised word of three letters, blanks, one or two digits. *)
Definition month_day_text (text : string) : Prop :=
  exists a ws d : string,
    text = a ++ ws ++ d
    /\ capitalized3 a = true /\ blanks ws /\ day_digits d = true.

(** [text] is [t], possibly with one newline after it. *)
Definition up_to_newline (t text : string) : Prop :=
  text = t \/ text = t ++ String newline "".

(** What one line of a page adds to the records and to what is
    printed. *)
Definition line_records (year line : string) : list transaction :=
  if is_transaction_line (split line) then
    match extract year (split line) with
    | Ok t => [t]
    | Raise _ => []
    end
  else [].

Definition line_warnings (pdf_name year line : string) : list event :=
  if is_transaction_line (split line) then
    match extract year (split line) with
    | Ok _ => []
    | Raise e => [Warning_could_not_parse_line pdf_name line; Error_detail e]
    end
  else [].

(** The lines of the pages, one page after the other. *)
Definition lines_of (texts : list string) : list string :=
  flat_map (split_on newline) texts.

(** The records that a file contributes: those of [parse_statement],
    none when it returns [None]. *)
Definition records_of (pdf_open : string -> document) (pdf_file : string)
  : list transaction :=
  match fst (parse_statement pdf_open pdf_file) with
  | Some transactions => transactions
  | None => []
  end.

(** The records of the files labelled [year], file after file. *)
Definition year_records (pdf_open : string -> document) (year : string)
           (files : list string) : list transaction :=
  flat_map (fun f => if String.eqb (extract_year_from_filename f) year
                     then records_of pdf_open f else [])
           files.

(** Each year once, and no year without a record. *)
Definition well_formed (agg : aggregator) : Prop :=
  NoDup (map fst agg) /\ Forall (fun entry => snd entry <> []) agg.

(** Both dates of the record are written in the year [year]. *)
Definition in_year (year : string) (t : transaction) : Prop :=
  take 4 (transaction_date t) = year /\ take 4 (post_date t) = year.

(** A text without its first characters that satisfy [p], and without
    those at both ends. *)
Fixpoint drop_while (p : ascii -> bool) (s : string) : string :=
  match s with
  | EmptyString => EmptyString
  | String c s' => if p c then drop_while p s' else s
  end.

Definition trim (p : ascii -> bool) (s : string) : string :=
  rev (drop_while p (rev (drop_while p s))).

(** The first character of [s], if there is one, satisfies [p]. *)
Definition starts_with (p : ascii -> bool) (s : string) : Prop :=
  match s with
  | EmptyString => True
  | String c _ => p c = true
  end.

Definition is_quote (c : ascii) : bool := contains_char c quotes.

(** A text that neither starts nor ends with a blank or a quote. *)
Definition plain (c : ascii) : bool := negb (is_space c) && negb (is_quote c).

Definition bare (p : string) : Prop :=
  starts_with plain p /\ starts_with plain (rev p).

End Forms.
Import Forms.
(* ================================================================== *)
(** * The matcher against the declarative reading *)
(* ================================================================== *)

Module RegexFacts.

Lemma star_rel_measure (R : mstate -> mstate -> Prop) :
  (forall st st', R st st' -> measure st' = measure st) ->
  forall st st', star_rel R st st' -> measure st' = measure st.
Proof.
  intros HR st st' H. induction H as [st | st st1 st2 H1 Hlt H2 IH].
  - reflexivity.
  - rewrite IH. now apply HR.
Qed.

Lemma matches_measure (r : regex) :
  forall st st', matches r st st' -> measure st' = measure st.
Proof.
  induction r as [ | p | r1 IH1 r2 IH2 | r1 IH1 r2 IH2 | r1 IH1 | | | name r1 IH1];
    simpl; intros st st' H.
  - now subst.
  - destruct H as (c & s' & Hrest & _ & ->).
    unfold measure, step. simpl. rewrite Hrest. simpl. lia.
  - destruct H as (mid & Ha & Hb). rewrite (IH2 _ _ Hb). now apply IH1.
  - destruct H as [H | H]; auto.
  - now apply (@star_rel_measure (matches r1) IH1).
  - now destruct H as [_ ->].
  - now destruct H as [_ ->].
  - destruct H as (e & He & ->). rewrite <- (IH1 _ _ He). reflexivity.
Qed.

Section Soundness.
Variable A : Type.

Lemma star_loop_sound (body : mstate -> (mstate -> option A) -> option A)
      (R : mstate -> mstate -> Prop) :
  (forall st k x, body st k = Some x -> exists st', R st st' /\ k st' = Some x) ->
  forall fuel st k x,
    star_loop body fuel st k = Some x ->
    exists st', star_rel R st st' /\ k st' = Some x.
Proof.
  intros Hbody fuel.
  induction fuel as [ | fuel IH]; simpl; intros st k x H.
  - exists st. split; [constructor | exact H].
  - destruct (body st _) as [y | ] eqn:Hb.
    + injection H as ->.
      apply Hbody in Hb. destruct Hb as (st1 & HR & Hk).
      destruct (pos st <? pos st1) eqn:Hlt; [ | discriminate].
      apply Nat.ltb_lt in Hlt.
      apply IH in Hk. destruct Hk as (st2 & Hs & Hk).
      exists st2. split; [ | exact Hk].
      now apply star_more with st1.
    + exists st. split; [constructor | exact H].
Qed.

(** Soundness: the state that the matcher hands to its continuation
    is one that the pattern allows. *)
Lemma rmatch_sound (r : regex) :
  forall st (k : mstate -> option A) x,
    rmatch r st k = Some x ->
    exists st', matches r st st' /\ k st' = Some x.
Proof.
  induction r as [ | p | r1 IH1 r2 IH2 | r1 IH1 r2 IH2 | r1 IH1 | | | name r1 IH1];
    simpl; intros st k x H.
  - now exists st.
  - destruct (rest st) as [ | c s'] eqn:Hrest; [discriminate | ].
    destruct (p c) eqn:Hp; [ | discriminate].
    exists (step st s'). split; [ | exact H]. now exists c, s'.
  - apply IH1 in H. destruct H as (mid & Ha & H).
    apply IH2 in H. destruct H as (st' & Hb & H).
    exists st'. split; [ | exact H]. now exists mid.
  - destruct (rmatch r1 st k) as [y | ] eqn:H1.
    + apply IH1 in H1. destruct H1 as (st' & Ha & Hk).
      exists st'. split; [now left | congruence].
    + apply IH2 in H. destruct H as (st' & Hb & Hk).
      exists st'. split; [now right | exact Hk].
  - now apply (@star_loop_sound (rmatch (A:=A) r1) (matches r1) IH1) in H.
  - destruct (pos st =? 0) eqn:Hp; [ | discriminate].
    apply Nat.eqb_eq in Hp. now exists st.
  - destruct (rest st) as [ | c [ | c' s']] eqn:Hrest; try discriminate.
    + exists st. auto.
    + destruct (Ascii.eqb c newline) eqn:Hc; [ | discriminate].
      apply Ascii.eqb_eq in Hc. subst c. exists st. auto.
  - apply IH1 in H. destruct H as (e & He & H).
    exists (close_group name st e). split; [ | exact H]. now exists e.
Qed.

Lemma star_loop_complete (body : mstate -> (mstate -> option A) -> option A)
      (R : mstate -> mstate -> Prop) :
  (forall st st', R st st' -> measure st' = measure st) ->
  (forall st st', R st st' ->
     forall k, k st' <> None -> body st k <> None) ->
  forall st st', star_rel R st st' ->
  forall fuel k, String.length (rest st) <= fuel -> k st' <> None ->
    star_loop body fuel st k <> None.
Proof.
  intros Hmeasure Hbody st st' H.
  induction H as [st | st st1 st2 H1 Hlt H2 IH]; intros fuel k Hfuel Hk.
  - destruct fuel as [ | fuel]; simpl; [exact Hk | ].
    now destruct (body st _).
  - pose proof (Hmeasure _ _ H1) as Hm. unfold measure in Hm.
    destruct fuel as [ | fuel]; [lia | ]. simpl.
    destruct (body st _) as [y | ] eqn:Hb; [discriminate | ].
    exfalso. revert Hb. apply (Hbody _ _ H1).
    apply Nat.ltb_lt in Hlt. rewrite Hlt.
    apply IH; [ | exact Hk]. apply Nat.ltb_lt in Hlt. lia.
Qed.

(** Completeness: when the pattern allows a state that the
    continuation accepts, the matcher finds a match (that one or
    one it prefers). *)
Lemma rmatch_complete (r : regex) :
  forall st st', matches r st st' ->
  forall k : mstate -> option A, k st' <> None -> rmatch r st k <> None.
Proof.
  induction r as [ | p | r1 IH1 r2 IH2 | r1 IH1 r2 IH2 | r1 IH1 | | | name r1 IH1];
    simpl; intros st st' H k Hk.
  - now subst.
  - destruct H as (c & s' & -> & -> & ->). exact Hk.
  - destruct H as (mid & Ha & Hb).
    apply (IH1 _ _ Ha). now apply (IH2 _ _ Hb).
  - destruct (rmatch r1 st k) as [y | ] eqn:H1; [discriminate | ].
    destruct H as [H | H].
    + exfalso. revert H1. now apply (IH1 _ _ H).
    + now apply (IH2 _ _ H).
  - apply (@star_loop_complete (rmatch (A:=A) r1) (matches r1)
                               (matches_measure r1) IH1 _ _ H); auto.
  - destruct H as [-> ->]. exact Hk.
  - destruct H as [[-> | ->] ->]; [exact Hk | ].
    now rewrite Ascii.eqb_refl.
  - destruct H as (e & He & ->). now apply (IH1 _ _ He).
Qed.
End Soundness.

(** [bool(re.match(r, text))] says whether the pattern allows a match
    from the start of the text. *)
Lemma re_match_iff (r : regex) (text : string) :
  is_some (re_match r text) = true <->
  exists st', matches r (MState 0 text []) st'.
Proof.
  unfold re_match. split.
  - destruct (rmatch r _ _) as [x | ] eqn:H; [ | discriminate]. intros _.
    apply rmatch_sound in H. destruct H as (st' & H & _). now exists st'.
  - intros (st' & H).
    destruct (rmatch r _ _) as [x | ] eqn:Hr; [reflexivity | ].
    exfalso. revert Hr. now apply (@rmatch_complete _ _ _ _ H).
Qed.

End RegexFacts.

(* ================================================================== *)
(** * Facts on characters and strings *)
(* ================================================================== *)

Module CharFacts.

Ltac by_cases c :=
  destruct c as [[] [] [] [] [] [] [] []]; try reflexivity; try discriminate.

Lemma upper_not_space c : is_upper c = true -> is_space c = false.
Proof. by_cases c. Qed.

Lemma lower_not_space c : is_lower c = true -> is_space c = false.
Proof. by_cases c. Qed.

Lemma digit_not_space c : is_digit c = true -> is_space c = false.
Proof. by_cases c. Qed.

Lemma newline_is_space : is_space newline = true.
Proof. reflexivity. Qed.

Lemma digit_value_lt c : is_digit c = true -> digit_value c < 10.
Proof. by_cases c; intros _; vm_compute; lia. Qed.

Lemma lit_eq a c : lit a c = true -> c = a.
Proof. unfold lit. intros H. apply Ascii.eqb_eq in H. now subst. Qed.

Lemma lit_refl a : lit a a = true.
Proof. apply Ascii.eqb_refl. Qed.

End CharFacts.

Module StrFacts.
Import Str.

Lemma append_nil_r s : s ++ "" = s.
Proof. induction s as [ | c s IH]; simpl; congruence. Qed.

Lemma append_assoc s1 s2 s3 : (s1 ++ s2) ++ s3 = s1 ++ (s2 ++ s3).
Proof. induction s1 as [ | c s1 IH]; simpl; congruence. Qed.

Lemma length_append s1 s2 :
  String.length (s1 ++ s2) = String.length s1 + String.length s2.
Proof. induction s1 as [ | c s1 IH]; simpl; congruence. Qed.

Lemma append_inv_head s t1 t2 : s ++ t1 = s ++ t2 -> t1 = t2.
Proof.
  induction s as [ | c s IH]; simpl; intros H; [exact H | ].
  injection H as H. auto.
Qed.

Lemma append_inv_tail s1 s2 t : s1 ++ t = s2 ++ t -> s1 = s2.
Proof.
  revert s2. induction s1 as [ | c s1 IH]; intros [ | c2 s2]; simpl; intros H.
  - reflexivity.
  - exfalso. apply (f_equal String.length) in H. simpl in H.
    rewrite length_append in H. lia.
  - exfalso. apply (f_equal String.length) in H. simpl in H.
    rewrite length_append in H. lia.
  - injection H as -> H. f_equal. now apply IH.
Qed.

Lemma forall_chars_append p s1 s2 :
  forall_chars p (s1 ++ s2) = forall_chars p s1 && forall_chars p s2.
Proof.
  induction s1 as [ | c s1 IH]; simpl; [reflexivity | ].
  now rewrite IH, andb_assoc.
Qed.

Lemma forall_chars_impl (p q : ascii -> bool) s :
  (forall c, p c = true -> q c = true) ->
  forall_chars p s = true -> forall_chars q s = true.
Proof.
  intros Hpq. induction s as [ | c s IH]; simpl; [reflexivity | ].
  intros H. apply andb_true_iff in H. destruct H as [Hc Hs].
  now rewrite (Hpq _ Hc), IH.
Qed.

Lemma is_token_inv s : is_token s -> s <> "" /\ no_space s = true.
Proof.
  unfold is_token. intros H. apply andb_true_iff in H. destruct H as [H1 H2].
  split; [ | exact H2]. intros ->. discriminate.
Qed.

Lemma is_token_intro c s : no_space (String c s) = true -> is_token (String c s).
Proof. intros H. unfold is_token. now rewrite H. Qed.

(** The first blank of a text is where it is: a text cut at a blank
    after a run without blanks is cut in one way only. *)
Lemma cut_at_first_space a a' w w' t t' :
  no_space a = true -> no_space a' = true ->
  is_space w = true -> is_space w' = true ->
  a ++ String w t = a' ++ String w' t' ->
  a = a' /\ w = w' /\ t = t'.
Proof.
  unfold no_space. revert a'.
  induction a as [ | c a IH]; intros [ | c' a']; simpl; intros Ha Ha' Hw Hw' H.
  - injection H as -> ->. auto.
  - injection H as -> _. rewrite Hw in Ha'. discriminate.
  - injection H as -> _. rewrite Hw' in Ha. discriminate.
  - injection H as -> H.
    apply andb_true_iff in Ha. apply andb_true_iff in Ha'.
    destruct (IH a' (proj2 Ha) (proj2 Ha') Hw Hw' H) as (-> & -> & ->). auto.
Qed.

(** The tokens of [split] are tokens. *)
Lemma split_from_tokens s :
  forall cur, no_space cur = true ->
  Forall is_token (split_from cur s).
Proof.
  induction s as [ | c s IH]; simpl; intros cur Hcur.
  - destruct cur as [ | c0 cur']; constructor; [ | constructor].
    now apply is_token_intro.
  - destruct (is_space c) eqn:Hc.
    + destruct cur as [ | c0 cur'].
      * now apply IH.
      * constructor; [ | now apply IH].
        now apply is_token_intro.
    + apply IH. unfold no_space in *. rewrite forall_chars_append, Hcur. simpl.
      now rewrite Hc.
Qed.

Lemma split_tokens s : Forall is_token (split s).
Proof. now apply split_from_tokens. Qed.

Lemma Forall_nth (P : string -> Prop) (l : list string) n :
  Forall P l -> n < List.length l -> P (nth n l "").
Proof.
  intros H. revert n. induction H as [ | x l Hx Hl IH]; simpl; intros n Hn; [lia | ].
  destruct n as [ | n]; [exact Hx | ]. apply IH. lia.
Qed.

Lemma Forall_last (P : string -> Prop) (l : list string) :
  Forall P l -> l <> [] -> P (last l "").
Proof.
  intros H. induction H as [ | x l Hx Hl IH]; intros Hne; [congruence | ].
  destruct l as [ | y l']; [exact Hx | ].
  change (P (last (y :: l') "")). apply IH. discriminate.
Qed.

Lemma no_space_newline_end s : no_space (s ++ String newline "") = false.
Proof.
  unfold no_space. rewrite forall_chars_append. simpl.
  apply andb_false_r.
Qed.

Lemma contains_char_append a s1 s2 :
  contains_char a (s1 ++ s2) = contains_char a s1 || contains_char a s2.
Proof.
  induction s1 as [ | c s1 IH]; simpl; [reflexivity | ].
  now rewrite IH, orb_assoc.
Qed.

Lemma forall_chars_excludes (p : ascii -> bool) a s :
  forall_chars p s = true -> p a = false -> contains_char a s = false.
Proof.
  intros Hs Ha. induction s as [ | c s IH]; simpl; [reflexivity | ].
  simpl in Hs. apply andb_true_iff in Hs. destruct Hs as [Hc Hs].
  rewrite (IH Hs), orb_false_r.
  destruct (Ascii.eqb a c) eqn:E; [ | reflexivity].
  apply Ascii.eqb_eq in E. subst c. congruence.
Qed.

Lemma digits_no_space s :
  forall_chars is_digit s = true -> no_space s = true.
Proof.
  apply forall_chars_impl. intros c H.
  now rewrite (CharFacts.digit_not_space _ H).
Qed.

End StrFacts.

(* ================================================================== *)
(** * The classifier: what [is_date] and [is_amount] accept *)
(* ================================================================== *)

Module ClassifierFacts.
Import Str StrFacts CharFacts RegexFacts.

Ltac break_matches :=
  repeat match goal with
         | H : exists _, _ |- _ => destruct H
         | H : _ /\ _ |- _ => destruct H
         end.

Lemma matches_chr (p : ascii -> bool) st c s' :
  rest st = String c s' -> p c = true -> matches (Chr p) st (step st s').
Proof. intros Hr Hp. simpl. now exists c, s'. Qed.

Ltac chr_ok :=
  eapply matches_chr;
  [ first [eassumption | reflexivity] | first [assumption | apply lit_refl] ].

Lemma matches_seq r1 r2 st mid st' :
  matches r1 st mid -> matches r2 mid st' -> matches (r1 >> r2) st st'.
Proof. intros H1 H2. simpl. now exists mid. Qed.

(** A repetition of a class stops at once on a character outside of
    the class. *)
Lemma star_chr_stop (p : ascii -> bool) st st' :
  star_rel (matches (Chr p)) st st' ->
  (forall c s, rest st = String c s -> p c = false) ->
  st' = st.
Proof.
  intros H Hp. destruct H as [st | st st1 st2 H1 _ _]; [reflexivity | ].
  simpl in H1. destruct H1 as (c & s' & Hr & Hc & _).
  rewrite (Hp _ _ Hr) in Hc. discriminate.
Qed.

Lemma no_space_head c s :
  no_space (String c s) = true -> is_space c = false.
Proof.
  unfold no_space. simpl. intros H. apply andb_true_iff in H.
  destruct H as [H _]. now destruct (is_space c).
Qed.

Lemma is_date_tokens_sound a b :
  is_token a -> is_token b ->
  is_date (a ++ " " ++ b) = true ->
  capitalized3 a = true /\ day_digits b = true.
Proof.
  intros Ha Hb H.
  apply is_token_inv in Ha. destruct Ha as [Ha1 Ha2].
  apply is_token_inv in Hb. destruct Hb as [Hb1 Hb2].
  unfold no_space in Ha2, Hb2.
  apply re_match_iff in H. destruct H as (st' & H).
  unfold date_pattern, Plus, Range in H. simpl in H.
  destruct H as (m0 & [_ ->] & m1 & (u & s1 & Hu & Hup & ->) & H).
  destruct H as (m2 & (m3 & (l1 & s2 & Hl1 & Hlo1 & ->) & m4 &
                        (l2 & s3 & Hl2 & Hlo2 & ->) & ->) & H).
  destruct H as (m5 & (m6 & (w & s4 & Hw & Hsp & ->) & Hstar) & H).
  simpl in *. subst s1 s2 s3.
  assert (Hcut : a = String u (String l1 (String l2 "")) /\ " "%char = w /\ b = s4).
  { change (String u (String l1 (String l2 (String w s4))))
      with (String u (String l1 (String l2 "")) ++ String w s4) in Hu.
    assert (Hn : no_space (String u (String l1 (String l2 ""))) = true).
    { unfold no_space. simpl.
      now rewrite (upper_not_space _ Hup), (lower_not_space _ Hlo1),
        (lower_not_space _ Hlo2). }
    exact (cut_at_first_space _ _ _ _ _ _ Ha2 Hn (eq_refl : is_space " " = true) Hsp Hu). }
  destruct Hcut as (-> & <- & <-).
  split; [simpl; now rewrite Hup, Hlo1, Hlo2 | ].
  apply star_chr_stop in Hstar.
  2:{ simpl. intros c s ->. now apply no_space_head with s. }
  subst m5.
  destruct H as (m7 & (m8 & (m9 & (d1 & s5 & Hd1 & Hdig1 & ->) & ->) & Hopt)
                 & [Hend ->]).
  simpl in Hd1. subst b.
  destruct Hopt as [(m10 & (d2 & s6 & Hd2 & Hdig2 & ->) & ->) | ->];
    simpl in *.
  - subst s5. destruct Hend as [-> | ->].
    + simpl. now rewrite Hdig1, Hdig2.
    + exfalso. simpl in Hb2.
      destruct (is_space d1), (is_space d2); discriminate.
  - destruct Hend as [-> | ->].
    + simpl. exact Hdig1.
    + exfalso. simpl in Hb2.
      destruct (is_space d1); discriminate.
Qed.

Lemma is_date_tokens_complete a b :
  capitalized3 a = true -> day_digits b = true ->
  is_date (a ++ " " ++ b) = true.
Proof.
  intros Ha Hb.
  destruct a as [ | u [ | l1 [ | l2 [ | ? ?]]]]; try discriminate.
  simpl in Ha. rewrite !andb_true_iff in Ha. destruct Ha as [[Hu H1] H2].
  destruct b as [ | d1 [ | d2 [ | ? ?]]]; try discriminate; simpl in Hb.
  - unfold is_date, re_match, date_pattern, Plus, Range. simpl.
    rewrite Hu, H1, H2. simpl. rewrite Hb. simpl.
    now rewrite (digit_not_space _ Hb).
  - rewrite andb_true_iff in Hb. destruct Hb as [Hd1 Hd2].
    unfold is_date, re_match, date_pattern, Plus, Range. simpl.
    rewrite Hu, H1, H2. simpl. rewrite Hd1, Hd2. simpl.
    now rewrite (digit_not_space _ Hd1).
Qed.

(** On two tokens joined by a blank, [is_date] holds exactly when the
    first is a capitalised word of three letters and the second is one
    or two digits. *)
Lemma is_date_tokens a b :
  is_token a -> is_token b ->
  is_date (a ++ " " ++ b) = capitalized3 a && day_digits b.
Proof.
  intros Ha Hb.
  destruct (is_date (a ++ " " ++ b)) eqn:H.
  - apply is_date_tokens_sound in H; auto. destruct H as [-> ->]. reflexivity.
  - destruct (capitalized3 a) eqn:H1; [ | reflexivity].
    destruct (day_digits b) eqn:H2; [ | reflexivity].
    rewrite is_date_tokens_complete in H; auto.
Qed.

Lemma digits_exactly_3 a b c :
  is_digit a = true -> is_digit b = true -> is_digit c = true ->
  digits_exactly 3 (String a (String b (String c ""))).
Proof. intros Ha Hb Hc. split; [reflexivity | ]. simpl. now rewrite Ha, Hb, Hc. Qed.

Lemma digits_exactly_3_inv g :
  digits_exactly 3 g ->
  exists a b c, g = String a (String b (String c ""))
                /\ is_digit a = true /\ is_digit b = true /\ is_digit c = true.
Proof.
  intros [Hlen Hd].
  destruct g as [ | a [ | b [ | c [ | ? ?]]]]; try discriminate.
  simpl in Hd. rewrite !andb_true_iff in Hd. destruct Hd as (Ha & Hb & Hc & _).
  now exists a, b, c.
Qed.

Lemma star_chunks st st' :
  star_rel (matches chunk) st st' ->
  exists gs, Forall (digits_exactly 3) gs /\ rest st = comma_chunks gs ++ rest st'.
Proof.
  intros H. induction H as [st | st st1 st2 H1 _ _ IH].
  - exists []. split; [constructor | reflexivity].
  - destruct IH as (gs & Hgs & Hrest).
    simpl in H1.
    destruct H1 as (m0 & (k & s0 & Hk & Hlit & ->) &
                    m1 & (a & s1 & Ha & Hda & ->) &
                    m2 & (b & s2 & Hb & Hdb & ->) &
                    m3 & (c & s3 & Hc & Hdc & ->) & ->).
    apply lit_eq in Hlit. subst k. simpl in Ha, Hb, Hc. subst s0 s1 s2.
    exists (String a (String b (String c "")) :: gs). split.
    + constructor; [now apply digits_exactly_3 | exact Hgs].
    + simpl in Hrest. rewrite Hk, Hrest. reflexivity.
Qed.

Lemma star_chunks_build gs :
  Forall (digits_exactly 3) gs ->
  forall st tail, rest st = comma_chunks gs ++ tail ->
  exists st', star_rel (matches chunk) st st' /\ rest st' = tail.
Proof.
  intros H. induction H as [ | g gs Hg _ IH]; intros st tail Hrest.
  - exists st. split; [constructor | exact Hrest].
  - apply digits_exactly_3_inv in Hg.
    destruct Hg as (a & b & c & -> & Ha & Hb & Hc). simpl in Hrest.
    set (st1 := step (step (step (step st (String a (String b (String c
                  (comma_chunks gs ++ tail)))))
                  (String b (String c (comma_chunks gs ++ tail))))
                  (String c (comma_chunks gs ++ tail)))
                  (comma_chunks gs ++ tail)).
    destruct (IH st1 tail eq_refl) as (st' & Hstar & Htail).
    exists st'. split; [ | exact Htail].
    apply star_more with st1; [ | simpl; lia | exact Hstar].
    unfold chunk. simpl.
    eexists. split; [exists ","%char; eexists; repeat split; eauto | ].
    eexists. split; [exists a; eexists; repeat split; eauto | ].
    eexists. split; [exists b; eexists; repeat split; eauto | ].
    eexists. split; [exists c; eexists; repeat split; eauto | ].
    reflexivity.
Qed.

Lemma chr_inv (p : ascii -> bool) st st' :
  matches (Chr p) st st' ->
  exists c, p c = true /\ rest st = String c (rest st').
Proof. intros (c & s' & Hr & Hp & ->). exists c. auto. Qed.

(** [\d{1,3}] *)
Lemma head_inv st st' :
  matches (Range 1 3 (Chr is_digit)) st st' ->
  exists head, digits_upto 3 head /\ rest st = head ++ rest st'.
Proof.
  unfold Range. simpl Nat.sub. simpl Rep. simpl UpTo. unfold Opt.
  intros (m0 & (m1 & H1 & ->) & H).
  apply chr_inv in H1. destruct H1 as (d1 & Hd1 & Hr1).
  destruct H as [(m2 & H2 & H) | ->].
  - apply chr_inv in H2. destruct H2 as (d2 & Hd2 & Hr2).
    destruct H as [(m3 & H3 & ->) | ->].
    + apply chr_inv in H3. destruct H3 as (d3 & Hd3 & Hr3).
      exists (String d1 (String d2 (String d3 ""))). split.
      * split; [simpl; lia | simpl; now rewrite Hd1, Hd2, Hd3].
      * rewrite Hr1, Hr2, Hr3. reflexivity.
    + exists (String d1 (String d2 "")). split.
      * split; [simpl; lia | simpl; now rewrite Hd1, Hd2].
      * rewrite Hr1, Hr2. reflexivity.
  - exists (String d1 ""). split.
    + split; [simpl; lia | simpl; now rewrite Hd1].
    + rewrite Hr1. reflexivity.
Qed.

Lemma head_build head :
  digits_upto 3 head ->
  forall st tail, rest st = head ++ tail ->
  exists st', matches (Range 1 3 (Chr is_digit)) st st' /\ rest st' = tail.
Proof.
  intros [Hlen Hd] st tail Hrest.
  unfold Range. simpl Nat.sub. simpl Rep. simpl UpTo. unfold Opt.
  destruct head as [ | d1 [ | d2 [ | d3 [ | ? ?]]]]; simpl in Hlen; try lia;
    simpl in Hd; rewrite ?andb_true_iff in Hd; simpl in Hrest.
  - destruct Hd as (Hd1 & _).
    exists (step st tail). split; [ | reflexivity].
    exists (step st tail). split.
    + exists (step st tail). split; [chr_ok | reflexivity].
    + right. reflexivity.
  - destruct Hd as (Hd1 & Hd2 & _).
    exists (step (step st (String d2 tail)) tail). split; [ | reflexivity].
    exists (step st (String d2 tail)). split.
    + eexists. split; [chr_ok | reflexivity].
    + left. eexists. split; [chr_ok | ]. right. reflexivity.
  - destruct Hd as (Hd1 & Hd2 & Hd3 & _).
    exists (step (step (step st (String d2 (String d3 tail))) (String d3 tail)) tail).
    split; [ | reflexivity].
    exists (step st (String d2 (String d3 tail))). split.
    + eexists. split; [chr_ok | reflexivity].
    + left. eexists. split; [chr_ok | ].
      left. eexists. split; [chr_ok | reflexivity].
Qed.

Lemma tail_inv st st' :
  matches tail_pattern st st' ->
  exists cents, digits_exactly 2 cents
                /\ (rest st = String "." cents
                    \/ rest st = String "." (cents ++ String newline "")).
Proof.
  intros (m0 & H0 & m1 & (m2 & H1 & m3 & H2 & ->) & Hend & ->).
  apply chr_inv in H0. destruct H0 as (c0 & Hc0 & Hr0).
  apply chr_inv in H1. destruct H1 as (c1 & Hc1 & Hr1).
  apply chr_inv in H2. destruct H2 as (c2 & Hc2 & Hr2).
  apply lit_eq in Hc0. subst c0.
  exists (String c1 (String c2 "")). split.
  - split; [reflexivity | simpl; now rewrite Hc1, Hc2].
  - rewrite Hr0, Hr1, Hr2. destruct Hend as [-> | ->]; auto.
Qed.

Lemma tail_build cents :
  digits_exactly 2 cents ->
  forall st last, rest st = String "." (cents ++ last) ->
  last = "" \/ last = String newline "" ->
  exists st', matches tail_pattern st st'.
Proof.
  intros [Hlen Hd] st last Hrest Hlast.
  destruct cents as [ | c1 [ | c2 [ | ? ?]]]; try discriminate.
  simpl in Hd. rewrite !andb_true_iff in Hd. destruct Hd as (Hc1 & Hc2 & _).
  simpl in Hrest.
  exists (step (step (step st (String c1 (String c2 last))) (String c2 last)) last).
  exists (step st (String c1 (String c2 last))). split.
  { chr_ok. }
  eexists. split.
  { eexists. split; [chr_ok | ].
    eexists. split; [chr_ok | reflexivity]. }
  split; [exact Hlast | reflexivity].
Qed.

(** What [is_amount] accepts, read off the pattern: an amount of the
    grammar, possibly followed by one newline (where [$] also
    matches). *)
Lemma is_amount_sound text :
  is_amount text = true ->
  exists tok, amount_grammar tok
              /\ (text = tok \/ text = tok ++ String newline "").
Proof.
  intros H. apply re_match_iff in H. destruct H as (st' & H).
  destruct H as (m0 & [_ ->] & m1 & Hdollar & m2 & Hhead & m3 & Hstar & Htail).
  apply chr_inv in Hdollar. destruct Hdollar as (c & Hc & Hr0).
  apply lit_eq in Hc. subst c.
  apply head_inv in Hhead. destruct Hhead as (head & Hhead & Hr1).
  apply star_chunks in Hstar. destruct Hstar as (gs & Hgs & Hr2).
  apply tail_inv in Htail. destruct Htail as (cents & Hcents & Hr3).
  simpl in Hr0. subst text. rewrite Hr1, Hr2.
  exists (String "$" (head ++ comma_chunks gs ++ String "." cents)). split.
  - now exists head, gs, cents.
  - destruct Hr3 as [-> | ->]; [left; reflexivity | right].
    simpl. now rewrite !append_assoc.
Qed.

Lemma is_amount_complete tok last :
  amount_grammar tok ->
  last = "" \/ last = String newline "" ->
  is_amount (tok ++ last) = true.
Proof.
  intros (head & gs & cents & -> & Hhead & Hgs & Hcents) Hlast.
  apply re_match_iff.
  set (st0 := MState 0 (String "$" (head ++ comma_chunks gs ++ String "." cents) ++ last) []).
  assert (Hr : rest (step st0 (head ++ comma_chunks gs ++ String "." (cents ++ last)))
               = head ++ comma_chunks gs ++ String "." (cents ++ last)) by reflexivity.
  destruct (head_build Hhead _ _ Hr) as (st2 & H2 & Hr2).
  destruct (star_chunks_build Hgs _ _ Hr2) as (st3 & H3 & Hr3).
  destruct (tail_build Hcents _ Hr3 Hlast) as (st4 & H4).
  exists st4. exists st0. split; [split; reflexivity | ].
  exists (step st0 (head ++ comma_chunks gs ++ String "." (cents ++ last))). split.
  { eapply matches_chr; [ | apply lit_refl].
    unfold st0. simpl. now rewrite !append_assoc. }
  exists st2. split; [exact H2 | ].
  exists st3. split; [exact H3 | exact H4].
Qed.

Lemma amount_grammar_chars tok :
  amount_grammar tok ->
  forall_chars (fun c => is_digit c || lit "$" c || lit "," c || lit "." c) tok = true.
Proof.
  intros (head & gs & cents & -> & [_ Hhead] & Hgs & [_ Hcents]).
  simpl. rewrite !forall_chars_append. simpl.
  assert (Hd : forall s, forall_chars is_digit s = true ->
               forall_chars (fun c => is_digit c || lit "$" c || lit "," c || lit "." c) s = true).
  { intros s. apply forall_chars_impl. intros c ->. reflexivity. }
  rewrite (Hd _ Hhead), (Hd _ Hcents). simpl.
  induction Hgs as [ | g gs [_ Hg] _ IH]; [reflexivity | ].
  simpl. rewrite forall_chars_append, (Hd _ Hg). exact IH.
Qed.

End ClassifierFacts.

(* ================================================================== *)
(** * The line classifier: claims C1 and C2 *)
(* ================================================================== *)

Module Classifier.
Import Str StrFacts CharFacts RegexFacts ClassifierFacts.

(** No text with a minus sign passes [is_amount]. *)
Lemma is_amount_no_sign text :
  contains_char "-" text = true -> is_amount text = false.
Proof.
  intros Hsign. destruct (is_amount text) eqn:H; [ | reflexivity].
  apply is_amount_sound in H. destruct H as (tok & Hg & Htext).
  apply amount_grammar_chars in Hg.
  apply forall_chars_excludes with (a := "-"%char) in Hg; [ | reflexivity].
  destruct Htext as [-> | ->]; [congruence | ].
  rewrite contains_char_append, Hg in Hsign. discriminate.
Qed.

(** On a token, [is_amount] holds exactly on the amounts of the
    grammar. *)
Lemma is_amount_token tok :
  is_token tok -> (is_amount tok = true <-> amount_grammar tok).
Proof.
  intros Htok. apply is_token_inv in Htok. destruct Htok as [_ Hns]. split.
  - intros H. apply is_amount_sound in H. destruct H as (t & Hg & [-> | ->]).
    + exact Hg.
    + rewrite no_space_newline_end in Hns. discriminate.
  - intros Hg. rewrite <- (append_nil_r tok).
    apply is_amount_complete; auto.
Qed.

Lemma length_ge_4 (parts : list string) :
  4 <= List.length parts -> (4 <=? List.length parts) = true.
Proof. intros H. now apply Nat.leb_le. Qed.

(** C1.  A line split on blanks is classified as a transaction line if
    and only if it has four tokens or more, its first token is a
    capitalised word of three letters and its second one or two
    digits (the two joined by a blank match the month-and-day
    pattern), and its last token matches the amount pattern.  Nothing
    else is looked at: a line of fewer than four tokens is never
    classified, and two lines of four tokens or more with the same
    first, second and last token are classified alike, whatever their
    tokens 2 and 3 and the tokens in between. *)
Theorem classification_conditions :
  forall line : string,
    let parts := Str.split line in
    (is_transaction_line parts = true <->
       4 <= List.length parts
       /\ capitalized3 (nth 0 parts "") && day_digits (nth 1 parts "") = true
       /\ is_amount (last parts "") = true)
    /\ (List.length parts < 4 -> is_transaction_line parts = false)
    /\ (forall line' : string,
          let parts' := Str.split line' in
          4 <= List.length parts -> 4 <= List.length parts' ->
          nth 0 parts' "" = nth 0 parts "" ->
          nth 1 parts' "" = nth 1 parts "" ->
          last parts' "" = last parts "" ->
          is_transaction_line parts' = is_transaction_line parts).
Proof.
  intros line parts.
  assert (Hdate : forall l, 4 <= List.length (split l) ->
            is_date (nth 0 (split l) "" ++ " " ++ nth 1 (split l) "")
            = capitalized3 (nth 0 (split l) "") && day_digits (nth 1 (split l) "")).
  { intros l Hlen. apply is_date_tokens.
    - apply Forall_nth; [apply split_tokens | lia].
    - apply Forall_nth; [apply split_tokens | lia]. }
  split; [ | split].
  - unfold is_transaction_line. split.
    + intros H. rewrite !andb_true_iff in H. destruct H as [[Hlen Hd] Ha].
      apply Nat.leb_le in Hlen. fold parts in Hlen.
      unfold parts in *. rewrite (Hdate _ Hlen) in Hd. auto.
    + intros (Hlen & Hd & Ha). unfold parts in *.
      now rewrite (length_ge_4 _ Hlen), (Hdate _ Hlen), Hd, Ha.
  - intros Hlen. unfold is_transaction_line.
    destruct (4 <=? List.length parts) eqn:E; [ | reflexivity].
    apply Nat.leb_le in E. lia.
  - intros line' parts' Hlen Hlen' H0 H1 Hlast. unfold is_transaction_line.
    now rewrite (length_ge_4 _ Hlen), (length_ge_4 _ Hlen'), H0, H1, Hlast.
Qed.

(** C2, as the pattern has it.  On a token, the amount check accepts
    exactly: a [$], a first chunk of one to three digits, then chunks
    of exactly three digits each after a comma, then a point and two
    digits.  No text with a minus sign is accepted, and no line whose
    last token has one is classified. *)
Theorem amount_check_grammar :
  forall tok : string,
    is_token tok ->
    (is_amount tok = true <-> amount_grammar tok)
    /\ (contains_char "-" tok = true -> is_amount tok = false)
    /\ (forall parts : list string,
          last parts "" = tok -> contains_char "-" tok = true ->
          is_transaction_line parts = false).
Proof.
  intros tok Htok. split; [now apply is_amount_token | split].
  - apply is_amount_no_sign.
  - intros parts Hlast Hsign. unfold is_transaction_line.
    rewrite Hlast, (is_amount_no_sign _ Hsign). apply andb_false_r.
Qed.

Lemma amount_check_grammar_witness :
  (is_amount "$1,234.56" = true <-> amount_grammar "$1,234.56")
  /\ (contains_char "-" "$1,234.56" = true -> is_amount "$1,234.56" = false)
  /\ (forall parts : list string,
        last parts "" = "$1,234.56" -> contains_char "-" "$1,234.56" = true ->
        is_transaction_line parts = false).
Proof. apply (@amount_check_grammar "$1,234.56"). reflexivity. Defined.

(** C2, as the claim words it, fails: [$1,23.45] is a [$], digits in
    chunks of at most three separated by commas, a point and two
    digits, and the check rejects it. *)
Lemma amount_check_rejects_short_chunk :
  spec_amount_grammar "$1,23.45" /\ is_amount "$1,23.45" = false.
Proof.
  split; [ | reflexivity].
  exists "1", ["23"], "45". split; [reflexivity | ].
  split; [split; [simpl; lia | reflexivity] | ].
  split; [ | split; reflexivity].
  constructor; [ | constructor]. split; [simpl; lia | reflexivity].
Qed.

End Classifier.

(* ================================================================== *)
(** * The amount parser *)
(* ================================================================== *)

Module AmountFacts.
Import Str StrFacts CharFacts RegexFacts ClassifierFacts.

(** ** [replace], [strip] and [split('.')] on the amounts *)

Lemma replace_filter a s :
  replace a "" s = filter_chars (fun c => negb (Ascii.eqb a c)) s.
Proof.
  induction s as [ | c s IH]; simpl; [reflexivity | ].
  destruct (Ascii.eqb a c); simpl; now rewrite IH.
Qed.

Lemma filter_filter (p q : ascii -> bool) s :
  filter_chars q (filter_chars p s) = filter_chars (fun c => p c && q c) s.
Proof.
  induction s as [ | c s IH]; simpl; [reflexivity | ].
  destruct (p c); simpl; [ | exact IH].
  destruct (q c); simpl; now rewrite IH.
Qed.

Lemma filter_append (p : ascii -> bool) s1 s2 :
  filter_chars p (s1 ++ s2) = filter_chars p s1 ++ filter_chars p s2.
Proof.
  induction s1 as [ | c s1 IH]; simpl; [reflexivity | ].
  destruct (p c); simpl; now rewrite IH.
Qed.

Lemma filter_all (p : ascii -> bool) s :
  forall_chars p s = true -> filter_chars p s = s.
Proof.
  induction s as [ | c s IH]; simpl; [reflexivity | ].
  intros H. apply andb_true_iff in H. destruct H as [Hc Hs].
  now rewrite Hc, IH.
Qed.

Lemma chunk_digits_are_digits gs :
  Forall (digits_exactly 3) gs -> forall_chars is_digit (chunk_digits gs) = true.
Proof.
  intros H. induction H as [ | g gs [_ Hg] _ IH]; simpl; [reflexivity | ].
  now rewrite forall_chars_append, Hg, IH.
Qed.

Lemma filter_comma_chunks (p : ascii -> bool) gs :
  (forall c, is_digit c = true -> p c = true) ->
  p ","%char = false ->
  Forall (digits_exactly 3) gs ->
  filter_chars p (comma_chunks gs) = chunk_digits gs.
Proof.
  intros Hp Hcomma Hgs.
  induction Hgs as [ | g gs [_ Hg] _ IH]; [reflexivity | ].
  simpl. rewrite Hcomma, filter_append, IH. f_equal.
  apply filter_all. revert Hg. now apply forall_chars_impl.
Qed.

(** A filter that keeps the digits and drops [$] and [,] leaves of an
    amount its digits and what it makes of the point. *)
Lemma filter_amount (p : ascii -> bool) head gs cents :
  (forall c, is_digit c = true -> p c = true) ->
  p "$"%char = false -> p ","%char = false ->
  forall_chars is_digit head = true ->
  Forall (digits_exactly 3) gs ->
  forall_chars is_digit cents = true ->
  filter_chars p (String "$" (head ++ comma_chunks gs ++ String "." cents))
  = (head ++ chunk_digits gs) ++ filter_chars p "." ++ cents.
Proof.
  intros Hp Hdollar Hcomma Hhead Hgs Hcents.
  assert (Hd : forall s, forall_chars is_digit s = true -> filter_chars p s = s).
  { intros s Hs. apply filter_all. revert Hs. now apply forall_chars_impl. }
  simpl. rewrite Hdollar. rewrite !filter_append, (Hd _ Hhead).
  rewrite filter_comma_chunks; auto.
  change (String "." cents) with ("." ++ cents).
  rewrite filter_append, (Hd _ Hcents).
  now rewrite append_assoc.
Qed.

Lemma rev_onto_append s acc : rev_onto s acc = rev s ++ acc.
Proof.
  unfold rev. revert acc.
  induction s as [ | c s IH]; simpl; intros acc; [reflexivity | ].
  rewrite IH, (IH (String c "")), append_assoc. reflexivity.
Qed.

Lemma rev_append s1 s2 : rev (s1 ++ s2) = rev s2 ++ rev s1.
Proof.
  induction s1 as [ | c s1 IH]; simpl.
  - now rewrite append_nil_r.
  - unfold rev in *. simpl.
    rewrite (rev_onto_append (s1 ++ s2)), (rev_onto_append s1).
    unfold rev. rewrite IH, append_assoc. reflexivity.
Qed.

Lemma rev_involutive s : rev (rev s) = s.
Proof.
  induction s as [ | c s IH]; [reflexivity | ].
  change (String c s) with (String c "" ++ s) at 1.
  rewrite rev_append, rev_append, IH. reflexivity.
Qed.

Lemma no_space_rev s : no_space (rev s) = no_space s.
Proof.
  unfold no_space. induction s as [ | c s IH]; [reflexivity | ].
  change (String c s) with (String c "" ++ s) at 1.
  rewrite rev_append, forall_chars_append, IH. simpl.
  now rewrite andb_true_r, andb_comm.
Qed.

Lemma lstrip_no_space s : no_space s = true -> lstrip s = s.
Proof.
  destruct s as [ | c s]; [reflexivity | ]. intros H.
  apply no_space_head in H. simpl. now rewrite H.
Qed.

(** [strip] leaves a text without blanks as it is, and takes a
    trailing newline away. *)
Lemma strip_no_space s last :
  s <> "" -> no_space s = true -> last = "" \/ last = String newline "" ->
  strip (s ++ last) = s.
Proof.
  intros Hne Hs Hlast. unfold strip, rstrip.
  assert (Hl : lstrip (s ++ last) = s ++ last).
  { destruct s as [ | c s]; [congruence | ].
    simpl. apply no_space_head in Hs. now rewrite Hs. }
  rewrite Hl, rev_append.
  assert (Hr : lstrip (rev last ++ rev s) = rev s).
  { destruct Hlast as [-> | ->]; simpl;
      apply lstrip_no_space; now rewrite no_space_rev. }
  rewrite Hr. apply rev_involutive.
Qed.

Lemma split_on_from_none sep cur s :
  contains_char sep s = false -> split_on_from sep cur s = [cur ++ s].
Proof.
  revert cur. induction s as [ | c s IH]; simpl; intros cur H.
  - now rewrite append_nil_r.
  - apply orb_false_iff in H. destruct H as [Hc Hs].
    rewrite Hc, (IH _ Hs), append_assoc. reflexivity.
Qed.

Lemma split_on_from_one sep cur s1 s2 :
  contains_char sep s1 = false -> contains_char sep s2 = false ->
  split_on_from sep cur (s1 ++ String sep s2) = [cur ++ s1; s2].
Proof.
  revert cur. induction s1 as [ | c s1 IH]; simpl; intros cur H1 H2.
  - rewrite Ascii.eqb_refl, append_nil_r.
    now rewrite (split_on_from_none _ _ _ H2).
  - apply orb_false_iff in H1. destruct H1 as [Hc Hs].
    rewrite Hc, (IH _ Hs H2), append_assoc. reflexivity.
Qed.

Lemma digits_no_point s :
  forall_chars is_digit s = true -> contains_char "." s = false.
Proof. intros H. now apply forall_chars_excludes with (p := is_digit). Qed.

(** A digit at the head is no sign. *)
Lemma head_digit_no_sign (A : Type) t c s (x y : string -> A) (z : A) :
  t = String c s -> is_digit c = true ->
  match t with
  | String "-" b => x b
  | String "+" b => y b
  | _ => z
  end = z.
Proof. intros ->. by_cases c. Qed.

(** ** [float] on digits, a point and two digits *)

Lemma float_decimal ip fp last :
  ip <> "" -> forall_chars is_digit ip = true ->
  digits_exactly 2 fp ->
  last = "" \/ last = String newline "" ->
  float ((ip ++ String "." fp) ++ last)
  = Some (binary64_of_ratio false (decimal (ip ++ fp)) 100).
Proof.
  intros Hne Hip [Hlen Hfp] Hlast. unfold float.
  rewrite strip_no_space; auto.
  2:{ destruct ip; [congruence | discriminate]. }
  2:{ unfold no_space. rewrite forall_chars_append. simpl.
      fold (no_space ip). fold (no_space fp).
      now rewrite (digits_no_space _ Hip), (digits_no_space _ Hfp). }
  destruct ip as [ | c ip']; [congruence | ].
  assert (Hc : is_digit c = true).
  { simpl in Hip. apply andb_true_iff in Hip. tauto. }
  change (String c ip' ++ String "." fp) with (String c (ip' ++ String "." fp)).
  cbv iota.
  rewrite (@head_digit_no_sign _ _ c _ (fun b => (true, b)) (fun b => (false, b)) _ eq_refl Hc).
  change (String c (ip' ++ String "." fp)) with (String c ip' ++ String "." fp).
  unfold split_on.
  rewrite split_on_from_one; auto using digits_no_point.
  simpl append at 1. rewrite Hip, Hfp. simpl negb. simpl andb.
  rewrite Hlen. reflexivity.
Qed.

(** ** What [parse_amount] returns on an accepted amount *)

Lemma parse_amount_filter s :
  parse_amount s
  = float (filter_chars (fun c => negb (Ascii.eqb "$" c) && negb (Ascii.eqb "," c)) s).
Proof. unfold parse_amount. now rewrite !replace_filter, filter_filter. Qed.

Lemma filter_newline (p : ascii -> bool) :
  p newline = true -> filter_chars p (String newline "") = String newline "".
Proof. intros H. simpl. now rewrite H. Qed.

Lemma parse_amount_grammar tok last :
  amount_grammar tok -> last = "" \/ last = String newline "" ->
  parse_amount (tok ++ last)
  = Some (binary64_of_ratio false (cents_of (tok ++ last)) 100).
Proof.
  intros (head & gs & cents & -> & [Hlen Hhead] & Hgs & Hcents) Hlast.
  rewrite parse_amount_filter. unfold cents_of.
  rewrite !filter_append.
  destruct Hcents as [Hc2 Hcents].
  rewrite !filter_amount; auto.
  2:{ intros c Hc. revert Hc. by_cases c. }
  simpl (filter_chars _ "."). 
  assert (Hl1 : filter_chars (fun c => negb (Ascii.eqb "$" c) && negb (Ascii.eqb "," c)) last = last).
  { destruct Hlast as [-> | ->]; reflexivity. }
  assert (Hl2 : filter_chars is_digit last = "").
  { destruct Hlast as [-> | ->]; reflexivity. }
  rewrite Hl1, Hl2. simpl ("" ++ cents). rewrite append_nil_r.
  change ("." ++ cents) with (String "." cents).
  apply float_decimal; auto.
  - destruct head; [simpl in Hlen; lia | discriminate].
  - rewrite forall_chars_append, Hhead. now apply chunk_digits_are_digits.
  - now split.
Qed.

(** On every text that [is_amount] accepts, [parse_amount] returns
    the binary64 number nearest to the amount: its digits, read as a
    number of cents, over 100. *)
Lemma parse_amount_accepted text :
  is_amount text = true ->
  parse_amount text = Some (binary64_of_ratio false (cents_of text) 100).
Proof.
  intros H. apply is_amount_sound in H. destruct H as (tok & Hg & [-> | ->]).
  - rewrite <- (append_nil_r tok). apply parse_amount_grammar; auto.
  - apply parse_amount_grammar; auto.
Qed.

End AmountFacts.

(* ================================================================== *)
(** * Rounding keeps the sign *)
(* ================================================================== *)

Module FloatFacts.

Lemma iter_pos_invariant (A : Type) (P : A -> Prop) (f : A -> A) :
  (forall x, P x -> P (f x)) ->
  forall p x, P x -> P (iter_pos f p x).
Proof.
  intros Hf p. induction p as [p IH | p IH | ]; simpl; intros x Hx; auto.
Qed.

Lemma shr_1_nonneg mrs : (0 <= shr_m mrs)%Z -> (0 <= shr_m (shr_1 mrs))%Z.
Proof.
  destruct mrs as [m r s]. simpl.
  destruct m as [ | [p | p | ] | p]; simpl; lia.
Qed.

Lemma shr_record_of_loc_m m l : shr_m (shr_record_of_loc m l) = m.
Proof. destruct l as [ | []]; reflexivity. Qed.

Lemma shr_fexp_nonneg prec emax m e l :
  (0 <= m)%Z -> (0 <= shr_m (fst (shr_fexp prec emax m e l)))%Z.
Proof.
  intros Hm. unfold shr_fexp, shr.
  destruct (_ - e)%Z as [ | p | p]; simpl; rewrite ?shr_record_of_loc_m; auto.
  apply iter_pos_invariant; [apply shr_1_nonneg | ].
  now rewrite shr_record_of_loc_m.
Qed.

Lemma round_nearest_even_nonneg m l :
  (0 <= m)%Z -> (0 <= round_nearest_even m l)%Z.
Proof.
  intros Hm. unfold round_nearest_even.
  destruct l as [ | []]; try destruct (Z.even m); lia.
Qed.

(** Rounding a magnitude under the sign [+] gives [+0.0], a positive
    number or [+inf]. *)
Lemma binary_round_aux_nonneg prec emax mx ex lx :
  (0 <= mx)%Z ->
  nonneg (binary_round_aux prec emax false mx ex lx) = true.
Proof.
  intros Hm. unfold binary_round_aux.
  pose proof (shr_fexp_nonneg prec emax ex lx Hm) as H1.
  destruct (shr_fexp prec emax mx ex lx) as [mrs' e']. simpl in H1.
  pose proof (round_nearest_even_nonneg (loc_of_shr_record mrs') H1) as H2.
  pose proof (shr_fexp_nonneg prec emax e' loc_Exact H2) as H3.
  destruct (shr_fexp prec emax _ e' loc_Exact) as [mrs'' e'']. simpl in H3.
  destruct (shr_m mrs'') as [ | m | m]; [reflexivity | | lia].
  now destruct (e'' <=? emax - prec)%Z.
Qed.

Lemma binary64_of_ratio_nonneg n d :
  nonneg (binary64_of_ratio false n d) = true.
Proof.
  destruct n as [ | p]; [reflexivity | ].
  unfold binary64_of_ratio, SFdiv, SFdiv_core_binary.
  match goal with
  | |- context [Z.div_eucl ?a ?b] =>
      assert (Hq : (0 <= fst (Z.div_eucl a b))%Z);
      [ | destruct (Z.div_eucl a b) as [q r] ]
  end.
  - match goal with
    | |- (0 <= fst (Z.div_eucl ?a ?b))%Z =>
        change (fst (Z.div_eucl a b)) with (a / b)%Z;
        apply Z.div_pos; [ | lia]
    end.
    match goal with
    | |- (0 <= match ?s with _ => _ end)%Z => destruct s; try lia
    end.
    apply Z.shiftl_nonneg. lia.
  - simpl in Hq. now apply binary_round_aux_nonneg.
Qed.

End FloatFacts.

(* ================================================================== *)
(** * Dates: what [strptime] reads and what [strftime] writes *)
(* ================================================================== *)

Module DateFacts.
Import Str StrFacts CharFacts RegexFacts ClassifierFacts.

(** ** What a pattern consumes, and the groups it closes *)

Lemma star_rel_consumes (R : mstate -> mstate -> Prop) :
  (forall st st', R st st' ->
     exists s, rest st = s ++ rest st' /\ pos st' = pos st + String.length s) ->
  forall st st', star_rel R st st' ->
    exists s, rest st = s ++ rest st' /\ pos st' = pos st + String.length s.
Proof.
  intros HR st st' H. induction H as [st | st st1 st2 H1 _ _ IH].
  - exists "". split; [reflexivity | simpl; lia].
  - destruct (HR _ _ H1) as (s1 & Hr1 & Hp1). destruct IH as (s2 & Hr2 & Hp2).
    exists (s1 ++ s2). split.
    + now rewrite Hr1, Hr2, append_assoc.
    + rewrite length_append. lia.
Qed.

Lemma matches_consumes (r : regex) :
  forall st st', matches r st st' ->
    exists s, rest st = s ++ rest st' /\ pos st' = pos st + String.length s.
Proof.
  induction r as [ | p | r1 IH1 r2 IH2 | r1 IH1 r2 IH2 | r1 IH1 | | | name r1 IH1];
    simpl; intros st st' H.
  - subst. exists "". split; [reflexivity | simpl; lia].
  - destruct H as (c & s' & Hr & _ & ->). exists (String c "").
    split; [exact Hr | simpl; lia].
  - destruct H as (mid & Ha & Hb).
    destruct (IH1 _ _ Ha) as (s1 & Hr1 & Hp1).
    destruct (IH2 _ _ Hb) as (s2 & Hr2 & Hp2).
    exists (s1 ++ s2). split.
    + now rewrite Hr1, Hr2, append_assoc.
    + rewrite length_append. lia.
  - destruct H as [H | H]; auto.
  - now apply (@star_rel_consumes (matches r1) IH1).
  - destruct H as [_ ->]. exists "". split; [reflexivity | simpl; lia].
  - destruct H as [_ ->]. exists "". split; [reflexivity | simpl; lia].
  - destruct H as (e & He & ->). simpl. now apply IH1.
Qed.

Lemma matches_groups (r : regex) :
  group_free r = true ->
  forall st st', matches r st st' -> groups st' = groups st.
Proof.
  induction r as [ | p | r1 IH1 r2 IH2 | r1 IH1 r2 IH2 | r1 IH1 | | | name r1 IH1];
    simpl; intros Hf st st' H; try discriminate.
  - now subst.
  - now destruct H as (c & s' & _ & _ & ->).
  - apply andb_true_iff in Hf. destruct Hf as [Hf1 Hf2].
    destruct H as (mid & Ha & Hb).
    now rewrite (IH2 Hf2 _ _ Hb), (IH1 Hf1 _ _ Ha).
  - apply andb_true_iff in Hf. destruct Hf as [Hf1 Hf2].
    destruct H as [H | H]; auto.
  - induction H as [st | st st1 st2 H1 _ _ IH]; [reflexivity | ].
    now rewrite IH, (IH1 Hf _ _ H1).
  - now destruct H as [_ ->].
  - now destruct H as [_ ->].
Qed.

Lemma substring_prefix s t : substring 0 (String.length s) (s ++ t) = s.
Proof.
  induction s as [ | c s IH]; simpl.
  - now destruct t.
  - now rewrite IH.
Qed.

(** A named group around a pattern without groups records what the
    pattern consumed. *)
Lemma group_inv name r st st' :
  group_free r = true ->
  matches (Group name r) st st' ->
  exists s e,
    matches r st e /\ rest st = s ++ rest e
    /\ rest st' = rest e /\ pos st' = pos st + String.length s
    /\ groups st' = (name, s) :: groups st.
Proof.
  intros Hf (e & He & ->).
  destruct (matches_consumes _ _ _ He) as (s & Hr & Hp).
  exists s, e. repeat split; auto. simpl.
  rewrite (matches_groups _ Hf _ _ He), Hr, Hp.
  replace (pos st + String.length s - pos st) with (String.length s) by lia.
  now rewrite substring_prefix.
Qed.

(** [\s+] *)
Lemma plus_space_inv st st' :
  matches (Plus (Chr is_space)) st st' ->
  exists w ws,
    is_space w = true /\ forall_chars is_space ws = true
    /\ rest st = String w (ws ++ rest st') /\ groups st' = groups st.
Proof.
  intros (mid & H1 & Hs).
  assert (Hg : groups st' = groups st).
  { rewrite (matches_groups (Star (Chr is_space)) eq_refl _ _ Hs).
    destruct H1 as (? & ? & _ & _ & ->). reflexivity. }
  apply chr_inv in H1. destruct H1 as (w & Hw & Hr).
  exists w.
  assert (Hws : exists ws, forall_chars is_space ws = true
                           /\ rest mid = ws ++ rest st').
  { clear Hr Hg. induction Hs as [m | m m1 m2 Hm _ _ IH].
    - now exists "".
    - destruct IH as (ws & Hws & Hrest).
      apply chr_inv in Hm. destruct Hm as (c & Hc & Hm).
      exists (String c ws). split; [simpl; now rewrite Hc | ].
      rewrite Hm, Hrest. reflexivity. }
  destruct Hws as (ws & Hws & Hrest).
  exists ws. repeat split; auto. now rewrite Hr, Hrest.
Qed.

(** ** The directives of [TimeRE] *)

Lemma word_ci_inv w :
  forall st e, matches (Word_ci w) st e ->
  exists s, rest st = s ++ rest e /\ Str.lower s = w.
Proof.
  induction w as [ | a w IH]; simpl; intros st e H.
  - subst. now exists "".
  - destruct H as (mid & H1 & H2).
    apply chr_inv in H1. destruct H1 as (c & Hc & Hr).
    destruct (IH _ _ H2) as (s & Hs & Hl).
    exists (String c s). split.
    + rewrite Hr, Hs. reflexivity.
    + unfold Str.lower in *. simpl. rewrite Hl.
      unfold lit_ci in Hc. apply Ascii.eqb_eq in Hc. now rewrite Hc.
Qed.

Lemma alts_word_ci_inv ws w0 st e :
  matches (Alts (map Word_ci ws) (Word_ci w0)) st e ->
  exists s, rest st = s ++ rest e /\ In (Str.lower s) (ws ++ [w0])%list.
Proof.
  induction ws as [ | w ws IH]; simpl; intros H.
  - apply word_ci_inv in H. destruct H as (s & Hs & Hl).
    exists s. auto.
  - destruct H as [H | H].
    + apply word_ci_inv in H. destruct H as (s & Hs & Hl).
      exists s. auto.
    + destruct (IH H) as (s & Hs & Hin). exists s. auto.
Qed.

Lemma lower_letter_not_space c :
  is_lower (Chars.lower c) = true -> is_space c = false.
Proof. by_cases c. Qed.

Lemma forall_chars_map (p : ascii -> bool) (f : ascii -> ascii) s :
  forall_chars p (map_chars f s) = forall_chars (fun c => p (f c)) s.
Proof. induction s as [ | c s IH]; simpl; [reflexivity | now rewrite IH]. Qed.

Lemma month_word w :
  In w a_month -> String.length w = 3 /\ forall_chars is_lower w = true.
Proof.
  unfold a_month. simpl.
  intros H. repeat (destruct H as [<- | H]; [split; reflexivity | ]).
  destruct H.
Qed.

Lemma length_map_chars f s : String.length (map_chars f s) = String.length s.
Proof. induction s as [ | c s IH]; simpl; congruence. Qed.

(** [%b]: what the group consumes is a month name up to the case of
    its letters. *)
Lemma directive_b_inv st st' :
  matches directive_b st st' ->
  exists s,
    no_space s = true /\ In (Str.lower s) a_month
    /\ rest st = s ++ rest st'
    /\ groups st' = ("b", s) :: groups st.
Proof.
  intros H. apply group_inv in H; [ | reflexivity].
  destruct H as (s & e & He & Hr & Hr' & _ & Hg).
  apply alts_word_ci_inv in He. destruct He as (s' & Hs' & Hin).
  assert (s' = s) by (rewrite Hs' in Hr; now apply append_inv_tail in Hr).
  subst s'. exists s.
  change (removelast a_month ++ [last a_month ""])%list with a_month in Hin.
  repeat split; auto; [ | congruence].
  destruct (month_word Hin) as [_ Hlow].
  unfold Str.lower in Hlow. rewrite forall_chars_map in Hlow.
  revert Hlow. apply forall_chars_impl.
  intros c Hc. now rewrite (lower_letter_not_space _ Hc).
Qed.

Lemma range_is_digit lo hi c :
  is_digit lo = true -> is_digit hi = true ->
  in_range lo hi c = true -> is_digit c = true.
Proof.
  unfold is_digit, in_range. intros Hlo Hhi H.
  rewrite !andb_true_iff, !Nat.leb_le in *. lia.
Qed.

Lemma two_chars_inv (p q : ascii -> bool) st e :
  matches (Chr p >> Chr q) st e ->
  exists c1 c2, p c1 = true /\ q c2 = true
                /\ rest st = String c1 (String c2 (rest e)).
Proof.
  intros (mid & H1 & H2).
  apply chr_inv in H1. destruct H1 as (c1 & Hc1 & Hr1).
  apply chr_inv in H2. destruct H2 as (c2 & Hc2 & Hr2).
  exists c1, c2. repeat split; auto. now rewrite Hr1, Hr2.
Qed.

Lemma day_token_digits s :
  day_token s = true -> s <> "" /\ forall_chars is_digit s = true.
Proof.
  destruct s as [ | c1 [ | c2 [ | ? ?]]]; try discriminate; simpl; intros H.
  - split; [discriminate | ].
    now rewrite (@range_is_digit "1" "9" _ eq_refl eq_refl H).
  - split; [discriminate | ].
    rewrite !orb_true_iff, !andb_true_iff in H.
    destruct H as [[[H1 H2] | [H1 H2]] | [H1 H2]].
    + apply lit_eq in H1. subst c1.
      now rewrite (@range_is_digit "0" "1" _ eq_refl eq_refl H2).
    + now rewrite (@range_is_digit "1" "2" _ eq_refl eq_refl H1), H2.
    + apply lit_eq in H1. subst c1.
      now rewrite (@range_is_digit "1" "9" _ eq_refl eq_refl H2).
Qed.

(** [%d]: a day token, or a blank and a digit. *)
Lemma directive_d_inv st st' :
  matches directive_d st st' ->
  exists s,
    rest st = s ++ rest st' /\ groups st' = ("d", s) :: groups st
    /\ (day_token s = true \/ exists c, s = String " " (String c "")).
Proof.
  intros H. apply group_inv in H; [ | reflexivity].
  destruct H as (s & e & He & Hr & Hr' & _ & Hg).
  exists s. split; [congruence | split; [exact Hg | ]].
  simpl in He.
  destruct He as [He | [He | [He | [He | He]]]].
  - apply two_chars_inv in He. destruct He as (c1 & c2 & H1 & H2 & Hs).
    rewrite Hs in Hr.
    change (String c1 (String c2 (rest e)))
      with (String c1 (String c2 "") ++ rest e) in Hr.
    apply append_inv_tail in Hr. subst s. left.
    simpl. now rewrite H1, H2.
  - apply two_chars_inv in He. destruct He as (c1 & c2 & H1 & H2 & Hs).
    rewrite Hs in Hr.
    change (String c1 (String c2 (rest e)))
      with (String c1 (String c2 "") ++ rest e) in Hr.
    apply append_inv_tail in Hr. subst s. left.
    simpl. rewrite H1, H2. now rewrite orb_true_r.
  - apply two_chars_inv in He. destruct He as (c1 & c2 & H1 & H2 & Hs).
    rewrite Hs in Hr.
    change (String c1 (String c2 (rest e)))
      with (String c1 (String c2 "") ++ rest e) in Hr.
    apply append_inv_tail in Hr. subst s. left.
    simpl. rewrite H1, H2. now rewrite !orb_true_r.
  - apply chr_inv in He. destruct He as (c1 & H1 & Hs).
    rewrite Hs in Hr.
    change (String c1 (rest e)) with (String c1 "" ++ rest e) in Hr.
    apply append_inv_tail in Hr. subst s. left. exact H1.
  - apply two_chars_inv in He. destruct He as (c1 & c2 & H1 & H2 & Hs).
    rewrite Hs in Hr.
    change (String c1 (String c2 (rest e)))
      with (String c1 (String c2 "") ++ rest e) in Hr.
    apply append_inv_tail in Hr. subst s. right.
    apply lit_eq in H1. subst c1. now exists c2.
Qed.

(** [%Y]: four digits. *)
Lemma directive_Y_inv st st' :
  matches directive_Y st st' ->
  exists s,
    rest st = s ++ rest st' /\ groups st' = ("Y", s) :: groups st
    /\ digits_exactly 4 s.
Proof.
  intros H. apply group_inv in H; [ | reflexivity].
  destruct H as (s & e & He & Hr & Hr' & _ & Hg).
  exists s. split; [congruence | split; [exact Hg | ]].
  simpl in He.
  destruct He as (m1 & H1 & m2 & H2 & m3 & H3 & m4 & H4 & ->).
  apply chr_inv in H1. destruct H1 as (c1 & Hc1 & Hs1).
  apply chr_inv in H2. destruct H2 as (c2 & Hc2 & Hs2).
  apply chr_inv in H3. destruct H3 as (c3 & Hc3 & Hs3).
  apply chr_inv in H4. destruct H4 as (c4 & Hc4 & Hs4).
  rewrite Hs1, Hs2, Hs3, Hs4 in Hr.
  change (String c1 (String c2 (String c3 (String c4 (rest m4)))))
    with (String c1 (String c2 (String c3 (String c4 ""))) ++ rest m4) in Hr.
  apply append_inv_tail in Hr. subst s.
  split; [reflexivity | simpl; now rewrite Hc1, Hc2, Hc3, Hc4].
Qed.

(** ** [strptime] with ['%b %d %Y'] on two tokens and a year *)

(** A text that starts with a token does not start with a blank. *)
Lemma token_then_no_blanks b t ws u :
  is_token b -> forall_chars is_space ws = true ->
  b ++ t = ws ++ u -> ws = "".
Proof.
  intros Hb Hws H. apply is_token_inv in Hb. destruct Hb as [Hne Hns].
  destruct ws as [ | w ws]; [reflexivity | exfalso].
  destruct b as [ | c b]; [congruence | ].
  simpl in H. injection H as -> _.
  apply no_space_head in Hns. simpl in Hws.
  rewrite Hns in Hws. discriminate.
Qed.

(** A match of ['%b %d %Y'] on two tokens and a third joined by
    blanks puts the first token in [b] and the second in [d], and
    the four digits of [Y] are the head of the third. *)
Lemma format_b_d_Y_decompose a b y found :
  is_token a -> is_token b -> is_token y ->
  matches format_b_d_Y (MState 0 (a ++ String " " (b ++ String " " y)) []) found ->
  exists sy,
    y = sy ++ rest found /\ digits_exactly 4 sy /\ day_token b = true
    /\ groups found = [("Y", sy); ("d", b); ("b", a)].
Proof.
  intros Ha Hb Hy H.
  destruct H as (m1 & Hmb & m2 & Hs1 & m3 & Hmd & m4 & Hs2 & HmY).
  apply directive_b_inv in Hmb.
  destruct Hmb as (sb & Hsb & _ & Hr0 & Hg1).
  apply plus_space_inv in Hs1.
  destruct Hs1 as (w1 & ws1 & Hw1 & Hws1 & Hr1 & Hg2).
  apply directive_d_inv in Hmd. destruct Hmd as (sd & Hr2 & Hg3 & Hsd).
  apply plus_space_inv in Hs2.
  destruct Hs2 as (w2 & ws2 & Hw2 & Hws2 & Hr3 & Hg4).
  apply directive_Y_inv in HmY. destruct HmY as (sy & Hr4 & Hg5 & Hsy).
  simpl in Hr0. rewrite Hr1 in Hr0.
  pose proof (is_token_inv Ha) as [_ Hna].
  destruct (cut_at_first_space _ _ _ _ _ _ Hna Hsb
              (eq_refl : is_space " " = true) Hw1 Hr0) as (-> & <- & Hb0).
  pose proof (token_then_no_blanks _ _ _ Hb Hws1 Hb0) as ->.
  simpl in Hb0. rewrite Hr2, Hr3 in Hb0.
  assert (Hsd' : day_token sd = true).
  { destruct Hsd as [Hd | (c & ->)]; [exact Hd | ].
    exfalso. apply is_token_inv in Hb. destruct Hb as [Hne Hnb].
    destruct b as [ | c0 b]; [congruence | ].
    simpl in Hb0. injection Hb0 as -> _.
    apply no_space_head in Hnb. discriminate. }
  pose proof (is_token_inv Hb) as [_ Hnb].
  pose proof (digits_no_space _ (proj2 (day_token_digits _ Hsd'))) as Hnsd.
  destruct (cut_at_first_space _ _ _ _ _ _ Hnb Hnsd
              (eq_refl : is_space " " = true) Hw2 Hb0) as (-> & <- & Hy0).
  rewrite <- (append_nil_r y) in Hy0.
  pose proof (token_then_no_blanks _ _ _ Hy Hws2 Hy0) as ->.
  simpl in Hy0. rewrite append_nil_r, Hr4 in Hy0.
  exists sy. split; [exact Hy0 | split; [exact Hsy | split; [exact Hsd' | ]]].
  rewrite Hg5, Hg4, Hg3, Hg2, Hg1. reflexivity.
Qed.

(** The match that reaches the end puts the whole third token in
    [Y]. *)
Lemma format_b_d_Y_groups a b y found :
  is_token a -> is_token b -> is_token y ->
  matches format_b_d_Y (MState 0 (a ++ String " " (b ++ String " " y)) []) found ->
  rest found = "" ->
  groups found = [("Y", y); ("d", b); ("b", a)].
Proof.
  intros Ha Hb Hy H Hend.
  destruct (format_b_d_Y_decompose Ha Hb Hy H) as (sy & Hsy & _ & _ & Hg).
  rewrite Hend, append_nil_r in Hsy. now subst sy.
Qed.

Lemma re_match_reaches_end r text found :
  re_match r text = Some found ->
  (String.length text =? pos found) = true ->
  matches r (MState 0 text []) found /\ rest found = "".
Proof.
  unfold re_match. intros H Hlen.
  apply rmatch_sound in H. destruct H as (st' & H & Heq).
  injection Heq as ->. split; [exact H | ].
  apply matches_measure in H. unfold measure in H. simpl in H.
  apply Nat.eqb_eq in Hlen.
  destruct (rest found); [reflexivity | simpl in H; lia].
Qed.

(** Whenever [strptime] reads two tokens and a year with
    ['%b %d %Y'], the date is the one that the tokens and the year
    spell. *)
Lemma strptime_tokens a b y d :
  is_token a -> is_token b -> is_token y ->
  strptime (a ++ String " " (b ++ String " " y)) format_b_d_Y = Ok d ->
  read_date a b y = Ok d.
Proof.
  intros Ha Hb Hy. unfold strptime.
  destruct (re_match format_b_d_Y _) as [found | ] eqn:Hm; [ | discriminate].
  destruct (String.length _ =? pos found) eqn:Hlen; [ | discriminate].
  destruct (re_match_reaches_end _ _ Hm Hlen) as [Hmatch Hend].
  rewrite (format_b_d_Y_groups Ha Hb Hy Hmatch Hend).
  simpl. unfold read_date.
  destruct (int y) as [yy | e]; simpl; [ | discriminate].
  destruct (month_index (Str.lower a)) as [mm | e]; simpl; [ | discriminate].
  destruct (int b) as [dd | e]; simpl; [ | discriminate].
  auto.
Qed.

Lemma make_valid yy mm dd d :
  make yy mm dd = Ok d ->
  d = Date yy mm dd /\ valid_date yy mm dd = true.
Proof.
  unfold make. destruct (valid_date yy mm dd); [ | discriminate].
  intros H. injection H as <-. auto.
Qed.

Lemma read_date_inv a b y d :
  read_date a b y = Ok d ->
  int y = Ok (year d) /\ month_index (Str.lower a) = Ok (month d)
  /\ int b = Ok (day d)
  /\ valid_date (year d) (month d) (day d) = true.
Proof.
  unfold read_date.
  destruct (int y) as [yy | e]; simpl; [ | discriminate].
  destruct (month_index (Str.lower a)) as [mm | e]; simpl; [ | discriminate].
  destruct (int b) as [dd | e]; simpl; [ | discriminate].
  intros H. apply make_valid in H. destruct H as [-> Hv]. simpl. auto.
Qed.

Lemma index_from_in n s l k :
  index_from n s l = Ok k -> In s l.
Proof.
  revert n. induction l as [ | x l IH]; simpl; intros n H; [discriminate | ].
  destruct (String.eqb x s) eqn:E.
  - apply String.eqb_eq in E. auto.
  - right. now apply (IH (S n)).
Qed.

(** A month that is none of the twelve is not read. *)
Lemma unknown_month_not_read a b y d :
  ~ In (Str.lower a) a_month -> read_date a b y <> Ok d.
Proof.
  intros Hn H. apply read_date_inv in H. destruct H as (_ & Hm & _).
  apply index_from_in in Hm. contradiction.
Qed.

(** A day past the end of the month is not read. *)
Lemma day_out_of_range_not_read a b y yy mm dd d :
  int y = Ok yy -> month_index (Str.lower a) = Ok mm -> int b = Ok dd ->
  days_in_month yy mm < dd ->
  read_date a b y <> Ok d.
Proof.
  intros Hy Hm Hd Hlt H. apply read_date_inv in H.
  destruct H as (Hy' & Hm' & Hd' & Hv).
  rewrite Hy in Hy'. rewrite Hm in Hm'. rewrite Hd in Hd'.
  injection Hy' as ->. injection Hm' as ->. injection Hd' as ->.
  unfold valid_date in Hv. rewrite !andb_true_iff in Hv.
  destruct Hv as (_ & Hle). apply Nat.leb_le in Hle. lia.
Qed.


(** ** [strftime] and back *)

Lemma digit_char_is_digit n : is_digit (digit_char n) = true.
Proof.
  unfold digit_char. pose proof (Nat.mod_upper_bound n 10) as H.
  destruct (n mod 10) as [|[|[|[|[|[|[|[|[|[|k]]]]]]]]]]; try reflexivity.
  lia.
Qed.

(** From the year 1000 on, the year is written on its four digits. *)
Lemma year_digits_from_1000 y : 1000 <= y -> year_digits y = pad4 y.
Proof.
  intros Hy. unfold year_digits.
  destruct (y <? 10) eqn:E1; [apply Nat.ltb_lt in E1; lia | ].
  destruct (y <? 100) eqn:E2; [apply Nat.ltb_lt in E2; lia | ].
  destruct (y <? 1000) eqn:E3; [apply Nat.ltb_lt in E3; lia | reflexivity].
Qed.

Lemma strftime_from_1000 dt :
  1000 <= year dt ->
  strftime_Y_m_d dt
  = pad4 (year dt) ++ "-" ++ pad2 (month dt) ++ "-" ++ pad2 (day dt).
Proof.
  intros Hy. unfold strftime_Y_m_d. now rewrite year_digits_from_1000.
Qed.

(** What [strftime] writes from the year 1000 on has the form
    [YYYY-MM-DD]. *)
Lemma strftime_iso_form dt :
  1000 <= year dt -> iso_date_form (strftime_Y_m_d dt) = true.
Proof.
  intros Hy. rewrite (strftime_from_1000 _ Hy).
  cbv beta iota delta [pad4 pad2 append iso_date_form].
  now rewrite !digit_char_is_digit.
Qed.

Lemma int_pad4 y : y < 10000 -> int (pad4 y) = Ok y.
Proof.
  intros Hy.
  assert (H : forallb (fun y => match int (pad4 y) with
                                | Ok v => v =? y
                                | Raise _ => false
                                end) (seq 0 10000) = true)
    by (vm_compute; reflexivity).
  rewrite forallb_forall in H. specialize (H y).
  destruct (int (pad4 y)) as [v | e].
  - f_equal. apply Nat.eqb_eq. apply H. apply in_seq. lia.
  - discriminate H. apply in_seq. lia.
Qed.

Lemma int_pad2 n : n < 100 -> int (pad2 n) = Ok n.
Proof.
  intros Hn.
  assert (H : forallb (fun n => match int (pad2 n) with
                                | Ok v => v =? n
                                | Raise _ => false
                                end) (seq 0 100) = true)
    by (vm_compute; reflexivity).
  rewrite forallb_forall in H. specialize (H n).
  destruct (int (pad2 n)) as [v | e].
  - f_equal. apply Nat.eqb_eq. apply H. apply in_seq. lia.
  - discriminate H. apply in_seq. lia.
Qed.

(** The year of ['%Y-%m-%d'], on any four digits. *)
Lemma format_Y_m_d_year a b c e tail :
  is_digit a = true -> is_digit b = true ->
  is_digit c = true -> is_digit e = true ->
  re_match format_Y_m_d (String a (String b (String c (String e tail))))
  = rmatch (Chr (lit "-") >> directive_m >> Chr (lit "-") >> directive_d)
           (MState 4 tail [("Y", String a (String b (String c (String e ""))))])
           (fun st => Some st).
Proof.
  intros Ha Hb Hc He. unfold re_match, format_Y_m_d, directive_Y.
  cbn [rmatch Rep rest step pos groups]. rewrite Ha.
  cbn [rmatch Rep rest step pos groups]. rewrite Hb.
  cbn [rmatch Rep rest step pos groups]. rewrite Hc.
  cbn [rmatch Rep rest step pos groups]. rewrite He.
  unfold close_group, step.
  cbn [rmatch rest pos groups substring Nat.sub].
  destruct tail as [ | c0 s']; reflexivity.
Qed.

Ltac each_case x k :=
  first [ lia | destruct x as [ | x]; [ k | each_case x k ] ].

(** The month and the day of ['%Y-%m-%d'], on two digits each. *)
Lemma format_Y_m_d_month_day ys m d :
  1 <= m <= 12 -> 1 <= d <= 31 ->
  rmatch (Chr (lit "-") >> directive_m >> Chr (lit "-") >> directive_d)
         (MState 4 ("-" ++ pad2 m ++ "-" ++ pad2 d) [("Y", ys)])
         (fun st => Some st)
  = Some (MState 10 "" [("d", pad2 d); ("m", pad2 m); ("Y", ys)]).
Proof.
  intros Hm Hd.
  each_case m ltac:(first [lia | each_case d ltac:(first [lia | reflexivity])]).
Qed.

Lemma valid_date_bounds y m d :
  valid_date y m d = true ->
  1 <= y < 10000 /\ 1 <= m <= 12 /\ 1 <= d <= 31.
Proof.
  unfold valid_date. rewrite !andb_true_iff, !Nat.leb_le, Nat.ltb_lt.
  intros (((((H1 & H2) & H3) & H4) & H5) & H6).
  assert (days_in_month y m <= 31).
  { unfold days_in_month.
    destruct m as [|[|[|[|[|[|[|[|[|[|[|[|[|k]]]]]]]]]]]]]; try lia.
    destruct (is_leap y); lia. }
  lia.
Qed.

Lemma length_strftime dt :
  1000 <= year dt -> String.length (strftime_Y_m_d dt) = 10.
Proof. intros Hy. now rewrite (strftime_from_1000 _ Hy). Qed.

Lemma re_match_strftime y m d :
  1000 <= y -> 1 <= m <= 12 -> 1 <= d <= 31 ->
  re_match format_Y_m_d (strftime_Y_m_d (Date y m d))
  = Some (MState 10 "" [("d", pad2 d); ("m", pad2 m); ("Y", pad4 y)]).
Proof.
  intros Hy Hm Hd. rewrite (strftime_from_1000 (Date y m d) Hy).
  change (pad4 (year (Date y m d)) ++ "-" ++ pad2 (month (Date y m d))
            ++ "-" ++ pad2 (day (Date y m d)))
    with (String (digit_char (y / 1000)) (String (digit_char (y / 100))
           (String (digit_char (y / 10)) (String (digit_char y)
              ("-" ++ pad2 m ++ "-" ++ pad2 d))))).
  rewrite format_Y_m_d_year by apply digit_char_is_digit.
  now rewrite format_Y_m_d_month_day.
Qed.

(** Reading with ['%Y-%m-%d'] what [strftime] wrote, from the year
    1000 on, gives the date back. *)
Lemma strptime_strftime y m d :
  valid_date y m d = true -> 1000 <= y ->
  strptime (strftime_Y_m_d (Date y m d)) format_Y_m_d = Ok (Date y m d).
Proof.
  intros Hv Hy1000. destruct (valid_date_bounds _ _ _ Hv) as (Hy & Hm & Hd).
  unfold strptime.
  rewrite re_match_strftime, length_strftime by (simpl; assumption).
  cbn [pos negb Nat.eqb groups group String.eqb Ascii.eqb Bool.eqb].
  rewrite int_pad4 by lia. cbn [bind].
  rewrite !int_pad2 by lia. cbn [bind].
  unfold make. now rewrite Hv.
Qed.

End DateFacts.
(** * What [strptime] accepts *)

Module StrptimeFacts.
Import Str StrFacts CharFacts RegexFacts ClassifierFacts DateFacts.

(** ** Building the match of ['%b %d %Y'] *)

Lemma word_ci_build w :
  forall s st t, Str.lower s = w -> rest st = s ++ t ->
  exists e, matches (Word_ci w) st e /\ rest e = t.
Proof.
  induction w as [ | a w IH]; intros s st t Hl Hr.
  - destruct s; [ | discriminate]. exists st. split; [reflexivity | exact Hr].
  - destruct s as [ | c s]; [discriminate | ].
    unfold Str.lower in Hl. simpl in Hl. injection Hl as Hc Hs.
    destruct (@IH s (step st (s ++ t)) t Hs eq_refl) as (e & He & Hre).
    exists e. split; [ | exact Hre].
    exists (step st (s ++ t)). split; [ | exact He].
    apply matches_chr with c; [exact Hr | ].
    unfold lit_ci. rewrite Hc. apply Ascii.eqb_refl.
Qed.

Lemma alts_word_ci_build ws w0 s st t :
  In (Str.lower s) (ws ++ [w0])%list -> rest st = s ++ t ->
  exists e, matches (Alts (map Word_ci ws) (Word_ci w0)) st e /\ rest e = t.
Proof.
  intros Hin Hr. induction ws as [ | w ws IH]; simpl in *.
  - destruct Hin as [Hw | []]. apply (@word_ci_build _ s st t (eq_sym Hw) Hr).
  - destruct Hin as [Hw | Hin].
    + destruct (@word_ci_build _ s st t (eq_sym Hw) Hr) as (e & He & Hre).
      exists e. split; [now left | exact Hre].
    + destruct (IH Hin) as (e & He & Hre).
      exists e. split; [now right | exact Hre].
Qed.

Lemma directive_b_build s st t :
  In (Str.lower s) a_month -> rest st = s ++ t ->
  exists e, matches directive_b st e /\ rest e = t.
Proof.
  intros Hin Hr.
  destruct (@alts_word_ci_build (removelast a_month) (last a_month "") s st t
              Hin Hr) as (e & He & Hre).
  exists (close_group "b" st e). split; [now exists e | exact Hre].
Qed.

Lemma plus_space_build st t :
  rest st = String " " t ->
  exists e, matches (Plus (Chr is_space)) st e /\ rest e = t.
Proof.
  intros Hr. exists (step st t). split; [ | reflexivity].
  exists (step st t). split; [ | constructor].
  now apply matches_chr with " "%char.
Qed.

Lemma directive_d_build b st t :
  day_token b = true -> rest st = b ++ t ->
  exists e, matches directive_d st e /\ rest e = t.
Proof.
  intros Hb Hr.
  assert (H : exists e, matches (Alts [ Chr (lit "3") >> Chr (in_range "0" "1");
                                        Chr (in_range "1" "2") >> Chr is_digit;
                                        Chr (lit "0") >> Chr (in_range "1" "9");
                                        Chr (in_range "1" "9") ]
                                      (Chr (lit " ") >> Chr (in_range "1" "9")))
                                st e /\ rest e = t).
  { destruct b as [ | c1 [ | c2 [ | ? ?]]]; try discriminate; simpl in Hb, Hr.
    - exists (step st t). split; [ | reflexivity].
      right. right. right. left. now apply matches_chr with c1.
    - exists (step (step st (String c2 t)) t). split; [ | reflexivity].
      rewrite !orb_true_iff, !andb_true_iff in Hb.
      destruct Hb as [[[H1 H2] | [H1 H2]] | [H1 H2]].
      + left. exists (step st (String c2 t)).
        split; [now apply matches_chr with c1 | now apply matches_chr with c2].
      + right. left. exists (step st (String c2 t)).
        split; [now apply matches_chr with c1 | now apply matches_chr with c2].
      + right. right. left. exists (step st (String c2 t)).
        split; [now apply matches_chr with c1 | now apply matches_chr with c2]. }
  destruct H as (e & He & Hre).
  exists (close_group "d" st e). split; [now exists e | exact Hre].
Qed.

Lemma directive_Y_build y st t :
  digits_exactly 4 y -> rest st = y ++ t ->
  exists e, matches directive_Y st e /\ rest e = t.
Proof.
  intros [Hlen Hd] Hr.
  destruct y as [ | c1 [ | c2 [ | c3 [ | c4 [ | ? ?]]]]]; try discriminate.
  simpl in Hd. rewrite !andb_true_iff in Hd.
  destruct Hd as (H1 & H2 & H3 & H4 & _). simpl in Hr.
  set (e := step (step (step (step st (String c2 (String c3 (String c4 t))))
                             (String c3 (String c4 t))) (String c4 t)) t).
  exists (close_group "Y" st e). split; [ | reflexivity].
  exists e. split; [ | reflexivity]. simpl.
  eexists. split; [eapply matches_chr; eauto | ].
  eexists. split; [eapply matches_chr; simpl; eauto | ].
  eexists. split; [eapply matches_chr; simpl; eauto | ].
  eexists. split; [eapply matches_chr; simpl; eauto | ].
  reflexivity.
Qed.

Lemma format_b_d_Y_build a b y :
  In (Str.lower a) a_month -> day_token b = true -> digits_exactly 4 y ->
  exists found,
    matches format_b_d_Y (MState 0 (a ++ String " " (b ++ String " " y)) []) found.
Proof.
  intros Ha Hb Hy.
  destruct (@directive_b_build a (MState 0 (a ++ String " " (b ++ String " " y)) [])
              (String " " (b ++ String " " y)) Ha eq_refl) as (m1 & H1 & Hr1).
  destruct (@plus_space_build m1 _ Hr1) as (m2 & H2 & Hr2).
  destruct (@directive_d_build b m2 (String " " y) Hb Hr2) as (m3 & H3 & Hr3).
  destruct (@plus_space_build m3 _ Hr3) as (m4 & H4 & Hr4).
  rewrite <- (append_nil_r y) in Hr4.
  destruct (@directive_Y_build y m4 "" Hy Hr4) as (m5 & H5 & _).
  exists m5. exists m1. split; [exact H1 | ].
  exists m2. split; [exact H2 | ].
  exists m3. split; [exact H3 | ].
  exists m4. split; [exact H4 | exact H5].
Qed.

Lemma digits_exactly_token n s :
  digits_exactly (S n) s -> is_token s.
Proof.
  intros [Hlen Hd]. unfold is_token.
  rewrite (digits_no_space _ Hd).
  destruct s; [discriminate | reflexivity].
Qed.

(** [strptime] reads every pair of tokens that names a month and a
    day of that month in the four digits of the year. *)
Lemma strptime_tokens_complete a b y d :
  is_token a -> is_token b -> digits_exactly 4 y ->
  day_token b = true ->
  read_date a b y = Ok d ->
  strptime (a ++ String " " (b ++ String " " y)) format_b_d_Y = Ok d.
Proof.
  intros Ha Hb Hy Hday Hread.
  pose proof (digits_exactly_token Hy) as Hty.
  pose proof (read_date_inv _ _ _ Hread) as (_ & Hmonth & _ & _).
  apply index_from_in in Hmonth.
  pose proof (proj2 (re_match_iff format_b_d_Y _)
                (format_b_d_Y_build _ _ Hmonth Hday Hy)) as Hsome.
  unfold strptime.
  destruct (re_match format_b_d_Y _) as [found | ] eqn:Hm; [ | discriminate].
  pose proof Hm as Hs. unfold re_match in Hs.
  apply rmatch_sound in Hs. destruct Hs as (st' & Hmatch & Heq).
  injection Heq as ->.
  destruct (format_b_d_Y_decompose Ha Hb Hty Hmatch) as (sy & Hsy & [Hl _] & _ & Hg).
  assert (Hend : rest found = "").
  { destruct Hy as [Hly _]. rewrite Hsy, length_append, Hl in Hly.
    destruct (rest found); [reflexivity | simpl in Hly; lia]. }
  rewrite Hend, append_nil_r in Hsy. subst sy.
  pose proof (matches_measure _ _ _ Hmatch) as Hmeas.
  unfold measure in Hmeas. rewrite Hend in Hmeas. simpl in Hmeas.
  replace (String.length _ =? pos found) with true
    by (symmetry; apply Nat.eqb_eq; lia).
  rewrite Hg. simpl. exact Hread.
Qed.

Lemma strptime_tokens_iff a b y d :
  is_token a -> is_token b -> digits_exactly 4 y ->
  strptime (a ++ String " " (b ++ String " " y)) format_b_d_Y = Ok d
  <-> read_date a b y = Ok d /\ day_token b = true.
Proof.
  intros Ha Hb Hy. pose proof (digits_exactly_token Hy) as Hty. split.
  - intros H. split; [now apply strptime_tokens | ].
    unfold strptime in H.
    destruct (re_match format_b_d_Y _) as [found | ] eqn:Hm; [ | discriminate].
    unfold re_match in Hm.
    apply rmatch_sound in Hm. destruct Hm as (st' & Hmatch & Heq).
    injection Heq as ->.
    now destruct (format_b_d_Y_decompose Ha Hb Hty Hmatch) as (sy & _ & _ & Hd & _).
  - intros [Hr Hd]. now apply strptime_tokens_complete.
Qed.

End StrptimeFacts.
(* ================================================================== *)
(** * The year of a date that is read and written back *)
(* ================================================================== *)

Module YearFacts.
Import Str StrFacts CharFacts RegexFacts ClassifierFacts AmountFacts DateFacts
       StrptimeFacts.

Lemma date_text_tokens a b year :
  date_text a b year = a ++ String " " (b ++ String " " year).
Proof. unfold date_text. now rewrite append_assoc. Qed.

Lemma Ok_inj (A : Type) (a b : A) : Ok a = Ok b -> a = b.
Proof. intros H. now injection H. Qed.

Lemma digit_char_value c : is_digit c = true -> digit_char (digit_value c) = c.
Proof. by_cases c. Qed.

Lemma digit_value_pos c :
  is_digit c = true -> Ascii.eqb c "0" = false -> 1 <= digit_value c.
Proof.
  destruct c as [[] [] [] [] [] [] [] []]; intros H1 H2;
    try discriminate; vm_compute; lia.
Qed.

Lemma digit_char_mod q r : r < 10 -> digit_char (10 * q + r) = digit_char r.
Proof.
  intros Hr. unfold digit_char. do 2 f_equal.
  rewrite (Nat.mod_small r 10 Hr).
  symmetry. apply Nat.mod_unique with q; lia.
Qed.

Lemma pad4_digits v1 v2 v3 v4 :
  v1 < 10 -> v2 < 10 -> v3 < 10 -> v4 < 10 ->
  pad4 (1000 * v1 + 100 * v2 + 10 * v3 + v4)
  = String (digit_char v1) (String (digit_char v2)
      (String (digit_char v3) (String (digit_char v4) ""))).
Proof.
  intros H1 H2 H3 H4. unfold pad4.
  replace ((1000 * v1 + 100 * v2 + 10 * v3 + v4) / 1000) with v1
    by (apply Nat.div_unique with (100 * v2 + 10 * v3 + v4); lia).
  replace ((1000 * v1 + 100 * v2 + 10 * v3 + v4) / 100) with (10 * v1 + v2)
    by (apply Nat.div_unique with (10 * v3 + v4); lia).
  replace ((1000 * v1 + 100 * v2 + 10 * v3 + v4) / 10)
    with (10 * (10 * v1 + v2) + v3)
    by (apply Nat.div_unique with v4; lia).
  replace (1000 * v1 + 100 * v2 + 10 * v3 + v4)
    with (10 * (10 * (10 * v1 + v2) + v3) + v4) by lia.
  now rewrite !digit_char_mod.
Qed.

(** The number that four digits spell. *)
Lemma int_four c1 c2 c3 c4 :
  is_digit c1 = true -> is_digit c2 = true ->
  is_digit c3 = true -> is_digit c4 = true ->
  int (String c1 (String c2 (String c3 (String c4 ""))))
  = Ok (1000 * digit_value c1 + 100 * digit_value c2
        + 10 * digit_value c3 + digit_value c4).
Proof.
  intros H1 H2 H3 H4. unfold int.
  rewrite <- (append_nil_r (String c1 _)).
  assert (Hd : forall_chars is_digit (String c1 (String c2 (String c3 (String c4 ""))))
               = true) by (simpl; now rewrite H1, H2, H3, H4).
  rewrite strip_no_space;
    [ | discriminate | now apply digits_no_space | now left].
  unfold is_digits. rewrite Hd. simpl negb. cbv iota. cbn [andb].
  f_equal. unfold decimal. cbn [decimal_from]. lia.
Qed.

Lemma four_digits y :
  digits_exactly 4 y ->
  exists c1 c2 c3 c4,
    y = String c1 (String c2 (String c3 (String c4 "")))
    /\ is_digit c1 = true /\ is_digit c2 = true
    /\ is_digit c3 = true /\ is_digit c4 = true.
Proof.
  intros [Hlen Hd].
  destruct y as [ | c1 [ | c2 [ | c3 [ | c4 [ | ? ?]]]]]; try discriminate.
  simpl in Hd. rewrite !andb_true_iff in Hd.
  destruct Hd as (H1 & H2 & H3 & H4 & _).
  exists c1, c2, c3, c4. auto.
Qed.

(** Four digits are written back on four digits as they were read. *)
Lemma pad4_int y n : digits_exactly 4 y -> int y = Ok n -> pad4 n = y.
Proof.
  intros Hy Hn.
  destruct (four_digits Hy) as (c1 & c2 & c3 & c4 & -> & H1 & H2 & H3 & H4).
  rewrite (@int_four c1 c2 c3 c4 H1 H2 H3 H4) in Hn.
  apply Ok_inj in Hn. subst n.
  rewrite (@pad4_digits (digit_value c1) (digit_value c2) (digit_value c3)
             (digit_value c4)) by now apply digit_value_lt.
  now rewrite !digit_char_value.
Qed.

(** A label of four digits that does not start with [0] is a year
    from 1000 on, and conversely. *)
Lemma full_year_from_1000 y n :
  full_year y -> int y = Ok n -> 1000 <= n.
Proof.
  intros [Hy Hz] Hn.
  destruct (four_digits Hy) as (c1 & c2 & c3 & c4 & -> & H1 & H2 & H3 & H4).
  rewrite (@int_four c1 c2 c3 c4 H1 H2 H3 H4) in Hn.
  apply Ok_inj in Hn. subst n.
  simpl in Hz. pose proof (digit_value_pos _ H1 Hz). lia.
Qed.

Lemma leading_zero_below_1000 y n :
  digits_exactly 4 y -> leading_zero y = true -> int y = Ok n -> n < 1000.
Proof.
  intros Hy Hz Hn.
  destruct (four_digits Hy) as (c1 & c2 & c3 & c4 & -> & H1 & H2 & H3 & H4).
  rewrite (@int_four c1 c2 c3 c4 H1 H2 H3 H4) in Hn.
  apply Ok_inj in Hn. subst n.
  simpl in Hz. apply Ascii.eqb_eq in Hz. subst c1.
  pose proof (digit_value_lt _ H2). pose proof (digit_value_lt _ H3).
  pose proof (digit_value_lt _ H4).
  change (digit_value "0") with 0. lia.
Qed.

(** What [strptime] reads in two tokens and a year of four digits,
    and what [strftime] writes for it. *)
Lemma strptime_year a b year d :
  is_token a -> is_token b -> digits_exactly 4 year ->
  strptime (date_text a b year) format_b_d_Y = Ok d ->
  read_date a b year = Ok d /\ day_token b = true
  /\ int year = Ok (Datetime.year d)
  /\ valid_date (Datetime.year d) (month d) (day d) = true.
Proof.
  intros Ha Hb Hy H. rewrite date_text_tokens in H.
  apply strptime_tokens_iff in H; auto. destruct H as [H Hday].
  split; [exact H | split; [exact Hday | ]].
  apply read_date_inv in H. tauto.
Qed.

Lemma strftime_full_year year d :
  full_year year -> int year = Ok (Datetime.year d) ->
  1000 <= Datetime.year d
  /\ strftime_Y_m_d d = year ++ "-" ++ pad2 (month d) ++ "-" ++ pad2 (day d).
Proof.
  intros Hf Hy. pose proof (full_year_from_1000 Hf Hy) as H1000.
  split; [exact H1000 | ].
  rewrite (strftime_from_1000 _ H1000). now rewrite (pad4_int (proj1 Hf) Hy).
Qed.

End YearFacts.

(* ================================================================== *)
(** * From a line to the aggregator: what every record satisfies *)
(* ================================================================== *)

Module Pipeline.

Section Invariant.
Variable P : transaction -> Prop.
Hypothesis extract_P :
  forall year parts t,
    is_transaction_line parts = true -> extract year parts = Ok t -> P t.

Lemma parse_line_invariant pdf_name year st line :
  Forall P (fst st) -> Forall P (fst (parse_line pdf_name year st line)).
Proof.
  destruct st as [transactions out]. unfold parse_line. simpl. intros H.
  destruct (String.eqb (Str.strip line) ""); [exact H | ].
  destruct (is_transaction_line (Str.split line)) eqn:Hc; [ | exact H].
  destruct (extract year (Str.split line)) as [t | e] eqn:He; [ | exact H].
  simpl. apply Forall_app. split; [exact H | ].
  constructor; [ | constructor]. now apply (extract_P year _ Hc).
Qed.

Lemma parse_lines_invariant pdf_name year text_lines :
  forall st, Forall P (fst st) ->
             Forall P (fst (parse_lines pdf_name year st text_lines)).
Proof.
  unfold parse_lines.
  induction text_lines as [ | line ls IH]; simpl; intros st H; [exact H | ].
  apply IH. now apply parse_line_invariant.
Qed.

Lemma parse_pages_invariant pdf_name year pages :
  forall st transactions,
    Forall P (fst st) ->
    fst (parse_pages pdf_name year st pages) = Some transactions ->
    Forall P transactions.
Proof.
  induction pages as [ | [text | ] pages IH]; simpl; intros st ts H Hr.
  - injection Hr as <-. exact H.
  - apply (IH _ _ (parse_lines_invariant pdf_name year _ st H) Hr).
  - discriminate.
Qed.

Lemma parse_statement_invariant pdf_open pdf_path transactions :
  fst (parse_statement pdf_open pdf_path) = Some transactions ->
  Forall P transactions.
Proof.
  unfold parse_statement. destruct (pdf_open pdf_path) as [pages | ].
  - apply parse_pages_invariant. constructor.
  - discriminate.
Qed.

Lemma extend_invariant year transactions agg :
  Forall P transactions -> all_records P agg ->
  all_records P (extend year transactions agg).
Proof.
  intros Ht Hagg. induction Hagg as [ | [y ts] agg Hy Htl IH]; simpl.
  - constructor; [exact Ht | constructor].
  - destruct (String.eqb y year).
    + constructor; [ | exact Htl]. simpl in *. apply Forall_app. now split.
    + constructor; [exact Hy | exact IH].
Qed.

Lemma process_file_invariant pdf_open st pdf_file :
  all_records P (fst st) ->
  all_records P (fst (process_file pdf_open st pdf_file)).
Proof.
  destruct st as [agg out]. unfold process_file. simpl. intros H.
  pose proof (@parse_statement_invariant pdf_open pdf_file) as Hs.
  destruct (parse_statement pdf_open pdf_file) as [[[ | t ts] | ] printed];
    simpl; try exact H.
  apply extend_invariant; [ | exact H]. now apply Hs.
Qed.

Lemma process_files_invariant pdf_open files :
  forall st, all_records P (fst st) ->
             all_records P (fst (fold_left (process_file pdf_open) files st)).
Proof.
  induction files as [ | f fs IH]; simpl; intros st H; [exact H | ].
  apply IH. now apply process_file_invariant.
Qed.

Lemma process_all_statements_invariant pdf_open pdf_files agg :
  all_records P agg ->
  all_records P (snd (fst (process_all_statements pdf_open pdf_files agg))).
Proof.
  intros H. unfold process_all_statements.
  destruct pdf_files as [ | f fs]; [exact H | ].
  match goal with
  | |- context [fold_left ?f ?l ?s] =>
      pose proof (@process_files_invariant pdf_open l s H) as Hf;
      destruct (fold_left f l s) as [agg' out']
  end.
  exact Hf.
Qed.
End Invariant.

End Pipeline.
(* ================================================================== *)
(** * A document, line by line *)
(* ================================================================== *)

Module DocumentFacts.
Import Str StrFacts CharFacts RegexFacts ClassifierFacts AmountFacts.

(** ** A blank line has no token *)

Lemma lstrip_nil_blank s : lstrip s = "" -> forall_chars is_space s = true.
Proof.
  induction s as [ | c s IH]; simpl; [reflexivity | ].
  destruct (is_space c); [exact IH | discriminate].
Qed.

Lemma split_blank s : forall_chars is_space s = true -> split_from "" s = [].
Proof.
  induction s as [ | c s IH]; simpl; [reflexivity | ].
  destruct (is_space c); [exact IH | discriminate].
Qed.

Lemma lstrip_head s c t : lstrip s = String c t -> is_space c = false.
Proof.
  induction s as [ | c0 s IH]; simpl; [discriminate | ].
  destruct (is_space c0) eqn:E; [exact IH | ].
  intros H. injection H as -> _. exact E.
Qed.

Lemma lstrip_ends_in_word r c :
  is_space c = false -> lstrip (r ++ String c "") <> "".
Proof.
  intros Hc. induction r as [ | c1 r IH]; simpl.
  - rewrite Hc. discriminate.
  - destruct (is_space c1); [exact IH | discriminate].
Qed.

Lemma rev_nil s : rev s = "" -> s = "".
Proof. intros H. rewrite <- (rev_involutive s), H. reflexivity. Qed.

Lemma strip_nil s : strip s = "" -> lstrip s = "".
Proof.
  unfold strip, rstrip. intros H. apply rev_nil in H.
  destruct (lstrip s) as [ | c t] eqn:E; [reflexivity | exfalso].
  apply lstrip_head in E.
  change (String c t) with (String c "" ++ t) in H.
  rewrite rev_append in H.
  now apply (lstrip_ends_in_word (rev t)) in E.
Qed.

Lemma blank_line_no_token line : strip line = "" -> split line = [].
Proof.
  intros H. apply split_blank. apply lstrip_nil_blank. now apply strip_nil.
Qed.

(** ** The loops of [parse_statement] in closed form *)

Lemma parse_line_closed pdf_name year st line :
  parse_line pdf_name year st line
  = ((fst st ++ line_records year line)%list,
     (snd st ++ line_warnings pdf_name year line)%list).
Proof.
  destruct st as [ts out]. unfold parse_line, line_records, line_warnings.
  destruct (String.eqb (strip line) "") eqn:Hblank.
  - apply String.eqb_eq in Hblank. rewrite (blank_line_no_token _ Hblank).
    simpl. now rewrite !app_nil_r.
  - destruct (is_transaction_line (split line)).
    + destruct (extract year (split line)); simpl; now rewrite ?app_nil_r.
    + simpl. now rewrite !app_nil_r.
Qed.

Lemma parse_lines_closed pdf_name year text_lines :
  forall st,
    parse_lines pdf_name year st text_lines
    = ((fst st ++ flat_map (line_records year) text_lines)%list,
       (snd st ++ flat_map (line_warnings pdf_name year) text_lines)%list).
Proof.
  unfold parse_lines.
  induction text_lines as [ | line ls IH]; simpl; intros st.
  - rewrite !app_nil_r. now destruct st.
  - rewrite IH, parse_line_closed. simpl. now rewrite <- !app_assoc.
Qed.

Lemma parse_pages_closed pdf_name year texts :
  forall st,
    parse_pages pdf_name year st (map Some texts)
    = (Some (fst st ++ flat_map (line_records year) (lines_of texts))%list,
       (snd st ++ flat_map (line_warnings pdf_name year) (lines_of texts))%list).
Proof.
  unfold lines_of.
  induction texts as [ | text texts IH]; simpl; intros st.
  - now rewrite !app_nil_r.
  - rewrite IH, parse_lines_closed. simpl.
    now rewrite !flat_map_app, !app_assoc.
Qed.

Lemma line_accounting pdf_name year line :
  2 * List.length (line_records year line)
  + List.length (line_warnings pdf_name year line)
  = if is_transaction_line (split line) then 2 else 0.
Proof.
  unfold line_records, line_warnings.
  destruct (is_transaction_line (split line)); [ | reflexivity].
  destruct (extract year (split line)); reflexivity.
Qed.

Lemma lines_accounting pdf_name year ls :
  2 * List.length (flat_map (line_records year) ls)
  + List.length (flat_map (line_warnings pdf_name year) ls)
  = 2 * List.length (filter (fun line => is_transaction_line (split line)) ls).
Proof.
  induction ls as [ | line ls IH]; simpl; [reflexivity | ].
  rewrite !length_app.
  pose proof (line_accounting pdf_name year line) as H.
  destruct (is_transaction_line (split line)); simpl; lia.
Qed.

(** ** When a document fails *)

Lemma parse_pages_none pdf_name year pages :
  forall st,
    fst (parse_pages pdf_name year st pages) = None <-> In None pages.
Proof.
  induction pages as [ | [text | ] pages IH]; simpl; intros st.
  - split; [discriminate | tauto].
  - rewrite IH. split; [tauto | ]. intros [H | H]; [discriminate | exact H].
  - split; auto.
Qed.

Lemma parse_pages_last_message pdf_name year pages :
  forall st, In None pages ->
    exists out, snd (parse_pages pdf_name year st pages)
                = (out ++ [Error_processing_pdf pdf_name])%list.
Proof.
  induction pages as [ | [text | ] pages IH]; simpl; intros st H.
  - tauto.
  - destruct H as [H | H]; [discriminate | now apply IH].
  - now exists (snd st).
Qed.

(** ** A document whose pages are all read *)

Lemma pages_all_text (pages : list page) :
  ~ In None pages -> exists texts, pages = map Some texts.
Proof.
  induction pages as [ | [text | ] pages IH]; simpl; intros H.
  - now exists [].
  - destruct IH as [texts ->]; [tauto | ]. now exists (text :: texts).
  - tauto.
Qed.

Lemma parse_statement_closed pdf_open pdf_path texts :
  pdf_open pdf_path = Some (map Some texts) ->
  parse_statement pdf_open pdf_path
  = (Some (flat_map (line_records (extract_year_from_filename pdf_path))
                    (lines_of texts)),
     flat_map (line_warnings (path_name pdf_path)
                             (extract_year_from_filename pdf_path))
              (lines_of texts)).
Proof.
  intros H. unfold parse_statement. rewrite H. apply parse_pages_closed.
Qed.

(** Every record that [parse_statement] returns comes from a
    classified line of a page of the document, extracted with the
    year of the file. *)
Lemma parse_statement_lines pdf_open pdf_path transactions r :
  fst (parse_statement pdf_open pdf_path) = Some transactions ->
  In r transactions ->
  exists texts line,
    pdf_open pdf_path = Some (map Some texts)
    /\ In line (lines_of texts)
    /\ is_transaction_line (split line) = true
    /\ extract (extract_year_from_filename pdf_path) (split line) = Ok r.
Proof.
  intros Hsome Hin.
  destruct (pdf_open pdf_path) as [pages | ] eqn:Hopen.
  2:{ unfold parse_statement in Hsome. rewrite Hopen in Hsome. discriminate. }
  assert (Hpages : ~ In None pages).
  { intros Hnone. unfold parse_statement in Hsome. rewrite Hopen in Hsome.
    apply (parse_pages_none (path_name pdf_path)
             (extract_year_from_filename pdf_path) pages ([], [])) in Hnone.
    congruence. }
  destruct (pages_all_text pages Hpages) as [texts ->].
  rewrite (@parse_statement_closed pdf_open pdf_path texts Hopen) in Hsome.
  simpl in Hsome. injection Hsome as <-.
  apply in_flat_map in Hin. destruct Hin as (line & Hline & Hr).
  exists texts, line. split; [reflexivity | split; [exact Hline | ]].
  unfold line_records in Hr.
  destruct (is_transaction_line (split line)); [ | destruct Hr].
  destruct (extract _ (split line)) as [t | e]; [ | destruct Hr].
  destruct Hr as [-> | []]. auto.
Qed.

End DocumentFacts.

(* ================================================================== *)
(** * The extractor: claims C3, C4, C5 and C10 *)
(* ================================================================== *)

Module SliceFacts.
Import Slice.

Section Slices.
Variable A : Type.
Variable d : A.

Lemma slice_0_2 (l : list A) :
  4 <= List.length l -> slice l 0 2 = [nth 0 l d; nth 1 l d].
Proof.
  destruct l as [ | a [ | b [ | c [ | e l]]]]; simpl; try lia. intros _.
  unfold slice, bound. simpl. reflexivity.
Qed.

Lemma slice_2_4 (l : list A) :
  4 <= List.length l -> slice l 2 4 = [nth 2 l d; nth 3 l d].
Proof.
  destruct l as [ | a [ | b [ | c [ | e l]]]]; simpl; try lia. intros _.
  unfold slice, bound. simpl. reflexivity.
Qed.

Lemma slice_4_last (l : list A) :
  4 <= List.length l ->
  slice l 4 (-1) = firstn (List.length l - 5) (skipn 4 l).
Proof.
  intros H. unfold slice, bound.
  replace (4 <? 0)%Z with false by reflexivity.
  replace (-1 <? 0)%Z with true by reflexivity.
  replace (Nat.min (Z.to_nat 4) (List.length l)) with 4 by lia.
  replace (Z.to_nat (Z.max 0 (-1 + Z.of_nat (List.length l))))
    with (List.length l - 1) by lia.
  f_equal. lia.
Qed.

Lemma last_nth (l : list A) :
  last l d = nth (List.length l - 1) l d.
Proof.
  induction l as [ | a l IH]; [reflexivity | ].
  destruct l as [ | b l']; [reflexivity | ].
  change (last (a :: b :: l') d) with (last (b :: l') d). rewrite IH.
  simpl. now rewrite Nat.sub_0_r.
Qed.
End Slices.

End SliceFacts.

Module Extractor.
Import Str StrFacts CharFacts RegexFacts ClassifierFacts AmountFacts
       FloatFacts DateFacts StrptimeFacts YearFacts SliceFacts Pipeline.

(** ** The body of the inner [try], on four tokens or more *)

Lemma extract_unfold year parts :
  4 <= List.length parts ->
  extract year parts
  = (d1 <- strptime (date_text (nth 0 parts "") (nth 1 parts "") year) format_b_d_Y ;;
     d2 <- strptime (date_text (nth 2 parts "") (nth 3 parts "") year) format_b_d_Y ;;
     a <- match parse_amount (last parts "") with
          | Some a => Ok a
          | None => Raise Invalid_literal
          end ;;
     Ok (Transaction (strftime_Y_m_d d1) (strftime_Y_m_d d2)
           (Str.join " " (firstn (List.length parts - 5) (skipn 4 parts))) a)).
Proof.
  intros H. unfold extract.
  rewrite (slice_0_2 "" parts H), (slice_2_4 "" parts H), (slice_4_last parts H).
  reflexivity.
Qed.

Lemma classified_inv parts :
  is_transaction_line parts = true ->
  4 <= List.length parts /\ is_amount (last parts "") = true.
Proof.
  unfold is_transaction_line. rewrite !andb_true_iff, Nat.leb_le. tauto.
Qed.

(** The amount of a classified line always parses. *)
Lemma classified_amount parts :
  is_transaction_line parts = true ->
  parse_amount (last parts "")
  = Some (binary64_of_ratio false (cents_of (last parts "")) 100).
Proof.
  intros H. apply classified_inv in H. now apply parse_amount_accepted.
Qed.

Lemma strptime_valid s fmt d :
  strptime s fmt = Ok d -> valid_date (year d) (month d) (day d) = true.
Proof.
  unfold strptime. destruct (re_match fmt s) as [found | ]; [ | discriminate].
  destruct (negb _); [discriminate | ].
  destruct (match group "Y" _ with Some v => int v | None => Ok 1900 end)
    as [yy | ]; simpl; [ | discriminate].
  destruct (match group "m" _ with Some _ => _ | None => _ end)
    as [mm | ]; simpl; [ | discriminate].
  destruct (match group "d" _ with Some v => int v | None => Ok 1 end)
    as [dd | ]; simpl; [ | discriminate].
  intros H. apply make_valid in H. now destruct H as [-> H].
Qed.

(** What [strftime] writes for a date from the year 1000 on that
    [strptime] read is of the form [YYYY-MM-DD] and reads back as
    that date. *)
Lemma strftime_of_strptime s fmt d :
  strptime s fmt = Ok d -> 1000 <= year d ->
  iso_date_form (strftime_Y_m_d d) = true
  /\ strptime (strftime_Y_m_d d) format_Y_m_d = Ok d.
Proof.
  intros H Hy. apply strptime_valid in H. split.
  - now apply strftime_iso_form.
  - destruct d as [y m dd]. now apply strptime_strftime.
Qed.

(** A text that is an amount is not a day. *)
Lemma amount_not_day tok : is_amount tok = true -> day_token tok = false.
Proof.
  intros H. apply is_amount_sound in H.
  destruct H as (t & (head & gs & cents & -> & _) & Ht).
  destruct Ht as [-> | ->]; simpl;
    destruct (head ++ comma_chunks gs ++ String "." cents) as [ | c [ | ? ?]];
    reflexivity.
Qed.

(** When the extractor builds a record from the tokens of a
    classified line, and which. *)
Lemma extract_tokens line year r :
  is_transaction_line (split line) = true -> digits_exactly 4 year ->
  (extract year (split line) = Ok r
   <-> exists d1 d2 a,
         read_date (nth 0 (split line) "") (nth 1 (split line) "") year = Ok d1
         /\ day_token (nth 1 (split line) "") = true
         /\ read_date (nth 2 (split line) "") (nth 3 (split line) "") year = Ok d2
         /\ day_token (nth 3 (split line) "") = true
         /\ parse_amount (nth (List.length (split line) - 1) (split line) "")
            = Some a
         /\ r = Transaction (strftime_Y_m_d d1) (strftime_Y_m_d d2)
                  (join " " (firstn (List.length (split line) - 5)
                                    (skipn 4 (split line)))) a).
Proof.
  intros Hc Hy4. set (t := split line) in *.
  pose proof (classified_inv _ Hc) as [Hlen _].
  pose proof (classified_amount _ Hc) as Ha.
  rewrite (last_nth "" t) in Ha.
  assert (Htok : forall i, i < List.length t -> is_token (nth i t "")).
  { intros i Hi. apply Forall_nth; [apply split_tokens | exact Hi]. }
  assert (Hiff : forall i j d, i < List.length t -> j < List.length t ->
             strptime (date_text (nth i t "") (nth j t "") year) format_b_d_Y = Ok d
             <-> read_date (nth i t "") (nth j t "") year = Ok d
                 /\ day_token (nth j t "") = true).
  { intros i j d Hi Hj. rewrite date_text_tokens.
    apply strptime_tokens_iff; [now apply Htok | now apply Htok | exact Hy4]. }
  rewrite (extract_unfold year t Hlen), (last_nth "" t), Ha.
  split.
  - intros Hr.
    destruct (strptime (date_text (nth 0 t "") (nth 1 t "") year) _)
      as [d1 | ] eqn:H1; simpl in Hr; [ | discriminate].
    destruct (strptime (date_text (nth 2 t "") (nth 3 t "") year) _)
      as [d2 | ] eqn:H2; simpl in Hr; [ | discriminate].
    injection Hr as <-.
    apply Hiff in H1; [ | lia | lia]. apply Hiff in H2; [ | lia | lia].
    destruct H1 as [H1 K1]. destruct H2 as [H2 K2].
    exists d1, d2. eexists. repeat split; eassumption.
  - intros (d1 & d2 & a & H1 & K1 & H2 & K2 & Hpa & ->).
    rewrite (proj2 (Hiff 0 1 d1 ltac:(lia) ltac:(lia)) (conj H1 K1)).
    rewrite (proj2 (Hiff 2 3 d2 ltac:(lia) ltac:(lia)) (conj H2 K2)).
    simpl. congruence.
Qed.

(** A record needs five tokens: on a line of four, the amount is the
    day of the post date. *)
Lemma extract_five_tokens line year r :
  is_transaction_line (split line) = true -> digits_exactly 4 year ->
  extract year (split line) = Ok r -> 5 <= List.length (split line).
Proof.
  intros Hc Hy4 Hr.
  pose proof (classified_inv _ Hc) as [Hlen Hamt].
  apply (@extract_tokens line year r Hc Hy4) in Hr.
  destruct Hr as (d1 & d2 & a & _ & _ & _ & K2 & _).
  destruct (Nat.eq_dec (List.length (split line)) 4) as [E | E]; [ | lia].
  rewrite (last_nth "" (split line)), E in Hamt.
  apply amount_not_day in Hamt. simpl in Hamt. congruence.
Qed.

(** The dates of a record in a year that does not start with [0]. *)
Lemma extract_full_year line year r :
  is_transaction_line (split line) = true -> full_year year ->
  extract year (split line) = Ok r ->
  exists d1 d2,
    read_date (nth 0 (split line) "") (nth 1 (split line) "") year = Ok d1
    /\ read_date (nth 2 (split line) "") (nth 3 (split line) "") year = Ok d2
    /\ transaction_date r
       = year ++ "-" ++ pad2 (month d1) ++ "-" ++ pad2 (day d1)
    /\ post_date r
       = year ++ "-" ++ pad2 (month d2) ++ "-" ++ pad2 (day d2)
    /\ iso_date_form (transaction_date r) = true
    /\ iso_date_form (post_date r) = true
    /\ strptime (transaction_date r) format_Y_m_d = Ok d1
    /\ strptime (post_date r) format_Y_m_d = Ok d2.
Proof.
  intros Hc Hf Hr. apply (@extract_tokens line year r Hc (proj1 Hf)) in Hr.
  destruct Hr as (d1 & d2 & a & H1 & _ & H2 & _ & _ & ->).
  pose proof (read_date_inv _ _ _ H1) as (Y1 & _ & _ & V1).
  pose proof (read_date_inv _ _ _ H2) as (Y2 & _ & _ & V2).
  destruct (@strftime_full_year year d1 Hf Y1) as [G1 E1].
  destruct (@strftime_full_year year d2 Hf Y2) as [G2 E2].
  exists d1, d2. cbn [transaction_date post_date].
  split; [exact H1 | split; [exact H2 | ]].
  split; [exact E1 | split; [exact E2 | ]].
  split; [now apply strftime_iso_form | split; [now apply strftime_iso_form | ]].
  destruct d1 as [y1 m1 dd1], d2 as [y2 m2 dd2].
  split; now apply strptime_strftime.
Qed.

(** C3, amended.  For a classified line with the tokens [t] (there
    are [n]) and a year of four digits, the extractor builds a record
    exactly when each of the two date pairs [t[0] t[1]] and
    [t[2] t[3]] names a month and a day of that month in that year,
    the day written as [%d] takes it.  This takes five tokens at
    least: on a line of four the amount is also the day of the post
    date, and the line gives no record.  The record has the two
    dates as [strftime] writes them, the description [t[4..n-2]]
    joined by blanks (empty when [n] is 5) and the amount parsed from
    [t[n-1]].  When the year does not start with [0], the two dates
    are the year, a dash and the month and the day on two digits
    each: they have the form [YYYY-MM-DD] and read back as the dates
    they were made from.  The line [Jan 5 Jan 6 COFFEE SHOP $4.50] in
    2024 gives [2024-01-05], [2024-01-06], [COFFEE SHOP] and 4.50. *)
Theorem extracted_record :
  forall line year : string,
    let t := Str.split line in
    let n := List.length t in
    is_transaction_line t = true ->
    digits_exactly 4 year ->
    (forall r : transaction,
        extract year t = Ok r
        <-> exists d1 d2 a,
              read_date (nth 0 t "") (nth 1 t "") year = Ok d1
              /\ day_token (nth 1 t "") = true
              /\ read_date (nth 2 t "") (nth 3 t "") year = Ok d2
              /\ day_token (nth 3 t "") = true
              /\ parse_amount (nth (n - 1) t "") = Some a
              /\ r = Transaction (strftime_Y_m_d d1) (strftime_Y_m_d d2)
                       (Str.join " " (firstn (n - 5) (skipn 4 t))) a)
    /\ (forall r : transaction, extract year t = Ok r -> 5 <= n)
    /\ (leading_zero year = false ->
        forall r : transaction,
          extract year t = Ok r ->
          exists d1 d2 : datetime,
            read_date (nth 0 t "") (nth 1 t "") year = Ok d1
            /\ read_date (nth 2 t "") (nth 3 t "") year = Ok d2
            /\ transaction_date r
               = year ++ "-" ++ pad2 (month d1) ++ "-" ++ pad2 (day d1)
            /\ post_date r
               = year ++ "-" ++ pad2 (month d2) ++ "-" ++ pad2 (day d2)
            /\ iso_date_form (transaction_date r) = true
            /\ iso_date_form (post_date r) = true
            /\ strptime (transaction_date r) format_Y_m_d = Ok d1
            /\ strptime (post_date r) format_Y_m_d = Ok d2)
    /\ (n <= 5 -> Str.join " " (firstn (n - 5) (skipn 4 t)) = "")
    /\ (line = "Jan 5 Jan 6 COFFEE SHOP $4.50" -> year = "2024" ->
        exists a, extract year t
                  = Ok (Transaction "2024-01-05" "2024-01-06" "COFFEE SHOP" a)
                  /\ is_cents a 450).
Proof.
  intros line year t n Hc Hy4.
  split; [intros r; now apply extract_tokens | ].
  split; [intros r; now apply extract_five_tokens | ].
  split.
  { intros Hz r Hr. apply extract_full_year; [exact Hc | now split | exact Hr]. }
  split.
  - intros Hn. replace (n - 5) with 0 by lia. reflexivity.
  - intros Hl Hy. subst t. subst line year.
    eexists. split; [vm_compute; reflexivity | ]. vm_compute. reflexivity.
Qed.

Lemma extracted_record_witness :
  is_transaction_line (Str.split "Jan 5 Jan 6 COFFEE SHOP $4.50") = true
  /\ digits_exactly 4 "2024"
  /\ exists a, extract "2024" (Str.split "Jan 5 Jan 6 COFFEE SHOP $4.50")
               = Ok (Transaction "2024-01-05" "2024-01-06" "COFFEE SHOP" a)
               /\ is_cents a 450.
Proof.
  split; [reflexivity | split; [split; reflexivity | ]].
  apply (@extracted_record "Jan 5 Jan 6 COFFEE SHOP $4.50" "2024"
           eq_refl (conj eq_refl eq_refl)); reflexivity.
Defined.

(** C3, as the claim words it, fails on two counts.  The line
    [Jan 5 Jan $1.00] has four tokens and is classified, and the
    extractor builds no record from it: its last token is the amount
    and the day of the post date at once.  And with the year [0999],
    which has four digits, the dates of the record of
    [Jan 5 Jan 6 COFFEE SHOP $4.50] are [999-01-05] and [999-01-06]:
    not of the form [YYYY-MM-DD]. *)
Lemma extracted_record_fails_as_worded :
  (is_transaction_line (Str.split "Jan 5 Jan $1.00") = true
   /\ List.length (Str.split "Jan 5 Jan $1.00") = 4
   /\ digits_exactly 4 "2024"
   /\ extract "2024" (Str.split "Jan 5 Jan $1.00")
      = Raise Data_does_not_match_format)
  /\ (is_transaction_line (Str.split "Jan 5 Jan 6 COFFEE SHOP $4.50") = true
      /\ digits_exactly 4 "0999"
      /\ (exists a,
            extract "0999" (Str.split "Jan 5 Jan 6 COFFEE SHOP $4.50")
            = Ok (Transaction "999-01-05" "999-01-06" "COFFEE SHOP" a))
      /\ iso_date_form "999-01-05" = false
      /\ iso_date_form "999-01-06" = false).
Proof.
  split.
  - split; [reflexivity | split; [reflexivity | split; [split; reflexivity | ]]].
    vm_compute. reflexivity.
  - split; [reflexivity | split; [split; reflexivity | ]].
    split; [eexists; vm_compute; reflexivity | split; reflexivity].
Qed.

(** C4, as [float] has it.  The amount parser takes [$] and every
    [,] out of its input and reads what is left as a binary64
    number: on every text that the classifier accepts as an amount it
    returns the binary64 number nearest to the amount, that is to its
    digits read as a number of cents, over 100.  So
    [$1,234.56] gives the float 1234.56 and [$0.00] gives 0.0; the
    two digits of the fraction are kept exactly where binary64 has
    the amount, as for [$4.50]. *)
Theorem parse_amount_binary64 :
  (forall s : string,
      parse_amount s
      = float (filter_chars
                 (fun c => negb (Ascii.eqb "$" c) && negb (Ascii.eqb "," c)) s))
  /\ (forall text : string,
         is_amount text = true ->
         parse_amount text
         = Some (binary64_of_ratio false (cents_of text) 100))
  /\ parse_amount "$1,234.56" = float "1234.56"
  /\ parse_amount "$1,234.56" = Some (S754_finite false 5429652300748554 (-42))
  /\ parse_amount "$0.00" = float "0.0"
  /\ parse_amount "$0.00" = Some (S754_zero false)
  /\ (exists a, parse_amount "$4.50" = Some a /\ is_cents a 450).
Proof.
  split; [exact parse_amount_filter | ].
  split; [exact parse_amount_accepted | ].
  repeat split; try (vm_compute; reflexivity).
  eexists. split; vm_compute; reflexivity.
Qed.

(** C4, as the claim words it, fails: the classifier accepts
    [$9,007,199,254,740,992.01], and the parser returns for it the
    number it returns for [$9,007,199,254,740,992.00]: the cent is
    rounded away. *)
Lemma parse_amount_rounds_cent_away :
  is_amount "$9,007,199,254,740,992.01" = true
  /\ parse_amount "$9,007,199,254,740,992.01"
     = parse_amount "$9,007,199,254,740,992.00"
  /\ forall a : spec_float,
       parse_amount "$9,007,199,254,740,992.01" = Some a ->
       ~ is_cents a 900719925474099201.
Proof.
  split; [vm_compute; reflexivity | ].
  split; [vm_compute; reflexivity | ].
  intros a H. vm_compute in H. injection H as <-.
  vm_compute. discriminate.
Qed.

Lemma extract_amount_nonneg year parts r :
  is_transaction_line parts = true -> extract year parts = Ok r ->
  nonneg (amount r) = true.
Proof.
  intros Hc Hr.
  pose proof (classified_inv _ Hc) as [Hlen _].
  rewrite (extract_unfold year parts Hlen), (classified_amount _ Hc) in Hr.
  destruct (strptime (date_text (nth 0 parts "") (nth 1 parts "") year) _);
    simpl in Hr; [ | discriminate].
  destruct (strptime (date_text (nth 2 parts "") (nth 3 parts "") year) _);
    simpl in Hr; [ | discriminate].
  injection Hr as <-. simpl. apply binary64_of_ratio_nonneg.
Qed.

(** C10.  An amount that the classifier accepts has no minus sign
    and parses to a number that is not below zero, so the amount of
    every extracted record, and of every record that
    [process_all_statements] puts in the aggregator, is not below
    zero. *)
Theorem amounts_are_nonnegative :
  forall (pdf_open : string -> document) (pdf_files : list string),
    (forall text : string,
        is_amount text = true ->
        contains_char "-" text = false
        /\ exists a, parse_amount text = Some a /\ nonneg a = true)
    /\ (forall (year : string) (parts : list string) (r : transaction),
           is_transaction_line parts = true -> extract year parts = Ok r ->
           nonneg (amount r) = true)
    /\ all_records (fun r => nonneg (amount r) = true)
         (snd (fst (process_all_statements pdf_open pdf_files []))).
Proof.
  intros pdf_open pdf_files. split; [ | split].
  - intros text H. split.
    + destruct (contains_char "-" text) eqn:E; [ | reflexivity].
      apply Classifier.is_amount_no_sign in E. congruence.
    + eexists. split; [now apply parse_amount_accepted | ].
      apply binary64_of_ratio_nonneg.
  - exact extract_amount_nonneg.
  - apply process_all_statements_invariant; [ | constructor].
    exact extract_amount_nonneg.
Qed.

(** ** A line that the extractor rejects *)

Lemma parse_line_transactions pdf_name year ts out1 out2 line :
  fst (parse_line pdf_name year (ts, out1) line)
  = fst (parse_line pdf_name year (ts, out2) line).
Proof.
  unfold parse_line.
  destruct (String.eqb (strip line) ""); [reflexivity | ].
  destruct (is_transaction_line (split line)); [ | reflexivity].
  destruct (extract year (split line)); reflexivity.
Qed.

Lemma parse_lines_transactions pdf_name year text_lines :
  forall st1 st2, fst st1 = fst st2 ->
    fst (parse_lines pdf_name year st1 text_lines)
    = fst (parse_lines pdf_name year st2 text_lines).
Proof.
  unfold parse_lines.
  induction text_lines as [ | l ls IH]; simpl; intros st1 st2 H; [exact H | ].
  apply IH. destruct st1 as [ts1 o1], st2 as [ts2 o2]. simpl in H. subst ts2.
  apply parse_line_transactions.
Qed.

Lemma parse_lines_append pdf_name year st l1 l2 :
  parse_lines pdf_name year st (l1 ++ l2)
  = parse_lines pdf_name year (parse_lines pdf_name year st l1) l2.
Proof. unfold parse_lines. apply fold_left_app. Qed.

Lemma parse_line_rejected pdf_name year st line e :
  is_transaction_line (split line) = true ->
  extract year (split line) = Raise e ->
  parse_line pdf_name year st line
  = (fst st, (snd st ++ [Warning_could_not_parse_line pdf_name line;
                         Error_detail e])%list).
Proof.
  intros Hc He. destruct st as [ts out]. unfold parse_line.
  rewrite Hc, He.
  destruct (String.eqb (strip line) "") eqn:Hblank; [ | reflexivity].
  exfalso. clear He.
  (* a blank line has no token *)
  apply String.eqb_eq in Hblank.
  assert (Hsplit : forall s cur, split_from cur s <> [] -> cur <> "" \/ lstrip s <> "").
  { induction s as [ | c s IH]; simpl; intros cur H.
    - destruct cur; [congruence | left; discriminate].
    - destruct (is_space c).
      + destruct cur; [ | left; discriminate].
        destruct (IH "" H) as [H' | H']; [congruence | now right].
      + right. discriminate. }
  apply classified_inv in Hc. destruct Hc as [Hlen _].
  destruct (Hsplit line "") as [H | H].
  - unfold split in Hlen. destruct (split_from "" line); [simpl in Hlen; lia | discriminate].
  - congruence.
  - unfold strip, rstrip in Hblank.
    assert (Hrev : forall s, rev s = "" -> s = "").
    { intros s Hs. rewrite <- (rev_involutive s), Hs. reflexivity. }
    apply Hrev in Hblank.
    destruct (lstrip line) as [ | c s] eqn:El; [congruence | ].
    assert (Hc : is_space c = false).
    { clear -El. induction line as [ | c0 l IH]; simpl in El; [discriminate | ].
      destruct (is_space c0) eqn:E0; [now apply IH | ].
      injection El as -> _. exact E0. }
    change (String c s) with (String c "" ++ s) in Hblank.
    rewrite rev_append in Hblank.
    assert (Hl : lstrip (rev s ++ rev (String c "")) <> "").
    { clear -Hc. change (rev (String c "")) with (String c "").
      induction (rev s) as [ | c1 r IH]; simpl.
      - rewrite Hc. discriminate.
      - destruct (is_space c1); [exact IH | discriminate]. }
    contradiction.
Qed.

Lemma parse_pages_all_text pdf_name year texts :
  forall st, exists ts,
    fst (parse_pages pdf_name year st (map Some texts)) = Some ts.
Proof.
  induction texts as [ | text texts IH]; simpl; intros st.
  - now exists (fst st).
  - apply IH.
Qed.

Lemma strptime_raises_unread a b year :
  is_token a -> is_token b -> is_token year ->
  unknown_month a \/ day_out_of_range year a b ->
  exists e, strptime (date_text a b year) format_b_d_Y = Raise e.
Proof.
  intros Ha Hb Hy Hbad.
  destruct (strptime (date_text a b year) format_b_d_Y) as [d | e] eqn:H;
    [exfalso | now exists e].
  rewrite date_text_tokens in H. apply strptime_tokens in H; auto.
  destruct Hbad as [Hm | (yy & mm & dd & H1 & H2 & H3 & H4)].
  - revert H. now apply unknown_month_not_read.
  - revert H. now apply (@day_out_of_range_not_read a b year yy mm dd d).
Qed.

(** C5.  For a classified line of a document: a date pair whose
    month is none of the twelve abbreviations, or whose day is past
    the end of its month, is not read; and when either date pair is
    not read, no record is made of the line, a warning and the error
    are printed, and the document goes on: the lines after it are
    parsed from the state that the lines before it left, the records
    of the page are those of the page without the line, and no page
    of text makes the document fail. *)
Theorem unread_date_skips_the_line :
  forall (pdf_name year line : string) (st : parse_state)
         (before after : list string),
    let t := Str.split line in
    let trans_date := date_text (nth 0 t "") (nth 1 t "") year in
    let post_date := date_text (nth 2 t "") (nth 3 t "") year in
    is_transaction_line t = true ->
    is_token year ->
    (unknown_month (nth 0 t "") \/ day_out_of_range year (nth 0 t "") (nth 1 t "") ->
     exists e, strptime trans_date format_b_d_Y = Raise e)
    /\ (unknown_month (nth 2 t "") \/ day_out_of_range year (nth 2 t "") (nth 3 t "") ->
        exists e, strptime post_date format_b_d_Y = Raise e)
    /\ ((exists e, strptime trans_date format_b_d_Y = Raise e)
        \/ (exists e, strptime post_date format_b_d_Y = Raise e) ->
        exists e : value_error,
          let printed := [Warning_could_not_parse_line pdf_name line;
                          Error_detail e] in
          let st1 := parse_lines pdf_name year st before in
          extract year t = Raise e
          /\ parse_line pdf_name year st line = (fst st, (snd st ++ printed)%list)
          /\ parse_lines pdf_name year st (before ++ line :: after)
             = parse_lines pdf_name year (fst st1, (snd st1 ++ printed)%list) after
          /\ fst (parse_lines pdf_name year st (before ++ line :: after))
             = fst (parse_lines pdf_name year st (before ++ after))
          /\ forall texts : list string,
               exists ts, fst (parse_pages pdf_name year st (map Some texts)) = Some ts).
Proof.
  intros pdf_name year line st before after t trans_date post_date Hc Hyear.
  pose proof (classified_inv _ Hc) as [Hlen _].
  assert (Htok : forall i, i < List.length t -> is_token (nth i t "")).
  { intros i Hi. apply Forall_nth; [apply split_tokens | exact Hi]. }
  split; [ | split].
  - apply strptime_raises_unread; auto; apply Htok; lia.
  - apply strptime_raises_unread; auto; apply Htok; lia.
  - intros Hfail.
    assert (He : exists e, extract year t = Raise e).
    { rewrite (extract_unfold year t Hlen).
      fold trans_date post_date.
      destruct Hfail as [(e & H) | (e & H)].
      - rewrite H. now exists e.
      - destruct (strptime trans_date format_b_d_Y) as [d1 | e1]; simpl.
        + rewrite H. now exists e.
        + now exists e1. }
    destruct He as (e & He). exists e. cbv zeta.
    split; [exact He | ].
    split; [now apply parse_line_rejected | ].
    split; [ | split].
    + rewrite parse_lines_append.
      change (parse_lines pdf_name year ?s (line :: after))
        with (parse_lines pdf_name year (parse_line pdf_name year s line) after).
      now rewrite (@parse_line_rejected pdf_name year _ line e Hc He).
    + rewrite !parse_lines_append.
      change (parse_lines pdf_name year ?s (line :: after))
        with (parse_lines pdf_name year (parse_line pdf_name year s line) after).
      rewrite (@parse_line_rejected pdf_name year _ line e Hc He).
      now apply parse_lines_transactions.
    + intros texts. apply parse_pages_all_text.
Qed.

Lemma unread_date_skips_the_line_witness :
  is_transaction_line (Str.split "Feb 30 Mar 1 SHOP $1.00") = true
  /\ is_token "2024"
  /\ exists e,
       strptime (date_text "Feb" "30" "2024") format_b_d_Y = Raise e.
Proof.
  split; [reflexivity | split; [reflexivity | ]].
  apply (@unread_date_skips_the_line "statement.pdf" "2024"
           "Feb 30 Mar 1 SHOP $1.00" ([], []) [] [] eq_refl eq_refl).
  right. exists 2024, 2, 30. repeat split. vm_compute. lia.
Defined.

End Extractor.

(* ================================================================== *)
(** * Sorting: [sorted] is a stable sort *)
(* ================================================================== *)

Module SortingFacts.
Import Sorting.

Section Sorted.
Variables (A K : Type).
Variable lt : K -> K -> bool.
Variable keq : K -> K -> bool.
Variable key : A -> K.

(** [lt] is a strict total order and [keq] is the equality of
    keys. *)
Hypothesis lt_trans : forall a b c, lt a b = true -> lt b c = true -> lt a c = true.
Hypothesis lt_irrefl : forall a, lt a a = false.
Hypothesis lt_total : forall a b, lt a b = false -> lt b a = false -> a = b.
Hypothesis keq_eq : forall a b, keq a b = true <-> a = b.

Lemma not_after_trans x y z : (not_after lt key) x y -> (not_after lt key) y z -> (not_after lt key) x z.
Proof.
  unfold not_after. intros Hxy Hyz.
  destruct (lt (key z) (key x)) eqn:Hzx; [ | reflexivity].
  destruct (lt (key x) (key y)) eqn:Hlt.
  - now rewrite (lt_trans Hzx Hlt) in Hyz.
  - rewrite (lt_total Hlt Hxy) in Hzx. congruence.
Qed.

Lemma insert_permutation x l : Permutation (x :: l) (insert lt key x l).
Proof.
  induction l as [ | y l IH]; simpl; [apply Permutation_refl | ].
  destruct (lt (key y) (key x)); [ | apply Permutation_refl].
  apply perm_trans with (y :: x :: l); [apply perm_swap | ].
  now apply perm_skip.
Qed.

Lemma sorted_permutation l : Permutation l (sorted lt key l).
Proof.
  induction l as [ | x l IH]; simpl; [apply perm_nil | ].
  apply perm_trans with (x :: sorted lt key l).
  - now apply perm_skip.
  - apply insert_permutation.
Qed.

Lemma insert_forall (P : A -> Prop) x l :
  P x -> Forall P l -> Forall P (insert lt key x l).
Proof.
  intros Hx Hl. induction Hl as [ | y l Hy Hl IH]; simpl.
  - now constructor.
  - destruct (lt (key y) (key x)); constructor; auto.
Qed.

Lemma insert_ascending x l :
  StronglySorted (not_after lt key) l -> StronglySorted (not_after lt key) (insert lt key x l).
Proof.
  intros H. induction H as [ | y l Hl IH Hy]; simpl.
  - constructor; constructor.
  - destruct (lt (key y) (key x)) eqn:Hlt.
    + constructor; [exact IH | ].
      apply insert_forall; [ | exact Hy].
      unfold not_after.
      destruct (lt (key x) (key y)) eqn:Hxy; [ | reflexivity].
      pose proof (lt_trans Hlt Hxy) as Hyy. now rewrite lt_irrefl in Hyy.
    + constructor; [now constructor | ].
      constructor; [exact Hlt | ].
      revert Hy. apply Forall_impl. intros z Hz.
      now apply not_after_trans with y.
Qed.

Lemma sorted_ascending l : StronglySorted (not_after lt key) (sorted lt key l).
Proof.
  induction l as [ | x l IH]; simpl; [constructor | ].
  now apply insert_ascending.
Qed.

(** The elements of a given key are where they were, in the order
    they were in. *)
Lemma insert_stable k x l :
  filter (fun y => keq (key y) k) (insert lt key x l)
  = filter (fun y => keq (key y) k) (x :: l).
Proof.
  induction l as [ | y l IH]; [reflexivity | ].
  cbn [insert]. destruct (lt (key y) (key x)) eqn:Hlt; [ | reflexivity].
  cbn [filter] in *. rewrite IH.
  destruct (keq (key x) k) eqn:Hx; [ | reflexivity].
  destruct (keq (key y) k) eqn:Hy; [ | reflexivity].
  apply keq_eq in Hx, Hy. rewrite Hx, Hy, lt_irrefl in Hlt. discriminate.
Qed.

Lemma sorted_stable k l :
  filter (fun y => keq (key y) k) (sorted lt key l)
  = filter (fun y => keq (key y) k) l.
Proof.
  induction l as [ | x l IH]; [reflexivity | ].
  cbn [sorted]. rewrite insert_stable. cbn [filter]. now rewrite IH.
Qed.
End Sorted.

(** [<] and [==] on dates. *)
Lemma datetime_ltb_trans a b c :
  Datetime.ltb a b = true -> Datetime.ltb b c = true -> Datetime.ltb a c = true.
Proof.
  unfold Datetime.ltb.
  rewrite !orb_true_iff, !andb_true_iff, !orb_true_iff, !andb_true_iff,
    !Nat.ltb_lt, !Nat.eqb_eq.
  lia.
Qed.

Lemma datetime_ltb_irrefl a : Datetime.ltb a a = false.
Proof.
  unfold Datetime.ltb. rewrite !Nat.ltb_irrefl, !Nat.eqb_refl. reflexivity.
Qed.

Lemma datetime_ltb_total a b :
  Datetime.ltb a b = false -> Datetime.ltb b a = false -> a = b.
Proof.
  destruct a as [y1 m1 d1], b as [y2 m2 d2]. unfold Datetime.ltb. simpl.
  rewrite !orb_false_iff, !andb_false_iff, !orb_false_iff, !andb_false_iff,
    !Nat.ltb_ge, !Nat.eqb_neq.
  intros H1 H2.
  assert (y1 = y2 /\ m1 = m2 /\ d1 = d2) as (-> & -> & ->) by lia.
  reflexivity.
Qed.

Lemma datetime_eqb_eq a b : datetime_eqb a b = true <-> a = b.
Proof.
  destruct a as [y1 m1 d1], b as [y2 m2 d2]. unfold datetime_eqb. simpl.
  rewrite !andb_true_iff, !Nat.eqb_eq. split.
  - intros [[-> ->] ->]. reflexivity.
  - intros H. injection H as -> -> ->. auto.
Qed.

End SortingFacts.

(* ================================================================== *)
(** * The exporter: claims C6 and C7 *)
(* ================================================================== *)

Module Exporter.
Import StrFacts SortingFacts.

(** ** The keys and the sorted records *)

Lemma sort_keys_ok ts :
  forall keyed, sort_keys ts = Ok keyed ->
    map snd keyed = ts
    /\ Forall (fun p => date_key (snd p) = Ok (fst p)) keyed.
Proof.
  induction ts as [ | t ts IH]; simpl; intros keyed H.
  - injection H as <-. split; [reflexivity | constructor].
  - destruct (strptime (transaction_date t) format_Y_m_d) as [k | ] eqn:Hk;
      simpl in H; [ | discriminate].
    destruct (sort_keys ts) as [rest | ]; simpl in H; [ | discriminate].
    injection H as <-. destruct (IH rest eq_refl) as [Hm Hf].
    split; [simpl; now rewrite Hm | ].
    constructor; [exact Hk | exact Hf].
Qed.

Lemma sort_keys_total ts :
  Forall has_date_key ts -> exists keyed, sort_keys ts = Ok keyed.
Proof.
  intros H. induction H as [ | t ts [k Hk] _ [rest IH]]; simpl.
  - now exists [].
  - unfold date_key in Hk. rewrite Hk, IH. simpl. now eexists.
Qed.

Lemma dated_keyed k keyed :
  Forall (fun p => date_key (snd p) = Ok (fst p)) keyed ->
  map snd (filter (fun p : datetime * transaction => datetime_eqb (fst p) k) keyed)
  = filter (dated k) (map snd keyed).
Proof.
  intros H. induction H as [ | [k' t] keyed Hk _ IH]; [reflexivity | ].
  simpl in *. unfold dated at 1. rewrite Hk.
  destruct (datetime_eqb k' k); simpl; now rewrite IH.
Qed.

Lemma ascending_keyed keyed :
  Forall (fun p => date_key (snd p) = Ok (fst p)) keyed ->
  StronglySorted (Sorting.not_after Datetime.ltb fst) keyed ->
  StronglySorted in_date_order (map snd keyed).
Proof.
  intros Hall Hs. induction Hs as [ | p l' Hs IH Hp]; simpl; [constructor | ].
  inversion Hall as [ | ? ? Hkp Hall']; subst.
  constructor; [now apply IH | ].
  rewrite Forall_map. rewrite Forall_forall in *.
  intros q Hq kx ky Hx Hy.
  rewrite Hkp in Hx. rewrite (Hall' q Hq) in Hy.
  injection Hx as <-. injection Hy as <-. now apply Hp.
Qed.

Lemma sorted_transactions_spec ts l :
  sorted_transactions ts = Ok l ->
  Permutation ts l
  /\ StronglySorted in_date_order l
  /\ forall k, filter (dated k) l = filter (dated k) ts.
Proof.
  unfold sorted_transactions.
  destruct (sort_keys ts) as [keyed | ] eqn:Hkeys; simpl; [ | discriminate].
  intros H. injection H as <-.
  destruct (sort_keys_ok _ Hkeys) as [Hmap Hall].
  pose proof (sorted_permutation Datetime.ltb fst keyed) as Hperm.
  assert (Hall' : Forall (fun p => date_key (snd p) = Ok (fst p))
                         (Sorting.sorted Datetime.ltb fst keyed)).
  { apply Forall_forall. intros p Hp. rewrite Forall_forall in Hall.
    apply Hall. apply Permutation_sym in Hperm.
    now apply (Permutation_in _ Hperm). }
  split; [ | split].
  - rewrite <- Hmap. now apply Permutation_map.
  - apply ascending_keyed; [exact Hall' | ].
    apply (sorted_ascending Datetime.ltb fst datetime_ltb_trans
             datetime_ltb_irrefl datetime_ltb_total).
  - intros k. rewrite <- Hmap, <- !dated_keyed by assumption.
    f_equal.
    apply (sorted_stable Datetime.ltb datetime_eqb fst
                         datetime_ltb_irrefl datetime_eqb_eq).
Qed.

Lemma sorted_transactions_total ts :
  Forall has_date_key ts -> exists l, sorted_transactions ts = Ok l.
Proof.
  intros H. destruct (sort_keys_total H) as [keyed Hk].
  unfold sorted_transactions. rewrite Hk. simpl. now eexists.
Qed.


(** ** One year after the other *)

Lemma output_file_inj directory y1 y2 :
  output_file directory y1 = output_file directory y2 -> y1 = y2.
Proof.
  unfold output_file. intros H.
  apply append_inv_head in H. apply append_inv_head in H.
  now apply append_inv_tail in H.
Qed.

Lemma write_file_same fs path rows : write_file fs path rows path = Some rows.
Proof. unfold write_file. now rewrite String.eqb_refl. Qed.

Lemma write_file_other fs path rows p :
  p <> path -> write_file fs path rows p = fs p.
Proof.
  intros H. unfold write_file. apply String.eqb_neq in H. now rewrite H.
Qed.

(** Whether a year is written does not depend on the files that are
    there. *)
Lemma save_year_ok_any_fs directory io fs1 fs2 year ts :
  fst (fst (save_year directory io fs1 year ts))
  = fst (fst (save_year directory io fs2 year ts)).
Proof.
  unfold save_year.
  destruct (io (output_file directory year));
    destruct (sorted_transactions ts); try reflexivity;
    destruct (written _ _); reflexivity.
Qed.

Lemma save_year_other_file directory io fs year ts p :
  p <> output_file directory year ->
  snd (fst (save_year directory io fs year ts)) p = fs p.
Proof.
  intros Hp. unfold save_year.
  destruct (io (output_file directory year));
    destruct (sorted_transactions ts); try reflexivity;
    try destruct (written _ _); simpl; now apply write_file_other.
Qed.

(** A year that is written is written whole: the header and the
    sorted records. *)
Lemma save_year_written directory io fs year ts :
  fst (fst (save_year directory io fs year ts)) = true ->
  exists l,
    sorted_transactions ts = Ok l
    /\ save_year directory io fs year ts
       = (true,
          write_file fs (output_file directory year)
                     (Header_row fieldnames :: map Data_row l),
          [Saved_transactions (List.length ts) year (output_file directory year)]).
Proof.
  unfold save_year.
  destruct (io (output_file directory year)) as [ | | n];
    destruct (sorted_transactions ts) as [l | e]; simpl; try discriminate.
  - intros _. now exists l.
  - destruct (n <? S (List.length (map Data_row l))); simpl; [discriminate | ].
    intros _. now exists l.
Qed.

Lemma save_year_failed directory io fs year ts :
  fst (fst (save_year directory io fs year ts)) = false ->
  snd (save_year directory io fs year ts) = [Error_saving_csv year].
Proof.
  unfold save_year.
  destruct (io (output_file directory year)) as [ | | n];
    destruct (sorted_transactions ts) as [l | e]; simpl;
    try discriminate; try reflexivity.
  destruct (n <? S (List.length (map Data_row l))); simpl;
    [reflexivity | discriminate].
Qed.

(** The years that are written before the loop meets [rest]. *)
Lemma save_years_written directory io earlier :
  forall rest fs out,
    NoDup (map fst earlier) ->
    Forall (fun e => forall fs0,
                fst (fst (save_year directory io fs0 (fst e) (snd e))) = true)
           earlier ->
    exists fs1,
      save_years directory io (earlier ++ rest)%list fs out
      = save_years directory io rest fs1
          (out ++ map (fun e => Saved_transactions (List.length (snd e)) (fst e)
                                  (output_file directory (fst e))) earlier)%list
      /\ (forall p, (forall e, In e earlier -> p <> output_file directory (fst e)) ->
                    fs1 p = fs p)
      /\ (forall y ts, In (y, ts) earlier ->
            exists l, sorted_transactions ts = Ok l
                      /\ fs1 (output_file directory y)
                         = Some (Header_row fieldnames :: map Data_row l)).
Proof.
  induction earlier as [ | [y ts] earlier IH]; intros rest fs out Hnd Hok.
  - exists fs. simpl. rewrite app_nil_r. repeat split; auto.
    intros ? ? [].
  - inversion Hnd as [ | ? ? Hnotin Hnd']; subst.
    inversion Hok as [ | ? ? Hy Hok']; subst. simpl in Hy.
    destruct (@save_year_written directory io fs y ts (Hy fs)) as (l & Hl & Hsave).
    simpl. rewrite Hsave.
    destruct (IH rest (write_file fs (output_file directory y)
                                  (Header_row fieldnames :: map Data_row l))
                 (out ++ [Saved_transactions (List.length ts) y
                                             (output_file directory y)])%list
                 Hnd' Hok') as (fs1 & Hrun & Hother & Hfiles).
    exists fs1. split; [ | split].
    + rewrite Hrun. now rewrite <- app_assoc.
    + intros p Hp. rewrite Hother.
      * apply write_file_other. apply (Hp (y, ts)). now left.
      * intros e He. apply Hp. now right.
    + intros y' ts' [Heq | Hin].
      * injection Heq as <- <-. exists l. split; [exact Hl | ].
        rewrite Hother; [apply write_file_same | ].
        intros e He Hsame. apply output_file_inj in Hsame.
        apply Hnotin. rewrite Hsame. now apply in_map.
      * now apply Hfiles.
Qed.

Lemma NoDup_app_disjoint (A : Type) (l1 l2 : list A) (a : A) :
  NoDup (l1 ++ l2) -> In a l1 -> In a l2 -> False.
Proof.
  induction l1 as [ | x l1 IH]; simpl; intros Hnd H1 H2; [exact H1 | ].
  inversion Hnd as [ | ? ? Hx Hnd']; subst.
  destruct H1 as [-> | H1]; [ | now apply IH].
  apply Hx. apply in_or_app. now right.
Qed.

(** C7.  When the writing of a year fails, the exporter stops there
    and returns [False]: the years after it are not attempted, so
    that nothing is printed for them and their files are as they
    were, and the files of the years before it stay as they were
    written, each with its header and its sorted records. *)
Theorem export_stops_at_first_failure :
  forall (directory : string) (io : string -> io_outcome) (fs : file_system)
         (earlier : aggregator) (year : string) (ts : list transaction)
         (later : aggregator),
    NoDup (map fst (earlier ++ (year, ts) :: later)%list) ->
    Forall (fun e => forall fs0,
                fst (fst (save_year directory io fs0 (fst e) (snd e))) = true)
           earlier ->
    fst (fst (save_year directory io fs year ts)) = false ->
    exists fs' : file_system,
      save_transactions_by_year directory io
                                (earlier ++ (year, ts) :: later)%list fs
      = (false, fs',
         (map (fun e => Saved_transactions (List.length (snd e)) (fst e)
                          (output_file directory (fst e))) earlier
          ++ [Error_saving_csv year])%list)
      /\ (forall y' ts', In (y', ts') earlier ->
            exists l, sorted_transactions ts' = Ok l
                      /\ fs' (output_file directory y')
                         = Some (Header_row fieldnames :: map Data_row l))
      /\ (forall y' ts', In (y', ts') later ->
            fs' (output_file directory y') = fs (output_file directory y')).
Proof.
  intros directory io fs earlier year ts later Hnd Hok Hfail.
  assert (Hnd1 : NoDup (map fst earlier)).
  { rewrite map_app in Hnd. now apply NoDup_app_remove_r in Hnd. }
  destruct (@save_years_written directory io earlier ((year, ts) :: later) fs []
              Hnd1 Hok) as (fs1 & Hrun & Hother & Hfiles).
  rewrite (save_year_ok_any_fs directory io fs fs1) in Hfail.
  pose proof (@save_year_failed directory io fs1 year ts Hfail) as Hprinted.
  pose proof (fun p => @save_year_other_file directory io fs1 year ts p) as Hkeep.
  destruct (save_year directory io fs1 year ts) as [[ok fs2] printed] eqn:Hsave.
  simpl in Hfail, Hprinted, Hkeep. subst ok printed.
  exists fs2.
  assert (Hdistinct : forall y1 y2,
             In y1 (map fst earlier) \/ y1 = year -> In y2 (map fst later) -> y1 <> y2).
  { intros y1 y2 H1 H2 ->. rewrite map_app in Hnd. simpl in Hnd.
    destruct H1 as [H1 | ->].
    - apply NoDup_remove_1 in Hnd.
      now apply (NoDup_app_disjoint _ _ y2 Hnd).
    - apply NoDup_remove_2 in Hnd. apply Hnd. apply in_or_app. now right. }
  assert (Hyear : ~ In year (map fst earlier)).
  { intros Hin. rewrite map_app in Hnd. simpl in Hnd.
    apply NoDup_remove_2 in Hnd. apply Hnd. apply in_or_app. now left. }
  split; [ | split].
  - unfold save_transactions_by_year.
    destruct (earlier ++ (year, ts) :: later)%list eqn:E.
    + now destruct earlier.
    + rewrite Hrun. simpl. now rewrite Hsave.
  - intros y' ts' Hin. destruct (Hfiles y' ts' Hin) as (l & Hl & Hf).
    exists l. split; [exact Hl | ]. rewrite Hkeep; [exact Hf | ].
    intros Hsame. apply output_file_inj in Hsame. subst y'.
    apply Hyear. now apply (in_map fst) in Hin.
  - intros y' ts' Hin. apply (in_map fst) in Hin. simpl in Hin.
    rewrite Hkeep.
    + apply Hother. intros e He Hsame. apply output_file_inj in Hsame.
      apply (Hdistinct (fst e) y'); auto. left. now apply in_map.
    + intros Hsame. apply output_file_inj in Hsame.
      apply (Hdistinct year y'); auto.
Qed.

Lemma export_stops_at_first_failure_witness :
  let io := fun p => if String.eqb p "/d/2024_transactions.csv"
                     then Open_raises else Io_ok in
  let r := Transaction "2023-01-05" "2023-01-06" "SHOP" (S754_zero false) in
  let fs : file_system := fun _ => None in
  NoDup (map fst ([("2023", [r])] ++ ("2024", []) :: [("2025", [])])%list)
  /\ fst (fst (save_year "/d" io fs "2024" [])) = false
  /\ exists fs',
       save_transactions_by_year "/d" io
         ([("2023", [r])] ++ ("2024", []) :: [("2025", [])])%list fs
       = (false, fs',
          [Saved_transactions 1 "2023" "/d/2023_transactions.csv";
           Error_saving_csv "2024"]).
Proof.
  intros io r fs.
  assert (Hnd : NoDup (map fst ([("2023", [r])] ++ ("2024", []) :: [("2025", [])])%list)).
  { simpl. repeat constructor; simpl; intuition discriminate. }
  split; [exact Hnd | split; [reflexivity | ]].
  destruct (@export_stops_at_first_failure "/d" io fs [("2023", [r])] "2024" []
              [("2025", [])] Hnd) as (fs' & H & _).
  - constructor; [intros fs0; reflexivity | constructor].
  - reflexivity.
  - exists fs'. exact H.
Defined.

End Exporter.

(* ================================================================== *)
(** * The aggregator: claims C8 and C9 *)
(* ================================================================== *)

Module Aggregator.
Import Str StrFacts Pipeline DocumentFacts YearFacts Exporter Extractor.

(** ** Appending to a year *)

Lemma ledger_extend year batch agg :
  ledger year (extend year batch agg) = (ledger year agg ++ batch)%list.
Proof.
  induction agg as [ | [y ts] agg IH]; simpl.
  - now rewrite String.eqb_refl.
  - destruct (String.eqb y year) eqn:E; simpl; rewrite E; auto.
Qed.

Lemma ledger_extend_other year batch agg y :
  y <> year -> ledger y (extend year batch agg) = ledger y agg.
Proof.
  intros Hy. apply String.eqb_neq in Hy.
  induction agg as [ | [y0 ts] agg IH]; simpl.
  - rewrite String.eqb_sym. now rewrite Hy.
  - destruct (String.eqb y0 year) eqn:E; simpl.
    + apply String.eqb_eq in E. subst y0. rewrite String.eqb_sym. now rewrite Hy.
    + now rewrite IH.
Qed.

(** ** A document that fails *)

Lemma parse_pages_fails pdf_name year pages :
  In None pages ->
  forall st, fst (parse_pages pdf_name year st pages) = None.
Proof.
  induction pages as [ | [text | ] pages IH]; simpl; intros Hin st.
  - destruct Hin.
  - destruct Hin as [H | H]; [discriminate | ]. now apply IH.
  - reflexivity.
Qed.

Lemma parse_statement_fails pdf_open pdf_file :
  document_fails (pdf_open pdf_file) ->
  fst (parse_statement pdf_open pdf_file) = None.
Proof.
  unfold parse_statement. intros [H | (pages & H & Hin)]; rewrite H.
  - reflexivity.
  - now apply parse_pages_fails.
Qed.

Lemma process_file_aggregator pdf_open agg out1 out2 pdf_file :
  fst (process_file pdf_open (agg, out1) pdf_file)
  = fst (process_file pdf_open (agg, out2) pdf_file).
Proof.
  unfold process_file.
  destruct (parse_statement pdf_open pdf_file) as [[[ | t ts] | ] printed];
    reflexivity.
Qed.

Lemma process_files_aggregator pdf_open files :
  forall st1 st2, fst st1 = fst st2 ->
    fst (fold_left (process_file pdf_open) files st1)
    = fst (fold_left (process_file pdf_open) files st2).
Proof.
  induction files as [ | f files IH]; simpl; intros st1 st2 H; [exact H | ].
  apply IH. destruct st1 as [a1 o1], st2 as [a2 o2]. simpl in H. subst a2.
  apply process_file_aggregator.
Qed.

(** C9.  A document that fails as a whole, because it cannot be
    opened or because the text of one of its pages cannot be
    extracted, whatever was parsed in the pages before, gives no
    record to the aggregator: [parse_statement] returns [None], the
    aggregator after the document is the aggregator before it, and
    the run leaves the aggregator as it would without the
    document. *)
Theorem failed_document_adds_nothing :
  forall (pdf_open : string -> document) (pdf_file : string)
         (agg : aggregator) (out : list event),
    document_fails (pdf_open pdf_file) ->
    fst (parse_statement pdf_open pdf_file) = None
    /\ fst (process_file pdf_open (agg, out) pdf_file) = agg
    /\ (forall (pdf_name year : string) (st : parse_state)
               (pages_before pages_after : list page),
           fst (parse_pages pdf_name year st
                            (pages_before ++ None :: pages_after)%list) = None)
    /\ (forall files_before files_after : list string,
           fst (fold_left (process_file pdf_open)
                          (files_before ++ pdf_file :: files_after)%list (agg, out))
           = fst (fold_left (process_file pdf_open)
                            (files_before ++ files_after)%list (agg, out))).
Proof.
  intros pdf_open pdf_file agg out Hfail.
  pose proof (parse_statement_fails pdf_open pdf_file Hfail) as Hnone.
  assert (Hstep : forall a o, fst (process_file pdf_open (a, o) pdf_file) = a).
  { intros a o. unfold process_file.
    destruct (parse_statement pdf_open pdf_file) as [ts printed].
    simpl in Hnone. subst ts. reflexivity. }
  split; [exact Hnone | split; [apply Hstep | split]].
  - intros pdf_name year st pages_before pages_after.
    apply parse_pages_fails. apply in_or_app. right. now left.
  - intros files_before files_after. rewrite !fold_left_app. simpl.
    apply process_files_aggregator.
    destruct (fold_left (process_file pdf_open) files_before (agg, out)) as [a o].
    apply Hstep.
Qed.

Lemma failed_document_adds_nothing_witness :
  let pdf_open : string -> document :=
    fun _ => Some [Some "Jan 5 Jan 6 COFFEE SHOP $4.50"; None] in
  document_fails (pdf_open "2024 Jan CreditCardStatement.pdf")
  /\ fst (process_file pdf_open ([], []) "2024 Jan CreditCardStatement.pdf") = [].
Proof.
  intros pdf_open.
  assert (H : document_fails (pdf_open "2024 Jan CreditCardStatement.pdf")).
  { right. eexists. split; [reflexivity | ]. simpl. auto. }
  split; [exact H | ].
  apply (@failed_document_adds_nothing pdf_open
           "2024 Jan CreditCardStatement.pdf" [] [] H).
Defined.

(** ** Two documents of one year *)

(** A record extracted in a year that does not start with [0] has
    its sort key. *)
Lemma extract_has_date_key year line r :
  full_year year -> is_transaction_line (split line) = true ->
  extract year (split line) = Ok r -> has_date_key r.
Proof.
  intros Hf Hc Hr.
  destruct (@extract_full_year line year r Hc Hf Hr)
    as (d1 & d2 & _ & _ & _ & _ & _ & _ & K & _).
  now exists d1.
Qed.

Lemma parse_statement_keys pdf_open pdf_path l :
  full_year (extract_year_from_filename pdf_path) ->
  fst (parse_statement pdf_open pdf_path) = Some l ->
  Forall has_date_key l.
Proof.
  intros Hf Hl. apply Forall_forall. intros r Hr.
  destruct (@parse_statement_lines pdf_open pdf_path l r Hl Hr) as (texts & line & _ & _ & Hc & He).
  exact (@extract_has_date_key _ line r Hf Hc He).
Qed.

Lemma full_year_2023 : full_year "2023".
Proof. split; [split; reflexivity | reflexivity]. Qed.

Lemma process_file_some pdf_open st pdf_file l :
  fst (parse_statement pdf_open pdf_file) = Some l -> l <> [] ->
  fst (process_file pdf_open st pdf_file)
  = extend (extract_year_from_filename pdf_file) l (fst st).
Proof.
  intros H Hne. destruct st as [agg out]. unfold process_file.
  destruct (parse_statement pdf_open pdf_file) as [o printed].
  simpl in H. subst o. destruct l as [ | t l]; [congruence | reflexivity].
Qed.

Lemma process_two pdf_open fa fb la lb out :
  extract_year_from_filename fa = "2023" ->
  extract_year_from_filename fb = "2023" ->
  fst (parse_statement pdf_open fa) = Some la ->
  fst (parse_statement pdf_open fb) = Some lb ->
  la <> [] -> lb <> [] ->
  fst (fold_left (process_file pdf_open) [fa; fb] ([], out))
  = [("2023", (la ++ lb)%list)].
Proof.
  intros Hya Hyb Ha Hb Hna Hnb.
  change (fold_left (process_file pdf_open) [fa; fb] ([], out))
    with (process_file pdf_open (process_file pdf_open ([], out) fa) fb).
  rewrite (@process_file_some pdf_open _ fb lb Hb Hnb).
  rewrite (@process_file_some pdf_open _ fa la Ha Hna).
  rewrite Hya, Hyb. reflexivity.
Qed.

(** C8.  Appending a batch to a year of the aggregator puts the
    batch, in its order, after the records that the year had, and
    leaves the other years alone, so that two appends to a year leave
    the first batch followed by the second.  Two documents of the
    year [2023] that give 5 and 7 records leave in the aggregator one
    entry, [2023], with the 12 records, those of the document
    processed first before those of the other; it is exported as a
    header and 12 rows. *)
Theorem appends_concatenate :
  forall (pdf_open : string -> document) (directory : string)
         (io : string -> io_outcome) (fs : file_system)
         (f1 f2 : string) (l1 l2 : list transaction),
    extract_year_from_filename f1 = "2023" ->
    extract_year_from_filename f2 = "2023" ->
    fst (parse_statement pdf_open f1) = Some l1 ->
    fst (parse_statement pdf_open f2) = Some l2 ->
    List.length l1 = 5 -> List.length l2 = 7 ->
    (forall year batch agg,
        ledger year (extend year batch agg) = (ledger year agg ++ batch)%list)
    /\ (forall year batch1 batch2 agg,
           ledger year (extend year batch2 (extend year batch1 agg))
           = ((ledger year agg ++ batch1) ++ batch2)%list)
    /\ (forall year batch agg y,
           y <> year -> ledger y (extend year batch agg) = ledger y agg)
    /\ let agg := snd (fst (process_all_statements pdf_open [f1; f2] [])) in
       (agg = [("2023", (l1 ++ l2)%list)] \/ agg = [("2023", (l2 ++ l1)%list)])
       /\ List.length (ledger "2023" agg) = 12
       /\ (io (output_file directory "2023") = Io_ok ->
           exists (fs' : file_system) (rows : list transaction),
             save_transactions_by_year directory io agg fs
             = (true, fs',
                [Saved_transactions 12 "2023" (output_file directory "2023")])
             /\ fs' (output_file directory "2023")
                = Some (Header_row fieldnames :: map Data_row rows)
             /\ List.length rows = 12
             /\ Permutation (ledger "2023" agg) rows).
Proof.
  intros pdf_open directory io fs f1 f2 l1 l2 Hy1 Hy2 H1 H2 Hn1 Hn2.
  split; [apply ledger_extend | ].
  split; [intros; now rewrite !ledger_extend | ].
  split; [intros; now apply ledger_extend_other | ].
  assert (Hne1 : l1 <> []) by (intros ->; discriminate).
  assert (Hne2 : l2 <> []) by (intros ->; discriminate).
  assert (Hk1 : Forall has_date_key l1).
  { apply (@parse_statement_keys pdf_open f1 l1); [ | exact H1].
    rewrite Hy1. exact full_year_2023. }
  assert (Hk2 : Forall has_date_key l2).
  { apply (@parse_statement_keys pdf_open f2 l2); [ | exact H2].
    rewrite Hy2. exact full_year_2023. }
  assert (Hagg : exists ts,
             snd (fst (process_all_statements pdf_open [f1; f2] [])) = [("2023", ts)]
             /\ (ts = (l1 ++ l2)%list \/ ts = (l2 ++ l1)%list)).
  { unfold process_all_statements.
    cbn [Sorting.sorted Sorting.insert].
    destruct (String.ltb f2 f1).
    - exists (l2 ++ l1)%list. split; [ | now right].
      match goal with
      | |- context [fold_left ?f ?l ?s] =>
          pose proof (@process_two pdf_open f2 f1 l2 l1 (snd s)
                        Hy2 Hy1 H2 H1 Hne2 Hne1) as Hp;
          change (([], snd s)) with s in Hp;
          destruct (fold_left f l s) as [a o]
      end.
      exact Hp.
    - exists (l1 ++ l2)%list. split; [ | now left].
      match goal with
      | |- context [fold_left ?f ?l ?s] =>
          pose proof (@process_two pdf_open f1 f2 l1 l2 (snd s)
                        Hy1 Hy2 H1 H2 Hne1 Hne2) as Hp;
          change (([], snd s)) with s in Hp;
          destruct (fold_left f l s) as [a o]
      end.
      exact Hp. }
  destruct Hagg as (ts & Hagg & Hts). cbv zeta. rewrite Hagg.
  assert (Hlen : List.length ts = 12).
  { destruct Hts as [-> | ->]; rewrite length_app; lia. }
  assert (Hkeys : Forall has_date_key ts).
  { destruct Hts as [-> | ->]; apply Forall_app; now split. }
  split; [destruct Hts as [-> | ->]; auto | ].
  split; [simpl; exact Hlen | ].
  intros Hio. destruct (sorted_transactions_total Hkeys) as [l Hl].
  exists (write_file fs (output_file directory "2023")
                     (Header_row fieldnames :: map Data_row l)), l.
  destruct (sorted_transactions_spec _ Hl) as (Hperm & _).
  split; [ | split; [apply write_file_same | split]].
  - unfold save_transactions_by_year, save_years, save_year.
    rewrite Hio, Hl, Hlen. reflexivity.
  - rewrite <- (Permutation_length Hperm). exact Hlen.
  - simpl. exact Hperm.
Qed.

Lemma appends_concatenate_witness :
  let jan := "/d/2023 Jan CreditCardStatement.pdf" in
  let feb := "/d/2023 Feb CreditCardStatement.pdf" in
  let line := "Jan 5 Jan 6 COFFEE SHOP $4.50" in
  let pdf_open : string -> document :=
    fun p => if String.eqb p jan
             then Some [Some line; Some line; Some line; Some line; Some line]
             else Some [Some line; Some line; Some line; Some line;
                        Some line; Some line; Some line] in
  extract_year_from_filename jan = "2023"
  /\ extract_year_from_filename feb = "2023"
  /\ List.length
       (ledger "2023" (snd (fst (process_all_statements pdf_open [jan; feb] []))))
     = 12.
Proof.
  intros jan feb line pdf_open.
  split; [reflexivity | split; [reflexivity | ]].
  assert (H1 : exists l1, fst (parse_statement pdf_open jan) = Some l1
                          /\ List.length l1 = 5).
  { eexists. split; vm_compute; reflexivity. }
  assert (H2 : exists l2, fst (parse_statement pdf_open feb) = Some l2
                          /\ List.length l2 = 7).
  { eexists. split; vm_compute; reflexivity. }
  destruct H1 as (l1 & H1 & Hn1). destruct H2 as (l2 & H2 & Hn2).
  apply (@appends_concatenate pdf_open "/d" (fun _ => Io_ok) (fun _ => None)
           jan feb l1 l2 eq_refl eq_refl H1 H2 Hn1 Hn2).
Defined.

End Aggregator.
(* ================================================================== *)
(** * The statement files *)
(* ================================================================== *)

Module FileFacts.
Import Str StrFacts CharFacts RegexFacts ClassifierFacts AmountFacts Path.

(** ** What a repetition and a word consume *)

Lemma rep_chr_inv (p : ascii -> bool) n :
  forall st e, matches (Rep n (Chr p)) st e ->
  exists s, String.length s = n /\ forall_chars p s = true
            /\ rest st = s ++ rest e.
Proof.
  induction n as [ | n IH]; simpl; intros st e H.
  - subst. now exists "".
  - destruct H as (mid & H1 & H2).
    apply chr_inv in H1. destruct H1 as (c & Hc & Hr).
    destruct (IH _ _ H2) as (s & Hl & Hp & Hs).
    exists (String c s). simpl. rewrite Hl, Hc, Hp, Hr, Hs. auto.
Qed.

Lemma rep_chr_build (p : ascii -> bool) s :
  forall st t, forall_chars p s = true -> rest st = s ++ t ->
  exists e, matches (Rep (String.length s) (Chr p)) st e /\ rest e = t.
Proof.
  induction s as [ | c s IH]; simpl; intros st t Hp Hr.
  - now exists st.
  - apply andb_true_iff in Hp. destruct Hp as [Hc Hp].
    destruct (IH (step st (s ++ t)) t Hp eq_refl) as (e & He & Hre).
    exists e. split; [ | exact Hre].
    exists (step st (s ++ t)). split; [ | exact He].
    now apply matches_chr with c.
Qed.

Lemma word_inv w :
  forall st e, matches (Word w) st e -> rest st = w ++ rest e.
Proof.
  induction w as [ | a w IH]; simpl; intros st e H.
  - now subst.
  - destruct H as (mid & H1 & H2).
    apply chr_inv in H1. destruct H1 as (c & Hc & Hr).
    apply lit_eq in Hc. subst c. now rewrite Hr, (IH _ _ H2).
Qed.

Lemma word_build w :
  forall st t, rest st = w ++ t ->
  exists e, matches (Word w) st e /\ rest e = t.
Proof.
  induction w as [ | a w IH]; simpl; intros st t Hr.
  - now exists st.
  - destruct (IH (step st (w ++ t)) t eq_refl) as (e & He & Hre).
    exists e. split; [ | exact Hre].
    exists (step st (w ++ t)). split; [ | exact He].
    apply matches_chr with a; [exact Hr | apply lit_refl].
Qed.

Lemma alts_word_inv ws last st e :
  matches (Alts (map Word ws) (Word last)) st e ->
  exists w, In w (ws ++ [last])%list /\ rest st = w ++ rest e.
Proof.
  induction ws as [ | w ws IH]; simpl; intros H.
  - exists last. split; [now left | now apply word_inv].
  - destruct H as [H | H].
    + exists w. split; [now left | now apply word_inv].
    + destruct (IH H) as (w' & Hin & Hr). exists w'. split; [now right | exact Hr].
Qed.

Lemma alts_word_build ws last w st t :
  In w (ws ++ [last])%list -> rest st = w ++ t ->
  exists e, matches (Alts (map Word ws) (Word last)) st e /\ rest e = t.
Proof.
  induction ws as [ | w0 ws IH]; simpl; intros Hin Hr.
  - destruct Hin as [<- | []]. now apply word_build.
  - destruct Hin as [<- | Hin].
    + destruct (word_build w0 st t Hr) as (e & He & Hre).
      exists e. split; [now left | exact Hre].
    + destruct (IH Hin Hr) as (e & He & Hre).
      exists e. split; [now right | exact Hre].
Qed.

(** ** The names that [pattern] accepts *)

Lemma pattern_sound name :
  is_some (re_match pattern name) = true -> statement_name name.
Proof.
  intros H. apply re_match_iff in H. destruct H as (st' & H).
  destruct H as (m1 & Hy & m2 & Hb & m3 & (e & Hm & ->) & Hw).
  apply rep_chr_inv in Hy. destruct Hy as (y & Hl & Hd & Hr0).
  apply chr_inv in Hb. destruct Hb as (c & Hc & Hr1).
  apply lit_eq in Hc. subst c.
  change (Alts _ _)
    with (Alts (map Word ["Jan"; "Feb"; "Mar"; "Apr"; "May"; "Jun";
                          "Jul"; "Aug"; "Sep"; "Oct"; "Nov"]) (Word "Dec")) in Hm.
  apply alts_word_inv in Hm. destruct Hm as (m & Hin & Hr2).
  apply word_inv in Hw. simpl rest in Hw at 1.
  exists y, m, (rest st'). split; [ | split].
  - simpl in Hr0. rewrite Hr0, Hr1, Hr2, Hw. reflexivity.
  - split; assumption.
  - exact Hin.
Qed.

Lemma pattern_complete name :
  statement_name name -> is_some (re_match pattern name) = true.
Proof.
  intros (y & m & tail & -> & [Hl Hd] & Hin).
  apply re_match_iff.
  destruct (@rep_chr_build (in_range "0" "9") y
              (MState 0 (y ++ " " ++ m ++ " CreditCardStatement.pdf" ++ tail) [])
              _ Hd eq_refl) as (m1 & H1 & Hr1).
  rewrite Hl in H1.
  set (m2 := step m1 (m ++ " CreditCardStatement.pdf" ++ tail)).
  destruct (@alts_word_build
              ["Jan"; "Feb"; "Mar"; "Apr"; "May"; "Jun";
               "Jul"; "Aug"; "Sep"; "Oct"; "Nov"] "Dec" m m2
              (" CreditCardStatement.pdf" ++ tail) Hin eq_refl)
    as (m3 & H3 & Hr3).
  destruct (@word_build " CreditCardStatement.pdf" (close_group "1" m2 m3) tail Hr3)
    as (m4 & H4 & _).
  exists m4. exists m1. split; [exact H1 | ].
  exists m2. split; [now apply matches_chr with " "%char | ].
  exists (close_group "1" m2 m3). split; [ | exact H4].
  exists m3. split; [exact H3 | reflexivity].
Qed.

(** ** Paths *)

Lemma split_on_from_not_nil sep s :
  forall cur, split_on_from sep cur s <> [].
Proof.
  induction s as [ | c s IH]; simpl; intros cur; [discriminate | ].
  destruct (Ascii.eqb sep c); [discriminate | apply IH].
Qed.

Lemma split_on_from_append sep a b :
  forall cur,
    split_on_from sep cur (a ++ String sep b)
    = (split_on_from sep cur a ++ split_on sep b)%list.
Proof.
  induction a as [ | c a IH]; simpl; intros cur.
  - now rewrite Ascii.eqb_refl.
  - destruct (Ascii.eqb sep c); [ | apply IH].
    now rewrite IH.
Qed.

Lemma split_on_append sep a b :
  split_on sep (a ++ String sep b) = (split_on sep a ++ split_on sep b)%list.
Proof. apply split_on_from_append. Qed.

Lemma split_on_from_pieces sep s :
  forall cur, contains_char sep cur = false ->
  Forall (fun x => contains_char sep x = false) (split_on_from sep cur s).
Proof.
  induction s as [ | c s IH]; simpl; intros cur Hcur.
  - now constructor.
  - destruct (Ascii.eqb sep c) eqn:E.
    + constructor; [exact Hcur | now apply IH].
    + apply IH. rewrite contains_char_append, Hcur. simpl. now rewrite E.
Qed.

(** The components of a path are proper and have no [/] in them. *)
Lemma components_entries s :
  Forall (fun x => proper x = true /\ entry_name x) (components s).
Proof.
  unfold components. apply Forall_forall. intros x Hx.
  apply filter_In in Hx. destruct Hx as [Hx Hp]. split; [exact Hp | ].
  pose proof (@split_on_from_pieces "/" s "" eq_refl) as H.
  rewrite Forall_forall in H. now apply H.
Qed.

Lemma components_slash s : components (String "/" s) = components s.
Proof. reflexivity. Qed.

Lemma components_entry x :
  proper x = true -> entry_name x -> components x = [x].
Proof.
  intros Hp He. unfold components, split_on.
  rewrite (split_on_from_none _ _ _ He). simpl. now rewrite Hp.
Qed.

Lemma components_cons x s :
  proper x = true -> entry_name x ->
  components (x ++ String "/" s) = x :: components s.
Proof.
  intros Hp He. unfold components. rewrite split_on_append.
  rewrite filter_app. fold (components x).
  now rewrite (components_entry Hp He).
Qed.

Lemma join_cons x y l :
  Str.join "/" (x :: y :: l) = x ++ String "/" (Str.join "/" (y :: l)).
Proof. reflexivity. Qed.

(** The components of a path that is written are the components it
    was written from. *)
Lemma components_join cs :
  Forall (fun x => proper x = true /\ entry_name x) cs ->
  components (Str.join "/" cs) = cs.
Proof.
  induction cs as [ | x [ | y l] IH]; intros H.
  - reflexivity.
  - apply Forall_inv in H. destruct H as [Hp He].
    now apply components_entry.
  - rewrite join_cons.
    pose proof (Forall_inv H) as [Hp He]. apply Forall_inv_tail in H.
    rewrite (components_cons _ Hp He). now rewrite (IH H).
Qed.

Lemma root_cases s : root s = "" \/ root s = "/" \/ root s = "//".
Proof.
  destruct s as [ | c s]; [now left | ].
  destruct (Ascii.eqb_spec c "/") as [-> | Hc].
  2:{ left. destruct c as [[] [] [] [] [] [] [] []]; try reflexivity.
      now elim Hc. }
  destruct s as [ | c s]; [right; now left | ].
  destruct (Ascii.eqb_spec c "/") as [-> | Hc].
  2:{ right; left. destruct c as [[] [] [] [] [] [] [] []]; try reflexivity.
      now elim Hc. }
  destruct s as [ | c s]; [right; now right | ].
  destruct (Ascii.eqb_spec c "/") as [-> | Hc]; [right; now left | ].
  right; right. destruct c as [[] [] [] [] [] [] [] []]; try reflexivity.
  now elim Hc.
Qed.

Lemma root_entry x : entry_name x -> root x = "".
Proof.
  unfold entry_name. destruct x as [ | c x]; [reflexivity | ].
  simpl. intros H. apply orb_false_iff in H. destruct H as [Hc _].
  destruct c as [[] [] [] [] [] [] [] []]; try reflexivity. discriminate.
Qed.

Lemma parse_entry x :
  proper x = true -> entry_name x -> Path.parse x = ("", [x]).
Proof.
  intros Hp He. unfold Path.parse.
  now rewrite (root_entry He), (components_entry Hp He).
Qed.

(** Reading what [str] wrote gives the components back. *)
Lemma components_str r cs :
  r = "" \/ r = "/" \/ r = "//" ->
  Forall (fun x => proper x = true /\ entry_name x) cs ->
  components (Path.str (r, cs)) = cs.
Proof.
  intros Hr Hcs.
  destruct Hr as [-> | [-> | ->]].
  - destruct cs as [ | x l]; [reflexivity | ].
    unfold Path.str. change ("" ++ ?s) with s. now apply components_join.
  - unfold Path.str. change ("/" ++ ?s) with (String "/" s).
    rewrite components_slash. now apply components_join.
  - unfold Path.str. change ("//" ++ ?s) with (String "/" (String "/" s)).
    rewrite !components_slash. now apply components_join.
Qed.

(** The file of an entry [name] of the directory: [directory / name]
    as a text. *)
Lemma join_entry directory name :
  proper name = true -> entry_name name ->
  Path.join (Path.parse directory) (Path.parse name)
  = (root directory, (components directory ++ [name])%list).
Proof.
  intros Hp He. now rewrite (parse_entry Hp He).
Qed.

(** The name of the file of an entry is the name of the entry,
    whatever the directory is written as. *)
Lemma path_name_entry directory name :
  proper name = true -> entry_name name ->
  path_name (Path.str (Path.join (Path.parse directory) (Path.parse name)))
  = name.
Proof.
  intros Hp He. rewrite (join_entry directory Hp He).
  unfold path_name, Path.name, Path.parse. cbn [snd].
  rewrite components_str.
  - apply last_last.
  - apply root_cases.
  - apply Forall_app. split; [apply components_entries | ].
    constructor; [now split | constructor].
Qed.

(** The text of the file of an entry: the name itself in the
    directory [.], the root and the name in a root, and otherwise the
    directory as [str] writes it, a [/] and the name. *)
Lemma str_join_entry directory name :
  proper name = true -> entry_name name ->
  Path.str (Path.join (Path.parse directory) (Path.parse name))
  = match components directory with
    | [] => root directory ++ name
    | _ => Path.str (Path.parse directory) ++ "/" ++ name
    end.
Proof.
  intros Hp He. rewrite (join_entry directory Hp He).
  unfold Path.parse.
  assert (J : forall cs, cs <> [] ->
              Str.join "/" (cs ++ [name]) = Str.join "/" cs ++ "/" ++ name).
  { induction cs as [ | x [ | y l] IH]; intros Hne.
    - now elim Hne.
    - reflexivity.
    - change ((x :: y :: l) ++ [name])%list with (x :: (y :: l) ++ [name])%list.
      change (y :: l ++ [name])%list with ((y :: l) ++ [name])%list in *.
      cbn [app]. rewrite join_cons. cbn [app] in IH.
      rewrite IH by discriminate. rewrite join_cons.
      change (String "/" ?s) with ("/" ++ s). now rewrite !append_assoc. }
  assert (S1 : forall r cs, cs <> [] -> Path.str (r, cs) = r ++ Str.join "/" cs).
  { intros r [ | z cs] H; [now elim H | ]. now destruct r. }
  destruct (components directory) as [ | x l].
  - cbn [app]. apply S1. discriminate.
  - rewrite (S1 _ ((x :: l) ++ [name])%list) by (cbn [app]; discriminate).
    rewrite (S1 _ (x :: l)) by discriminate.
    rewrite J by discriminate. now rewrite !append_assoc.
Qed.

(** The name of a statement is proper: it starts with a digit. *)
Lemma statement_name_proper name : statement_name name -> proper name = true.
Proof.
  intros (y & m & tail & -> & [Hl Hd] & _).
  destruct y as [ | c y]; [discriminate | ].
  simpl in Hd. apply andb_true_iff in Hd. destruct Hd as [Hc _].
  destruct y as [ | c' y]; [discriminate | ].
  unfold proper. cbn [append String.eqb].
  now destruct (Ascii.eqb c ".").
Qed.

(** ** The year in a name *)

Lemma take_prefix n :
  forall s, exists tail,
    s = take n s ++ tail
    /\ String.length (take n s) = Nat.min n (String.length s).
Proof.
  unfold take. induction n as [ | n IH]; intros s.
  - exists s. destruct s; auto.
  - destruct s as [ | c s]; [now exists "" | ].
    destruct (IH s) as (tail & Hs & Hl).
    exists tail. simpl. now rewrite <- Hs, Hl.
Qed.

Lemma take_append s t : take (String.length s) (s ++ t) = s.
Proof.
  unfold take. induction s as [ | c s IH]; simpl.
  - now destruct t.
  - now rewrite IH.
Qed.

Lemma statement_name_year name :
  statement_name name -> digits_exactly 4 (take 4 name).
Proof.
  intros (y & m & tail & -> & Hy & _).
  destruct Hy as [Hl Hd].
  assert (E : forall t, take 4 (y ++ t) = y)
    by (intros t; rewrite <- Hl; apply take_append).
  rewrite E. now split.
Qed.

Lemma get_statement_files_filter directory glob_pdf :
  fst (get_statement_files directory glob_pdf)
  = map (fun name =>
           Path.str (Path.join (Path.parse directory) (Path.parse name)))
        (filter (fun name => is_some (re_match pattern name)) glob_pdf).
Proof.
  unfold get_statement_files.
  now destruct (map _ (filter _ glob_pdf)).
Qed.

(** A file that is selected is the file of an entry of the directory
    with the name of a statement, and its year is four digits. *)
Lemma selected_file directory glob_pdf path :
  Forall entry_name glob_pdf ->
  In path (fst (get_statement_files directory glob_pdf)) ->
  In (path_name path) glob_pdf
  /\ path = Path.str (Path.join (Path.parse directory)
                                (Path.parse (path_name path)))
  /\ statement_name (path_name path)
  /\ digits_exactly 4 (extract_year_from_filename path).
Proof.
  intros Hentries Hin. rewrite get_statement_files_filter in Hin.
  apply in_map_iff in Hin. destruct Hin as (name & <- & Hin).
  apply filter_In in Hin. destruct Hin as [Hin Hm].
  rewrite Forall_forall in Hentries.
  apply pattern_sound in Hm.
  unfold extract_year_from_filename.
  rewrite (@path_name_entry directory name
             (statement_name_proper Hm) (Hentries _ Hin)).
  split; [exact Hin | split; [reflexivity | split; [exact Hm | ]]].
  now apply statement_name_year.
Qed.

End FileFacts.
(* ================================================================== *)
(** * The two checks on any text *)
(* ================================================================== *)

Module TextFacts.
Import Str StrFacts CharFacts RegexFacts ClassifierFacts AmountFacts DateFacts
       FileFacts.

Lemma star_chr_build (p : ascii -> bool) ws :
  forall st t, forall_chars p ws = true -> rest st = ws ++ t ->
  exists e, matches (Star (Chr p)) st e /\ rest e = t.
Proof.
  induction ws as [ | c ws IH]; simpl; intros st t Hp Hr.
  - exists st. split; [constructor | exact Hr].
  - apply andb_true_iff in Hp. destruct Hp as [Hc Hp].
    destruct (IH (step st (ws ++ t)) t Hp eq_refl) as (e & He & Hre).
    exists e. split; [ | exact Hre].
    apply star_more with (step st (ws ++ t)).
    + now apply matches_chr with c.
    + simpl. lia.
    + exact He.
Qed.

Lemma range_1_2_inv st e :
  matches (Range 1 2 (Chr is_digit)) st e ->
  exists d, day_digits d = true /\ rest st = d ++ rest e.
Proof.
  intros (m1 & (m2 & H1 & ->) & Hopt).
  apply chr_inv in H1. destruct H1 as (d1 & Hd1 & Hr1).
  destruct Hopt as [(m3 & H2 & ->) | ->].
  - apply chr_inv in H2. destruct H2 as (d2 & Hd2 & Hr2).
    exists (String d1 (String d2 "")). simpl.
    rewrite Hd1, Hd2, Hr1, Hr2. auto.
  - exists (String d1 ""). simpl. rewrite Hr1. auto.
Qed.

Lemma range_1_2_build d st t :
  day_digits d = true -> rest st = d ++ t ->
  exists e, matches (Range 1 2 (Chr is_digit)) st e /\ rest e = t.
Proof.
  intros Hd Hr.
  destruct d as [ | d1 [ | d2 [ | ? ?]]]; try discriminate; simpl in Hd, Hr.
  - exists (step st t). split; [ | reflexivity].
    exists (step st t). split; [ | now right].
    exists (step st t). split; [now apply matches_chr with d1 | reflexivity].
  - apply andb_true_iff in Hd. destruct Hd as [Hd1 Hd2].
    exists (step (step st (String d2 t)) t). split; [ | reflexivity].
    exists (step st (String d2 t)). split.
    + exists (step st (String d2 t)).
      split; [now apply matches_chr with d1 | reflexivity].
    + left. exists (step (step st (String d2 t)) t).
      split; [now apply matches_chr with d2 | reflexivity].
Qed.

Lemma is_date_sound text :
  is_date text = true ->
  exists t, month_day_text t /\ up_to_newline t text.
Proof.
  intros H. apply re_match_iff in H. destruct H as (st' & H).
  destruct H as (m0 & [_ ->] & m1 & Hu & m2 & Hl & m3 & Hs & m4 & Hd & [Hend ->]).
  apply chr_inv in Hu. destruct Hu as (u & Hu & Hr0).
  apply rep_chr_inv in Hl. destruct Hl as (l & Hlen & Hl & Hr1).
  apply plus_space_inv in Hs. destruct Hs as (w & ws & Hw & Hws & Hr2 & _).
  apply range_1_2_inv in Hd. destruct Hd as (d & Hd & Hr3).
  simpl in Hr0.
  exists (String u l ++ String w ws ++ d). split.
  - exists (String u l), (String w ws), d. split; [reflexivity | ].
    split; [ | split; [split; [discriminate | simpl; now rewrite Hw, Hws] | exact Hd]].
    destruct l as [ | l1 [ | l2 [ | ? ?]]]; try discriminate.
    simpl in Hl. rewrite !andb_true_iff in Hl. destruct Hl as (H1 & H2 & _).
    simpl. now rewrite Hu, H1, H2.
  - rewrite Hr0, Hr1, Hr2, Hr3.
    destruct Hend as [-> | ->]; [left | right]; simpl.
    + now rewrite !append_nil_r.
    + rewrite append_assoc. simpl. now rewrite append_assoc.
Qed.

Lemma is_date_complete t text :
  month_day_text t -> up_to_newline t text -> is_date text = true.
Proof.
  intros (a & ws & d & -> & Ha & [Hne Hws] & Hd) Hlast.
  assert (Hl : exists last, (last = "" \/ last = String newline "")
                            /\ text = a ++ ws ++ d ++ last).
  { destruct Hlast as [-> | ->].
    - exists "". split; [now left | now rewrite !append_nil_r].
    - exists (String newline ""). split; [now right | now rewrite !append_assoc]. }
  destruct Hl as (last & Hlast' & ->). clear Hlast.
  destruct a as [ | u [ | l1 [ | l2 [ | ? ?]]]]; try discriminate.
  simpl in Ha. rewrite !andb_true_iff in Ha. destruct Ha as [[Hu H1] H2].
  destruct ws as [ | w ws]; [congruence | ].
  simpl in Hws. apply andb_true_iff in Hws. destruct Hws as [Hw Hws].
  apply re_match_iff.
  set (st0 := MState 0 (String u (String l1 (String l2 "")) ++ String w ws ++ d ++ last) []).
  set (m1 := step st0 (String l1 (String l2 (String w ws ++ d ++ last)))).
  destruct (@rep_chr_build is_lower (String l1 (String l2 "")) m1
              (String w ws ++ d ++ last)) as (m2 & Hm2 & Hr2).
  { simpl. now rewrite H1, H2. }
  { reflexivity. }
  set (m3 := step m2 (ws ++ d ++ last)).
  destruct (@star_chr_build is_space ws m3 (d ++ last) Hws eq_refl)
    as (m4 & Hm4 & Hr4).
  destruct (@range_1_2_build d m4 last Hd Hr4) as (m5 & Hm5 & Hr5).
  exists m5. exists st0. split; [split; reflexivity | ].
  exists m1. split; [now apply matches_chr with u | ].
  exists m2. split; [exact Hm2 | ].
  exists m4. split.
  { exists m3. split; [ | exact Hm4]. now apply matches_chr with w. }
  exists m5. split; [exact Hm5 | ].
  split; [ | reflexivity]. rewrite Hr5. exact Hlast'.
Qed.

End TextFacts.
(* ================================================================== *)
(** * The run over the files *)
(* ================================================================== *)

Module RunFacts.
Import Str StrFacts Pipeline Exporter Extractor Aggregator SortingFacts.

(** ** The order of the files *)

Lemma string_ltb_lt a b : String.ltb a b = true <-> String_as_OT.lt a b.
Proof.
  rewrite <- String_as_OT.cmp_lt. unfold String.ltb, String_as_OT.cmp.
  destruct (String.compare a b); split; congruence.
Qed.

Lemma string_ltb_trans a b c :
  String.ltb a b = true -> String.ltb b c = true -> String.ltb a c = true.
Proof.
  rewrite !string_ltb_lt. apply String_as_OT.lt_trans.
Qed.

Lemma string_ltb_irrefl a : String.ltb a a = false.
Proof.
  destruct (String.ltb a a) eqn:E; [ | reflexivity].
  apply string_ltb_lt in E. apply String_as_OT.lt_not_eq in E.
  exfalso. apply E. reflexivity.
Qed.

Lemma string_ltb_total a b :
  String.ltb a b = false -> String.ltb b a = false -> a = b.
Proof.
  unfold String.ltb. rewrite (String.compare_antisym a b).
  destruct (String.compare b a) eqn:E; simpl; try discriminate.
  intros _ _. symmetry. now apply String.compare_eq_iff.
Qed.

Section Unique.
Variable A : Type.
Variable le : A -> A -> Prop.
Hypothesis le_antisym : forall x y, le x y -> le y x -> x = y.

Lemma ascending_unique l1 :
  forall l2, StronglySorted le l1 -> StronglySorted le l2 ->
             Permutation l1 l2 -> l1 = l2.
Proof.
  induction l1 as [ | a l1 IH]; intros l2 H1 H2 Hp.
  - now apply Permutation_nil in Hp.
  - destruct l2 as [ | b l2].
    + symmetry in Hp. now apply Permutation_nil in Hp.
    + inversion H1 as [ | ? ? Hs1 Ha]; subst.
      inversion H2 as [ | ? ? Hs2 Hb]; subst.
      assert (Hab : a = b).
      { assert (Hina : In a (b :: l2))
          by (apply (Permutation_in _ Hp); now left).
        assert (Hinb : In b (a :: l1))
          by (apply (Permutation_in _ (Permutation_sym Hp)); now left).
        destruct Hina as [<- | Hina]; [reflexivity | ].
        destruct Hinb as [<- | Hinb]; [reflexivity | ].
        rewrite Forall_forall in Ha, Hb. apply le_antisym; auto. }
      subst b. f_equal. apply IH; auto.
      now apply Permutation_cons_inv in Hp.
Qed.
End Unique.

Lemma sorted_files_unique (l1 l2 : list string) :
  Permutation l1 l2 ->
  Sorting.sorted String.ltb (fun f => f) l1
  = Sorting.sorted String.ltb (fun f => f) l2.
Proof.
  intros Hp.
  apply ascending_unique with (le := Sorting.not_after String.ltb (fun f : string => f)).
  - intros x y Hxy Hyx. unfold Sorting.not_after in *.
    now apply string_ltb_total.
  - apply sorted_ascending.
    all: first [exact string_ltb_trans | exact string_ltb_irrefl | exact string_ltb_total].
  - apply sorted_ascending.
    all: first [exact string_ltb_trans | exact string_ltb_irrefl | exact string_ltb_total].
  - eapply Permutation_trans; [apply Permutation_sym, sorted_permutation | ].
    eapply Permutation_trans; [exact Hp | apply sorted_permutation].
Qed.

(** ** What a file adds to the aggregator *)

Lemma process_file_closed pdf_open st f :
  fst (process_file pdf_open st f)
  = match records_of pdf_open f with
    | [] => fst st
    | l => extend (extract_year_from_filename f) l (fst st)
    end.
Proof.
  destruct st as [agg out]. unfold process_file, records_of.
  destruct (parse_statement pdf_open f) as [[[ | t ts] | ] printed]; reflexivity.
Qed.

Lemma extend_not_nil year l agg : extend year l agg <> [].
Proof.
  destruct agg as [ | [y ts] agg]; simpl; [discriminate | ].
  destruct (String.eqb y year); discriminate.
Qed.

Lemma keys_extend year l agg :
  map fst (extend year l agg)
  = if existsb (fun y => String.eqb y year) (map fst agg)
    then map fst agg else (map fst agg ++ [year])%list.
Proof.
  induction agg as [ | [y ts] agg IH]; simpl; [reflexivity | ].
  destruct (String.eqb y year); simpl; [reflexivity | ].
  rewrite IH. now destruct (existsb _ _).
Qed.

Lemma existsb_key year keys :
  existsb (fun y => String.eqb y year) keys = true <-> In year keys.
Proof.
  rewrite existsb_exists. split.
  - intros (y & Hin & Hy). apply String.eqb_eq in Hy. now subst.
  - intros Hin. exists year. split; [exact Hin | apply String.eqb_refl].
Qed.

Lemma nonempty_extend year l agg :
  l <> [] -> Forall (fun entry : string * list transaction => snd entry <> []) agg ->
  Forall (fun entry : string * list transaction => snd entry <> [])
         (extend year l agg).
Proof.
  intros Hl H. induction H as [ | [y ts] agg Hy Hagg IH]; simpl.
  - constructor; [exact Hl | constructor].
  - destruct (String.eqb y year).
    + constructor; [ | assumption]. simpl in *.
      intros E. apply app_eq_nil in E. now destruct E.
    + constructor; assumption.
Qed.

Lemma well_formed_extend year l agg :
  l <> [] -> well_formed agg -> well_formed (extend year l agg).
Proof.
  intros Hl [Hnd Hne]. split; [ | now apply nonempty_extend].
  rewrite keys_extend.
  destruct (existsb _ _) eqn:E; [exact Hnd | ].
  apply NoDup_app; [exact Hnd | repeat constructor; tauto | ].
  intros y Hin [<- | []].
  apply existsb_key in Hin. congruence.
Qed.

Lemma well_formed_process_file pdf_open st f :
  well_formed (fst st) -> well_formed (fst (process_file pdf_open st f)).
Proof.
  intros H. rewrite process_file_closed.
  destruct (records_of pdf_open f) eqn:E; [exact H | ].
  apply well_formed_extend; [discriminate | exact H].
Qed.

Lemma well_formed_process_files pdf_open files :
  forall st, well_formed (fst st) ->
             well_formed (fst (fold_left (process_file pdf_open) files st)).
Proof.
  induction files as [ | f files IH]; simpl; intros st H; [exact H | ].
  apply IH. now apply well_formed_process_file.
Qed.

Lemma ledger_process_file pdf_open st f y :
  ledger y (fst (process_file pdf_open st f))
  = (ledger y (fst st)
       ++ (if String.eqb (extract_year_from_filename f) y
           then records_of pdf_open f else []))%list.
Proof.
  rewrite process_file_closed.
  destruct (records_of pdf_open f) as [ | t ts] eqn:E.
  - destruct (String.eqb _ y); now rewrite app_nil_r.
  - destruct (String.eqb (extract_year_from_filename f) y) eqn:Ey.
    + apply String.eqb_eq in Ey. subst y. apply ledger_extend.
    + rewrite app_nil_r. apply ledger_extend_other.
      intros ->. now rewrite String.eqb_refl in Ey.
Qed.

Lemma ledger_process_files pdf_open y files :
  forall st,
    ledger y (fst (fold_left (process_file pdf_open) files st))
    = (ledger y (fst st) ++ year_records pdf_open y files)%list.
Proof.
  unfold year_records.
  induction files as [ | f files IH]; simpl; intros st.
  - now rewrite app_nil_r.
  - rewrite IH, ledger_process_file. now rewrite <- app_assoc.
Qed.

(** A year is in the aggregator exactly when it has records there,
    once no year is empty. *)
Lemma key_has_records agg y :
  Forall (fun entry : string * list transaction => snd entry <> []) agg ->
  (In y (map fst agg) <-> ledger y agg <> []).
Proof.
  intros H. induction H as [ | [y0 ts] agg Hy _ IH]; simpl.
  - tauto.
  - destruct (String.eqb y0 y) eqn:E.
    + apply String.eqb_eq in E. subst y0. simpl in Hy. tauto.
    + apply String.eqb_neq in E. rewrite <- IH. tauto.
Qed.

Lemma year_records_not_nil pdf_open y files :
  year_records pdf_open y files <> [] <->
  exists f, In f files /\ extract_year_from_filename f = y
            /\ records_of pdf_open f <> [].
Proof.
  unfold year_records. induction files as [ | f files IH]; simpl.
  - split; [congruence | intros (f & [] & _)].
  - split.
    + intros H.
      destruct (String.eqb (extract_year_from_filename f) y) eqn:E.
      * destruct (records_of pdf_open f) eqn:Er.
        -- simpl in H. apply IH in H. destruct H as (f' & Hin & H).
           exists f'. split; [now right | exact H].
        -- exists f. apply String.eqb_eq in E. rewrite Er.
           split; [now left | split; [exact E | discriminate]].
      * simpl in H. apply IH in H. destruct H as (f' & Hin & H).
        exists f'. split; [now right | exact H].
    + intros (f' & [<- | Hin] & Hy & Hr) E.
      * rewrite <- Hy, String.eqb_refl in E.
        apply app_eq_nil in E. now destruct E.
      * apply app_eq_nil in E. destruct E as [_ E].
        apply IH in E; [exact E | ]. now exists f'.
Qed.

(** The aggregator that [process_all_statements] leaves. *)
Lemma process_all_statements_aggregator pdf_open files agg :
  snd (fst (process_all_statements pdf_open files agg))
  = fst (fold_left (process_file pdf_open)
                   (Sorting.sorted String.ltb (fun f => f) files) (agg, [])).
Proof.
  unfold process_all_statements.
  destruct files as [ | f files]; [reflexivity | ].
  match goal with
  | |- context [fold_left ?g ?l (agg, ?o)] =>
      pose proof (@process_files_aggregator pdf_open l (agg, o) (agg, []) eq_refl) as H;
      destruct (fold_left g l (agg, o)) as [agg' out']
  end.
  simpl in *. exact H.
Qed.

Lemma process_all_statements_result pdf_open files agg :
  fst (fst (process_all_statements pdf_open files agg))
  = match files with
    | [] => false
    | _ => match snd (fst (process_all_statements pdf_open files agg)) with
           | [] => false
           | _ => true
           end
    end.
Proof.
  unfold process_all_statements.
  destruct files as [ | f files]; [reflexivity | ].
  match goal with
  | |- context [fold_left ?g ?l ?st] => destruct (fold_left g l st) as [agg' out']
  end.
  simpl. now destruct agg'.
Qed.

End RunFacts.
(* ================================================================== *)
(** * The description of a record *)
(* ================================================================== *)

Module RecordFacts.
Import Str StrFacts CharFacts RegexFacts ClassifierFacts AmountFacts DateFacts
       StrptimeFacts SliceFacts Extractor.

(** ** The tokens of a description *)

Lemma split_from_token tok :
  no_space tok = true ->
  forall cur s, split_from cur (tok ++ s) = split_from (cur ++ tok) s.
Proof.
  unfold no_space.
  induction tok as [ | c tok IH]; simpl; intros Hns cur s.
  - now rewrite append_nil_r.
  - apply andb_true_iff in Hns. destruct Hns as [Hc Hns].
    destruct (is_space c); [discriminate | ].
    rewrite (IH Hns), append_assoc. reflexivity.
Qed.

Lemma split_join toks :
  Forall is_token toks -> split (join " " toks) = toks.
Proof.
  unfold split, join.
  induction 1 as [ | tok toks Htok Htoks IH]; [reflexivity | ].
  apply is_token_inv in Htok. destruct Htok as [Hne Hns].
  destruct toks as [ | tok' toks].
  - simpl. rewrite <- (append_nil_r tok) at 1.
    rewrite (@split_from_token tok Hns). simpl.
    destruct tok; [congruence | reflexivity].
  - change (String.concat " " (tok :: tok' :: toks))
      with (tok ++ String " " (String.concat " " (tok' :: toks))).
    rewrite (@split_from_token tok Hns). change ("" ++ tok) with tok.
    destruct tok as [ | c tok]; [congruence | ].
    cbn [split_from]. change (is_space " ") with true. cbv iota.
    now rewrite IH.
Qed.

Lemma Forall_firstn_skipn (P : string -> Prop) n m (l : list string) :
  Forall P l -> Forall P (firstn n (skipn m l)).
Proof.
  intros H. rewrite Forall_forall in *. intros x Hx. apply H.
  rewrite <- (firstn_skipn m l). apply in_or_app. right.
  rewrite <- (firstn_skipn n (skipn m l)). apply in_or_app. now left.
Qed.

End RecordFacts.
(* ================================================================== *)
(** * The export of every year *)
(* ================================================================== *)

Module ExportFacts.
Import Str StrFacts Pipeline Exporter Extractor Aggregator SortingFacts RunFacts.

(** ** A record without a sort key *)

Lemma sort_keys_raises ts t :
  In t ts -> ~ has_date_key t -> exists e, sort_keys ts = Raise e.
Proof.
  induction ts as [ | t0 ts IH]; simpl; intros Hin Hk; [tauto | ].
  destruct (strptime (transaction_date t0) format_Y_m_d) as [k | e] eqn:E;
    simpl; [ | now exists e].
  destruct Hin as [-> | Hin].
  - exfalso. apply Hk. now exists k.
  - destruct (IH Hin Hk) as [e He]. rewrite He. simpl. now exists e.
Qed.

Lemma sorted_transactions_raises ts t :
  In t ts -> ~ has_date_key t -> exists e, sorted_transactions ts = Raise e.
Proof.
  intros Hin Hk. destruct (@sort_keys_raises ts t Hin Hk) as [e He].
  unfold sorted_transactions. rewrite He. now exists e.
Qed.

(** ** Every year written *)

Lemma save_year_succeeds directory io year ts :
  io (output_file directory year) = Io_ok -> Forall has_date_key ts ->
  forall fs, fst (fst (save_year directory io fs year ts)) = true.
Proof.
  intros Hio Hk fs. destruct (sorted_transactions_total Hk) as [l Hl].
  unfold save_year. rewrite Hio, Hl. reflexivity.
Qed.

(** The loop writes the files of its years and no other. *)
Lemma save_years_other_files directory io items :
  forall fs out p,
    (forall y, In y (map fst items) -> p <> output_file directory y) ->
    snd (fst (save_years directory io items fs out)) p = fs p.
Proof.
  induction items as [ | [y ts] items IH]; simpl; intros fs out p Hp;
    [reflexivity | ].
  pose proof (@save_year_other_file directory io fs y ts p (Hp y (or_introl eq_refl)))
    as Hy.
  destruct (save_year directory io fs y ts) as [[ok fs1] printed].
  simpl in Hy. destruct ok.
  - rewrite IH; [exact Hy | ]. intros y' Hin. apply Hp. now right.
  - exact Hy.
Qed.

Lemma save_transactions_by_year_other_files directory io agg fs p :
  (forall y, In y (map fst agg) -> p <> output_file directory y) ->
  snd (fst (save_transactions_by_year directory io agg fs)) p = fs p.
Proof.
  intros Hp. unfold save_transactions_by_year.
  destruct agg as [ | e agg]; [reflexivity | ].
  now apply save_years_other_files.
Qed.

Lemma save_all_years directory io agg fs :
  agg <> [] -> NoDup (map fst agg) ->
  Forall (fun e => forall fs0,
              fst (fst (save_year directory io fs0 (fst e) (snd e))) = true) agg ->
  exists fs',
    save_transactions_by_year directory io agg fs
    = (true, fs',
       map (fun e => Saved_transactions (List.length (snd e)) (fst e)
                       (output_file directory (fst e))) agg)
    /\ (forall y ts, In (y, ts) agg ->
          exists l, sorted_transactions ts = Ok l
                    /\ fs' (output_file directory y)
                       = Some (Header_row fieldnames :: map Data_row l)).
Proof.
  intros Hne Hnd Hok.
  destruct (@save_years_written directory io agg [] fs [] Hnd Hok)
    as (fs1 & Hrun & _ & Hfiles).
  exists fs1. split; [ | exact Hfiles].
  unfold save_transactions_by_year.
  destruct agg as [ | e agg]; [congruence | ].
  rewrite app_nil_r in Hrun. rewrite Hrun. reflexivity.
Qed.

(** A run that is saved wrote every year. *)
Lemma save_years_true directory io items :
  forall fs out,
    fst (fst (save_years directory io items fs out)) = true ->
    Forall (fun e => forall fs0,
                fst (fst (save_year directory io fs0 (fst e) (snd e))) = true)
           items.
Proof.
  induction items as [ | [y ts] items IH]; simpl; intros fs out H;
    [constructor | ].
  pose proof (fun fs0 => @save_year_ok_any_fs directory io fs0 fs y ts) as Hany.
  destruct (save_year directory io fs y ts) as [[ok fs1] printed].
  simpl in Hany. destruct ok; [ | discriminate].
  constructor; [exact Hany | now apply IH in H].
Qed.

(** ** The records of a year, once the years are distinct *)

Lemma ledger_entry agg y ts :
  NoDup (map fst agg) -> In (y, ts) agg -> ledger y agg = ts.
Proof.
  induction agg as [ | [y0 ts0] agg IH]; simpl; intros Hnd Hin; [tauto | ].
  inversion Hnd as [ | ? ? Hnotin Hnd']; subst.
  destruct Hin as [Heq | Hin].
  - injection Heq as -> ->. now rewrite String.eqb_refl.
  - destruct (String.eqb y0 y) eqn:E; [ | now apply IH].
    apply String.eqb_eq in E. subst y0. exfalso. apply Hnotin.
    now apply (in_map fst) in Hin.
Qed.

End ExportFacts.
(* ================================================================== *)
(** * The command line *)
(* ================================================================== *)

Module MainFacts.
Import Str StrFacts CharFacts AmountFacts.

(** ** The two [strip]s *)

Lemma lstrip_drop s : lstrip s = drop_while is_space s.
Proof.
  induction s as [ | c s IH]; simpl; [reflexivity | ]. now rewrite IH.
Qed.

Lemma strip_trim s : strip s = trim is_space s.
Proof. unfold strip, rstrip, trim. now rewrite !lstrip_drop. Qed.

Lemma lstrip_chars_drop chars s :
  lstrip_chars chars s = drop_while (fun c => contains_char c chars) s.
Proof.
  induction s as [ | c s IH]; simpl; [reflexivity | ]. now rewrite IH.
Qed.

Lemma strip_chars_trim s : strip_chars quotes s = trim is_quote s.
Proof.
  unfold strip_chars, rstrip_chars, trim, is_quote.
  now rewrite !lstrip_chars_drop.
Qed.

Section Trim.
Variable p : ascii -> bool.

Lemma drop_while_all a s :
  forall_chars p a = true -> drop_while p (a ++ s) = drop_while p s.
Proof.
  induction a as [ | c a IH]; simpl; intros H; [reflexivity | ].
  apply andb_true_iff in H. destruct H as [Hc Ha]. rewrite Hc. now apply IH.
Qed.

Lemma drop_while_start s :
  starts_with (fun c => negb (p c)) s -> drop_while p s = s.
Proof.
  destruct s as [ | c s]; simpl; [reflexivity | ].
  intros H. apply negb_true_iff in H. now rewrite H.
Qed.

Lemma forall_chars_rev (q : ascii -> bool) s :
  forall_chars q (rev s) = forall_chars q s.
Proof.
  induction s as [ | c s IH]; [reflexivity | ].
  change (String c s) with (String c "" ++ s) at 1.
  rewrite rev_append, forall_chars_append, IH. simpl.
  now rewrite andb_true_r, andb_comm.
Qed.

(** What is left of a text between two runs of characters to
    strip. *)
Lemma trim_between a x b :
  forall_chars p a = true -> forall_chars p b = true ->
  starts_with (fun c => negb (p c)) x ->
  starts_with (fun c => negb (p c)) (rev x) ->
  trim p (a ++ x ++ b) = x.
Proof.
  intros Ha Hb Hx Hrx. unfold trim. rewrite drop_while_all by exact Ha.
  destruct x as [ | c x].
  - simpl. rewrite <- (append_nil_r b), drop_while_all by exact Hb. reflexivity.
  - assert (H : drop_while p (String c x ++ b) = String c x ++ b).
    { simpl in *. apply negb_true_iff in Hx. now rewrite Hx. }
    rewrite H, rev_append, drop_while_all by now rewrite forall_chars_rev.
    rewrite drop_while_start by exact Hrx. apply rev_involutive.
Qed.
End Trim.

Lemma starts_with_impl (p q : ascii -> bool) s :
  (forall c, p c = true -> q c = true) -> starts_with p s -> starts_with q s.
Proof. destruct s; simpl; auto. Qed.

Lemma starts_with_all (p : ascii -> bool) s :
  forall_chars p s = true -> starts_with p s.
Proof.
  destruct s as [ | c s]; simpl; [auto | ].
  intros H. apply andb_true_iff in H. tauto.
Qed.

Lemma starts_with_append (p : ascii -> bool) a b :
  starts_with p a -> starts_with p b -> starts_with p (a ++ b).
Proof. destruct a; simpl; auto. Qed.

Lemma quote_not_space c : is_quote c = true -> negb (is_space c) = true.
Proof. by_cases c. Qed.

Lemma plain_not_space c : plain c = true -> negb (is_space c) = true.
Proof. unfold plain. intros H. apply andb_true_iff in H. tauto. Qed.

Lemma plain_not_quote c : plain c = true -> negb (is_quote c) = true.
Proof. unfold plain. intros H. apply andb_true_iff in H. tauto. Qed.

(** The directory that [main] reads in what was typed: the blanks
    around it and the quotes around it are taken away. *)
Lemma typed_directory ws1 q1 p q2 ws2 :
  forall_chars is_space ws1 = true -> forall_chars is_space ws2 = true ->
  forall_chars is_quote q1 = true -> forall_chars is_quote q2 = true ->
  bare p ->
  strip_chars quotes (strip (ws1 ++ (q1 ++ p ++ q2) ++ ws2)) = p.
Proof.
  intros H1 H2 Hq1 Hq2 [Hp Hrp].
  rewrite strip_trim, strip_chars_trim.
  rewrite trim_between; auto.
  - apply trim_between; auto.
    + exact (starts_with_impl _ _ _ plain_not_quote Hp).
    + exact (starts_with_impl _ _ _ plain_not_quote Hrp).
  - apply starts_with_append; [ | apply starts_with_append].
    + apply starts_with_all.
      exact (forall_chars_impl _ _ _ quote_not_space Hq1).
    + exact (starts_with_impl _ _ _ plain_not_space Hp).
    + apply starts_with_all.
      exact (forall_chars_impl _ _ _ quote_not_space Hq2).
  - rewrite !rev_append, append_assoc.
    apply starts_with_append; [ | apply starts_with_append].
    + apply starts_with_all. rewrite forall_chars_rev.
      exact (forall_chars_impl _ _ _ quote_not_space Hq2).
    + exact (starts_with_impl _ _ _ plain_not_space Hrp).
    + apply starts_with_all. rewrite forall_chars_rev.
      exact (forall_chars_impl _ _ _ quote_not_space Hq1).
Qed.

End MainFacts.
(* ================================================================== *)
(** * The statement files and the two checks *)
(* ================================================================== *)

Module StatementFiles.
Import Str StrFacts CharFacts RegexFacts ClassifierFacts FileFacts TextFacts.

(** X1.  [get_statement_files] returns, in the order of the
    directory listing and each as the text of the path
    [directory / name], exactly the listed names that start with four
    digits, a blank, one of the twelve month abbreviations as they
    are written in the pattern, and [ CreditCardStatement.pdf]: the
    pattern is matched at the start of the name only, so that
    anything may follow.  The text of the path of a listed name is
    the name alone when the directory has no component and no root
    (as [.] has), the root and the name when it is a root, and
    otherwise the directory as [pathlib] writes it, a [/] and the
    name; its last component is the name again.  The method prints
    nothing when a name is selected, and when none is it prints the
    debugging lines with every listed name. *)
Theorem statement_files_selected :
  forall (directory : string) (glob_pdf : list string),
    exists keep : string -> bool,
      (forall name : string, keep name = true <-> statement_name name)
      /\ fst (get_statement_files directory glob_pdf)
         = map (fun name =>
                  Path.str (Path.join (Path.parse directory) (Path.parse name)))
               (filter keep glob_pdf)
      /\ (forall name : string,
             entry_name name -> keep name = true ->
             Path.str (Path.join (Path.parse directory) (Path.parse name))
             = match Path.components directory with
               | [] => Path.root directory ++ name
               | _ :: _ => Path.str (Path.parse directory) ++ "/" ++ name
               end
             /\ path_name
                  (Path.str (Path.join (Path.parse directory) (Path.parse name)))
                = name)
      /\ (fst (get_statement_files directory glob_pdf) <> [] ->
          snd (get_statement_files directory glob_pdf) = [])
      /\ (fst (get_statement_files directory glob_pdf) = [] ->
          snd (get_statement_files directory glob_pdf)
          = ([Debugging_information; All_pdf_files_found]
               ++ map Pdf_found glob_pdf ++ [Pattern_used])%list).
Proof.
  intros directory glob_pdf.
  exists (fun name => is_some (re_match pattern name)).
  split; [ | split; [apply get_statement_files_filter | split]].
  - intros name. split; [apply pattern_sound | apply pattern_complete].
  - intros name He Hk. apply pattern_sound in Hk.
    apply statement_name_proper in Hk. split.
    + now apply str_join_entry.
    + now apply path_name_entry.
  - unfold get_statement_files.
    destruct (map _ (filter _ glob_pdf)); simpl; split; congruence.
Qed.

(** X2.  Every file that [get_statement_files] selects in a listing
    of directory entries is the path of a listed name in the
    directory, and [extract_year_from_filename] gives for it the four
    digits that the name starts with. *)
Theorem selected_file_year :
  forall (directory : string) (glob_pdf : list string) (path : string),
    Forall entry_name glob_pdf ->
    In path (fst (get_statement_files directory glob_pdf)) ->
    In (path_name path) glob_pdf
    /\ path = Path.str (Path.join (Path.parse directory)
                                  (Path.parse (path_name path)))
    /\ statement_name (path_name path)
    /\ digits_exactly 4 (extract_year_from_filename path)
    /\ exists tail : string,
         path_name path = extract_year_from_filename path ++ tail.
Proof.
  intros directory glob_pdf path Hentries Hin.
  destruct (@selected_file directory glob_pdf path Hentries Hin) as (H1 & H2 & H3 & H4).
  repeat (split; [assumption | ]).
  destruct (take_prefix 4 (path_name path)) as (tail & Ht & _).
  now exists tail.
Qed.

Lemma selected_file_year_witness :
  Forall entry_name ["2023 Jan CreditCardStatement.pdf"; "notes.pdf"]
  /\ In "2023 Jan CreditCardStatement.pdf"
        (fst (get_statement_files
                "." ["2023 Jan CreditCardStatement.pdf"; "notes.pdf"]))
  /\ digits_exactly 4
       (extract_year_from_filename "2023 Jan CreditCardStatement.pdf").
Proof.
  assert (H1 : Forall entry_name ["2023 Jan CreditCardStatement.pdf"; "notes.pdf"])
    by (repeat constructor).
  assert (H2 : In "2023 Jan CreditCardStatement.pdf"
                  (fst (get_statement_files
                          "." ["2023 Jan CreditCardStatement.pdf"; "notes.pdf"])))
    by (vm_compute; auto).
  split; [exact H1 | split; [exact H2 | ]].
  apply (@selected_file_year "." _ _ H1 H2).
Defined.

(** X3.  The year that [extract_year_from_filename] gives depends on
    the last component of the path only, read as [pathlib] reads it.
    For a name without [/] that is neither empty nor [.], it is the
    first four characters of the name (the whole name when it is
    shorter) for the path of the name in any directory, for the
    directory, a [/] and the name, for the same with a [/] behind or
    a [.] component before the name, and for the name alone. *)
Theorem year_label_of_last_component :
  forall directory name : string,
    entry_name name -> name <> "" -> name <> "." ->
    extract_year_from_filename
      (Path.str (Path.join (Path.parse directory) (Path.parse name)))
    = Str.take 4 name
    /\ extract_year_from_filename (directory ++ "/" ++ name) = Str.take 4 name
    /\ extract_year_from_filename (directory ++ "/" ++ name ++ "/")
       = Str.take 4 name
    /\ extract_year_from_filename (directory ++ "/./" ++ name) = Str.take 4 name
    /\ extract_year_from_filename name = Str.take 4 name.
Proof.
  intros directory name He Hne Hnd.
  assert (Hp : Path.proper name = true).
  { unfold Path.proper.
    destruct (String.eqb_spec name ""); [contradiction | ].
    destruct (String.eqb_spec name "."); [contradiction | reflexivity]. }
  assert (Hlast : forall s, last (Path.components (s ++ String "/" name)) "" = name).
  { intros s. unfold Path.components. rewrite split_on_append, filter_app.
    fold (Path.components name). rewrite (components_entry Hp He).
    apply last_last. }
  unfold extract_year_from_filename.
  split; [now rewrite path_name_entry | ].
  split; [unfold path_name, Path.name, Path.parse; cbn [snd];
          change (directory ++ "/" ++ name) with (directory ++ String "/" name);
          now rewrite Hlast | ].
  split.
  { unfold path_name, Path.name, Path.parse. cbn [snd].
    replace (directory ++ "/" ++ name ++ "/")
      with ((directory ++ String "/" name) ++ String "/" "")
      by (now rewrite append_assoc).
    unfold Path.components at 1. rewrite split_on_append, filter_app.
    cbn [split_on split_on_from filter Path.proper String.eqb negb andb].
    rewrite app_nil_r. fold (Path.components (directory ++ String "/" name)).
    now rewrite Hlast. }
  split.
  { unfold path_name, Path.name, Path.parse. cbn [snd].
    replace (directory ++ "/./" ++ name)
      with ((directory ++ String "/" ".") ++ String "/" name)
      by (now rewrite append_assoc).
    now rewrite Hlast. }
  unfold path_name, Path.name, Path.parse. cbn [snd].
  now rewrite (components_entry Hp He).
Qed.

Lemma year_label_of_last_component_witness :
  entry_name "2023 Jan CreditCardStatement.pdf"
  /\ extract_year_from_filename "statements/./2023 Jan CreditCardStatement.pdf"
     = "2023".
Proof.
  assert (He : entry_name "2023 Jan CreditCardStatement.pdf") by reflexivity.
  split; [exact He | ].
  apply (@year_label_of_last_component "statements"
           "2023 Jan CreditCardStatement.pdf" He);
    discriminate.
Defined.

(** X4.  [is_date] accepts a text exactly when it is a capital letter
    and two small letters, then one blank or more (of any kind), then
    one or two digits, and then nothing or one newline.  Neither the
    letters nor the digits are checked any further. *)
Theorem date_check_on_any_text :
  forall text : string,
    is_date text = true
    <-> exists t : string, month_day_text t /\ up_to_newline t text.
Proof.
  intros text. split.
  - apply is_date_sound.
  - intros (t & Ht & Hl). now apply is_date_complete with t.
Qed.

(** X5.  [is_amount] accepts a text exactly when it is an amount of
    the grammar of the pattern followed by nothing or by one newline:
    on a text with anything else around the amount, blanks included,
    it is false. *)
Theorem amount_check_on_any_text :
  forall text : string,
    is_amount text = true
    <-> exists tok : string, amount_grammar tok /\ up_to_newline tok text.
Proof.
  intros text. split.
  - apply is_amount_sound.
  - intros (tok & Hg & [-> | ->]).
    + rewrite <- (append_nil_r tok). apply is_amount_complete; auto.
    + apply is_amount_complete; auto.
Qed.

End StatementFiles.
(* ================================================================== *)
(** * The records of a document *)
(* ================================================================== *)

Module Document.
Import Str StrFacts CharFacts RegexFacts ClassifierFacts AmountFacts DateFacts
       StrptimeFacts YearFacts SliceFacts Extractor Aggregator DocumentFacts
       RecordFacts.

(** X6.  For a document whose pages are all read, [parse_statement]
    returns the records of its lines in the order of the document,
    page after page and line after line, each line giving one record
    when it is classified and extracted and none otherwise, and
    prints the two lines of the warning for each classified line
    that is not extracted, in that order too.  Every classified line
    is counted once, as a record or as a warning, and a blank line
    gives neither. *)
Theorem document_line_by_line :
  forall (pdf_open : string -> document) (pdf_path : string)
         (texts : list string),
    pdf_open pdf_path = Some (map Some texts) ->
    let year := extract_year_from_filename pdf_path in
    let name := path_name pdf_path in
    let records := flat_map (line_records year) (lines_of texts) in
    let warnings := flat_map (line_warnings name year) (lines_of texts) in
    parse_statement pdf_open pdf_path = (Some records, warnings)
    /\ 2 * List.length records + List.length warnings
       = 2 * List.length
               (filter (fun line => is_transaction_line (split line))
                       (lines_of texts))
    /\ (forall line : string,
          strip line = "" ->
          line_records year line = [] /\ line_warnings name year line = []).
Proof.
  intros pdf_open pdf_path texts H year name records warnings.
  split; [now apply parse_statement_closed | split].
  - apply lines_accounting.
  - intros line Hblank. unfold line_records, line_warnings.
    rewrite (@blank_line_no_token line Hblank). auto.
Qed.

Lemma document_line_by_line_witness :
  let pdf_open : string -> document :=
    fun _ => Some (map Some ["Statement"; "Jan 5 Jan 6 COFFEE SHOP $4.50"]) in
  pdf_open "/d/2024 Jan CreditCardStatement.pdf"
  = Some (map Some ["Statement"; "Jan 5 Jan 6 COFFEE SHOP $4.50"])
  /\ exists a,
       fst (parse_statement pdf_open "/d/2024 Jan CreditCardStatement.pdf")
       = Some [Transaction "2024-01-05" "2024-01-06" "COFFEE SHOP" a].
Proof.
  intros pdf_open. split; [reflexivity | ].
  destruct (@document_line_by_line pdf_open "/d/2024 Jan CreditCardStatement.pdf"
              ["Statement"; "Jan 5 Jan 6 COFFEE SHOP $4.50"] eq_refl)
    as (H & _).
  rewrite H. eexists. vm_compute. reflexivity.
Defined.

(** X7.  [parse_statement] returns [None] exactly when the document
    cannot be opened or the text of one of its pages cannot be
    extracted, and then the last thing it prints is the error for the
    document: however many of its lines are not extracted, a document
    whose pages are all read returns its list. *)
Theorem document_failure :
  forall (pdf_open : string -> document) (pdf_path : string),
    (fst (parse_statement pdf_open pdf_path) = None
     <-> document_fails (pdf_open pdf_path))
    /\ (document_fails (pdf_open pdf_path) ->
        exists out : list event,
          snd (parse_statement pdf_open pdf_path)
          = (out ++ [Error_processing_pdf (path_name pdf_path)])%list)
    /\ (forall texts : list string,
          pdf_open pdf_path = Some (map Some texts) ->
          exists transactions : list transaction,
            fst (parse_statement pdf_open pdf_path) = Some transactions).
Proof.
  intros pdf_open pdf_path. split; [ | split].
  - split; [ | apply parse_statement_fails].
    unfold parse_statement, document_fails.
    destruct (pdf_open pdf_path) as [pages | ]; [ | now left].
    intros H. apply parse_pages_none in H. right. now exists pages.
  - unfold parse_statement.
    intros [H | (pages & H & Hin)]; rewrite H.
    + now exists [].
    + now apply parse_pages_last_message.
  - intros texts H. rewrite (@parse_statement_closed pdf_open pdf_path texts H). now eexists.
Qed.

(** The two date texts of a classified line that is extracted. *)
Lemma extract_dates line year r :
  is_transaction_line (split line) = true ->
  extract year (split line) = Ok r ->
  exists d1 d2 a,
    strptime (date_text (nth 0 (split line) "") (nth 1 (split line) "") year)
             format_b_d_Y = Ok d1
    /\ strptime (date_text (nth 2 (split line) "") (nth 3 (split line) "") year)
                format_b_d_Y = Ok d2
    /\ r = Transaction (strftime_Y_m_d d1) (strftime_Y_m_d d2)
             (join " " (firstn (List.length (split line) - 5)
                               (skipn 4 (split line)))) a.
Proof.
  intros Hc Hr. pose proof (classified_inv _ Hc) as [Hlen _].
  rewrite (extract_unfold year (split line) Hlen) in Hr.
  destruct (strptime (date_text (nth 0 _ "") (nth 1 _ "") year) _)
    as [d1 | ]; simpl in Hr; [ | discriminate].
  destruct (strptime (date_text (nth 2 _ "") (nth 3 _ "") year) _)
    as [d2 | ]; simpl in Hr; [ | discriminate].
  destruct (parse_amount _) as [a | ]; simpl in Hr; [ | discriminate].
  injection Hr as <-. now exists d1, d2, a.
Qed.

Lemma take_year_prefix year tail :
  digits_exactly 4 year -> take 4 (year ++ tail) = year.
Proof.
  intros [Hl _]. rewrite <- Hl. apply FileFacts.take_append.
Qed.

Lemma extract_year_of_record line year r :
  is_transaction_line (split line) = true -> full_year year ->
  extract year (split line) = Ok r -> in_year year r.
Proof.
  intros Hc Hf Hr.
  destruct (@extract_full_year line year r Hc Hf Hr)
    as (d1 & d2 & _ & _ & E1 & E2 & _).
  unfold in_year. rewrite E1, E2. split; apply take_year_prefix; apply Hf.
Qed.

(** X8.  Both dates of a record extracted from a classified line are
    written in the year of the file, a year of four digits: each is
    the number of that year as [%Y] writes it, without zeros in
    front, a dash, and the month and the day that its two tokens
    name, on two digits each.  The post date gets the year of the
    file like the transaction date, whatever the two months are.
    When the year of the file does not start with [0], each date
    starts with the four digits of the file. *)
Theorem record_dates_in_file_year :
  forall (line year : string) (r : transaction),
    is_transaction_line (split line) = true ->
    digits_exactly 4 year ->
    extract year (split line) = Ok r ->
    exists d1 d2 : datetime,
      read_date (nth 0 (split line) "") (nth 1 (split line) "") year = Ok d1
      /\ read_date (nth 2 (split line) "") (nth 3 (split line) "") year = Ok d2
      /\ int year = Ok (Datetime.year d1)
      /\ int year = Ok (Datetime.year d2)
      /\ transaction_date r
         = year_digits (Datetime.year d1)
             ++ "-" ++ pad2 (month d1) ++ "-" ++ pad2 (day d1)
      /\ post_date r
         = year_digits (Datetime.year d2)
             ++ "-" ++ pad2 (month d2) ++ "-" ++ pad2 (day d2)
      /\ (leading_zero year = false ->
          transaction_date r
          = year ++ "-" ++ pad2 (month d1) ++ "-" ++ pad2 (day d1)
          /\ post_date r
             = year ++ "-" ++ pad2 (month d2) ++ "-" ++ pad2 (day d2)
          /\ in_year year r).
Proof.
  intros line year r Hc Hy Hr.
  pose proof (proj1 (@extract_tokens line year r Hc Hy) Hr)
    as (d1 & d2 & a & H1 & _ & H2 & _ & _ & Er).
  pose proof (read_date_inv _ _ _ H1) as (Y1 & _).
  pose proof (read_date_inv _ _ _ H2) as (Y2 & _).
  exists d1, d2.
  split; [exact H1 | split; [exact H2 | split; [exact Y1 | split; [exact Y2 | ]]]].
  split; [now rewrite Er | split; [now rewrite Er | ]].
  intros Hz.
  assert (Hf : full_year year) by now split.
  destruct (@strftime_full_year year d1 Hf Y1) as [_ E1].
  destruct (@strftime_full_year year d2 Hf Y2) as [_ E2].
  rewrite Er. cbn [transaction_date post_date].
  split; [exact E1 | split; [exact E2 | ]].
  rewrite <- Er. now apply extract_year_of_record with line.
Qed.

Lemma record_dates_in_file_year_witness :
  is_transaction_line (split "Dec 31 Jan 2 SHOP $1.00") = true
  /\ digits_exactly 4 "2023"
  /\ exists r,
       extract "2023" (split "Dec 31 Jan 2 SHOP $1.00") = Ok r
       /\ in_year "2023" r.
Proof.
  split; [reflexivity | split; [split; reflexivity | ]].
  assert (Hr : exists r, extract "2023" (split "Dec 31 Jan 2 SHOP $1.00") = Ok r)
    by (eexists; vm_compute; reflexivity).
  destruct Hr as [r Hr]. exists r. split; [exact Hr | ].
  destruct (@record_dates_in_file_year "Dec 31 Jan 2 SHOP $1.00" "2023" r
              eq_refl (conj eq_refl eq_refl) Hr)
    as (d1 & d2 & _ & _ & _ & _ & _ & _ & H).
  exact (proj2 (proj2 (H eq_refl))).
Defined.

(** X9.  The description of a record extracted from a classified line
    of [n] tokens splits back into the tokens 4 to [n-2] of the line:
    it holds them in their order, with one blank between two of
    them whatever blanks the line had there. *)
Theorem description_tokens :
  forall (line year : string) (r : transaction),
    is_transaction_line (split line) = true ->
    extract year (split line) = Ok r ->
    let t := split line in
    split (description r) = firstn (List.length t - 5) (skipn 4 t)
    /\ description r = join " " (split (description r)).
Proof.
  intros line year r Hc Hr t.
  destruct (@extract_dates line year _ Hc Hr) as (d1 & d2 & a & _ & _ & ->).
  subst t. cbn [description].
  assert (Htoks : Forall is_token (firstn (List.length (split line) - 5)
                                          (skipn 4 (split line)))).
  { apply Forall_firstn_skipn. apply split_tokens. }
  rewrite (split_join Htoks). split; reflexivity.
Qed.

Lemma description_tokens_witness :
  is_transaction_line (split "Jan 5   Jan 6  COFFEE    SHOP $4.50") = true
  /\ exists r,
       extract "2024" (split "Jan 5   Jan 6  COFFEE    SHOP $4.50") = Ok r
       /\ split (description r) = ["COFFEE"; "SHOP"].
Proof.
  split; [reflexivity | ].
  assert (Hr : exists r, extract "2024" (split "Jan 5   Jan 6  COFFEE    SHOP $4.50")
                         = Ok r)
    by (eexists; vm_compute; reflexivity).
  destruct Hr as [r Hr]. exists r. split; [exact Hr | ].
  destruct (@description_tokens "Jan 5   Jan 6  COFFEE    SHOP $4.50" "2024" r
              eq_refl Hr) as [H _].
  exact H.
Defined.

End Document.
(* ================================================================== *)
(** * The run over the files and the aggregator it leaves *)
(* ================================================================== *)

Module Run.
Import Str StrFacts Pipeline Exporter YearFacts Extractor Aggregator SortingFacts
       DocumentFacts RunFacts ExportFacts Document.

(** ** Helper facts *)

Lemma fold_not_nil pdf_open files :
  forall st,
    fst (fold_left (process_file pdf_open) files st) <> []
    <-> fst st <> [] \/ exists f, In f files /\ records_of pdf_open f <> [].
Proof.
  induction files as [ | f files IH]; simpl; intros st.
  - split; [auto | intros [H | (f & [] & _)]; exact H].
  - rewrite IH, process_file_closed. split.
    + intros [H | (f' & Hin & Hr)].
      * destruct (records_of pdf_open f) eqn:E; [now left | right].
        exists f. rewrite E. split; [now left | discriminate].
      * right. exists f'. split; [now right | exact Hr].
    + intros [H | (f' & [<- | Hin] & Hr)].
      * left. destruct (records_of pdf_open f); [exact H | apply extend_not_nil].
      * left. destruct (records_of pdf_open f); [congruence | apply extend_not_nil].
      * right. now exists f'.
Qed.

Lemma in_sorted_files (f : string) files :
  In f (Sorting.sorted String.ltb (fun x => x) files) <-> In f files.
Proof.
  split; apply Permutation_in;
    [apply Permutation_sym | ]; apply sorted_permutation.
Qed.

Lemma records_of_provenance pdf_open f r :
  In r (records_of pdf_open f) ->
  exists texts line,
    pdf_open f = Some (map Some texts)
    /\ In line (lines_of texts)
    /\ is_transaction_line (split line) = true
    /\ extract (extract_year_from_filename f) (split line) = Ok r.
Proof.
  unfold records_of. intros Hin.
  destruct (fst (parse_statement pdf_open f)) as [ts | ] eqn:E; [ | destruct Hin].
  exact (@parse_statement_lines pdf_open f ts r E Hin).
Qed.

Lemma year_records_in pdf_open y files r :
  In r (year_records pdf_open y files) ->
  exists f, In f files /\ extract_year_from_filename f = y
            /\ In r (records_of pdf_open f).
Proof.
  unfold year_records. intros H. apply in_flat_map in H.
  destruct H as (f & Hf & Hr).
  destruct (String.eqb (extract_year_from_filename f) y) eqn:E; [ | destruct Hr].
  apply String.eqb_eq in E. now exists f.
Qed.

(** The aggregator that a run builds from nothing. *)
Lemma run_well_formed pdf_open files agg :
  well_formed agg ->
  well_formed (snd (fst (process_all_statements pdf_open files agg))).
Proof.
  intros H. rewrite process_all_statements_aggregator.
  now apply well_formed_process_files.
Qed.

Lemma well_formed_nil : well_formed [].
Proof. split; constructor. Qed.

Lemma run_ledger pdf_open files agg y :
  ledger y (snd (fst (process_all_statements pdf_open files agg)))
  = (ledger y agg
       ++ year_records pdf_open y (Sorting.sorted String.ltb (fun f => f) files))%list.
Proof.
  rewrite process_all_statements_aggregator. apply ledger_process_files.
Qed.

Lemma run_entry pdf_open files y ts :
  In (y, ts) (snd (fst (process_all_statements pdf_open files []))) ->
  ts = year_records pdf_open y (Sorting.sorted String.ltb (fun f => f) files).
Proof.
  intros Hin.
  pose proof (@run_well_formed pdf_open files [] well_formed_nil) as [Hnd _].
  rewrite <- (ledger_entry _ _ _ Hnd Hin). apply run_ledger.
Qed.

(** The years of the aggregator after a run. *)
Lemma run_keys pdf_open files agg y :
  well_formed agg ->
  (In y (map fst (snd (fst (process_all_statements pdf_open files agg))))
   <-> In y (map fst agg)
       \/ exists f, In f files /\ extract_year_from_filename f = y
                    /\ records_of pdf_open f <> []).
Proof.
  intros Hwf.
  pose proof (@run_well_formed pdf_open files agg Hwf) as Hwf'.
  rewrite (key_has_records y (proj2 Hwf')), (key_has_records y (proj2 Hwf)).
  rewrite run_ledger. split.
  - intros H.
    destruct (ledger y agg) eqn:E; [right | left; discriminate].
    simpl in H. apply year_records_not_nil in H.
    destruct H as (f & Hin & H). exists f.
    split; [now apply in_sorted_files | exact H].
  - intros [H | (f & Hin & Hy & Hr)] E; apply app_eq_nil in E;
      destruct E as [E1 E2]; [contradiction | ].
    revert E2. apply year_records_not_nil. exists f.
    split; [now apply in_sorted_files | auto].
Qed.

Lemma ledger_all_records (P : transaction -> Prop) agg y :
  all_records P agg -> Forall P (ledger y agg).
Proof.
  unfold all_records.
  induction 1 as [ | [y0 ts] agg Hts Hagg IH]; simpl; [constructor | ].
  destruct (String.eqb y0 y); [exact Hts | exact IH].
Qed.

(** The records of files whose labels are years from 1000 on keep a
    sort key. *)
Lemma run_has_date_keys pdf_open files agg :
  well_formed agg ->
  all_records has_date_key agg ->
  (forall f, In f files -> full_year (extract_year_from_filename f)) ->
  all_records has_date_key (snd (fst (process_all_statements pdf_open files agg))).
Proof.
  intros Hwf Hagg Hfiles.
  pose proof (@run_well_formed pdf_open files agg Hwf) as [Hnd _].
  unfold all_records. apply Forall_forall. intros [y ts] Hin.
  cbn [snd]. rewrite <- (ledger_entry _ _ _ Hnd Hin), run_ledger.
  apply Forall_app. split; [now apply ledger_all_records | ].
  apply Forall_forall. intros r Hr.
  apply year_records_in in Hr. destruct Hr as (f & Hf & Hy & Hr).
  apply (proj1 (in_sorted_files f files)) in Hf.
  unfold records_of in Hr.
  destruct (fst (parse_statement pdf_open f)) as [l | ] eqn:E; [ | destruct Hr].
  pose proof (@parse_statement_keys pdf_open f l (Hfiles f Hf) E) as Hk.
  rewrite Forall_forall in Hk. now apply Hk.
Qed.

(** ** The theorems *)

(** X10.  [process_all_statements] does not depend on the order in
    which the files are listed: it sorts them, so that two listings
    of the same files give the same aggregator, the same result and
    the same output. *)
Theorem run_order_independent :
  forall (pdf_open : string -> document) (files files' : list string)
         (agg : aggregator),
    Permutation files files' ->
    process_all_statements pdf_open files agg
    = process_all_statements pdf_open files' agg.
Proof.
  intros pdf_open files files' agg Hp. unfold process_all_statements.
  destruct files as [ | f files].
  - apply Permutation_nil in Hp. now subst.
  - destruct files' as [ | f' files'].
    + symmetry in Hp. now apply Permutation_nil in Hp.
    + rewrite (sorted_files_unique Hp), (Permutation_length Hp). reflexivity.
Qed.

Lemma run_order_independent_witness :
  let pdf_open : string -> document :=
    fun _ => Some [Some "Jan 5 Jan 6 COFFEE SHOP $4.50"] in
  Permutation ["/d/2024 Feb CreditCardStatement.pdf";
               "/d/2023 Jan CreditCardStatement.pdf"]
              ["/d/2023 Jan CreditCardStatement.pdf";
               "/d/2024 Feb CreditCardStatement.pdf"]
  /\ process_all_statements pdf_open
       ["/d/2024 Feb CreditCardStatement.pdf";
        "/d/2023 Jan CreditCardStatement.pdf"] []
     = process_all_statements pdf_open
         ["/d/2023 Jan CreditCardStatement.pdf";
          "/d/2024 Feb CreditCardStatement.pdf"] [].
Proof.
  intros pdf_open.
  assert (Hp : Permutation ["/d/2024 Feb CreditCardStatement.pdf";
                            "/d/2023 Jan CreditCardStatement.pdf"]
                           ["/d/2023 Jan CreditCardStatement.pdf";
                            "/d/2024 Feb CreditCardStatement.pdf"])
    by apply perm_swap.
  split; [exact Hp | ].
  apply (@run_order_independent pdf_open _ _ [] Hp).
Defined.

(** X11.  After [process_all_statements] the records of a year in the
    aggregator are those it had before, followed by the records of
    the files labelled with that year, file after file in the sorted
    order of the paths and, within a file, in the order of the
    document; a file that returns [None] or an empty list adds
    nothing. *)
Theorem year_ledger :
  forall (pdf_open : string -> document) (files : list string)
         (agg : aggregator) (y : string),
    ledger y (snd (fst (process_all_statements pdf_open files agg)))
    = (ledger y agg
         ++ year_records pdf_open y
              (Sorting.sorted String.ltb (fun f => f) files))%list.
Proof. intros. apply run_ledger. Qed.

(** X12.  [process_all_statements] keeps the aggregator well formed:
    if each year is there once and no year has an empty list before
    the run, so it is after it; the years after the run are those
    from before and the labels of the files that gave a record at
    least; and if every record had a sort key before and the label of
    every file is four digits that do not start with [0], every
    record has a sort key after.  (With a label that starts with
    [0] the dates are written without it and are no sort keys.) *)
Theorem aggregator_well_formed :
  forall (pdf_open : string -> document) (files : list string)
         (agg : aggregator),
    well_formed agg ->
    let agg' := snd (fst (process_all_statements pdf_open files agg)) in
    well_formed agg'
    /\ (forall y : string,
          In y (map fst agg')
          <-> In y (map fst agg)
              \/ exists f, In f files /\ extract_year_from_filename f = y
                           /\ records_of pdf_open f <> [])
    /\ (all_records has_date_key agg ->
        (forall f : string,
            In f files -> full_year (extract_year_from_filename f)) ->
        all_records has_date_key agg').
Proof.
  intros pdf_open files agg Hwf agg'.
  split; [now apply run_well_formed | split].
  - intros y. now apply run_keys.
  - now apply run_has_date_keys.
Qed.

Lemma aggregator_well_formed_witness :
  let pdf_open : string -> document :=
    fun _ => Some [Some "Jan 5 Jan 6 COFFEE SHOP $4.50"] in
  well_formed []
  /\ well_formed
       (snd (fst (process_all_statements pdf_open
                    ["/d/2024 Jan CreditCardStatement.pdf"] []))).
Proof.
  intros pdf_open. split; [exact well_formed_nil | ].
  exact (proj1 (@aggregator_well_formed pdf_open
                  ["/d/2024 Jan CreditCardStatement.pdf"] [] well_formed_nil)).
Defined.

(** X13.  [process_all_statements] returns [False] when it is given
    no file, leaving the aggregator as it was; given files, it returns
    whether the aggregator holds anything afterwards: [True] exactly
    when the aggregator was not empty before or one file at least
    gave a record. *)
Theorem run_result :
  forall (pdf_open : string -> document) (files : list string)
         (agg : aggregator),
    (fst (fst (process_all_statements pdf_open files agg)) = true
     <-> files <> []
         /\ (agg <> []
             \/ exists f, In f files /\ records_of pdf_open f <> []))
    /\ (files = [] ->
        process_all_statements pdf_open files agg
        = (false, agg, [No_matching_files])).
Proof.
  intros pdf_open files agg. split; [ | now intros ->].
  rewrite process_all_statements_result, process_all_statements_aggregator.
  destruct files as [ | f0 files].
  - split; [discriminate | intros [H _]; congruence].
  - pose proof (@fold_not_nil pdf_open
                  (Sorting.sorted String.ltb (fun f => f) (f0 :: files))
                  (agg, [])) as H.
    simpl fst in H at 2.
    destruct (fst (fold_left _ _ _)) as [ | e l].
    + split; [discriminate | ]. intros [_ Hany]. exfalso.
      apply (proj2 H); [ | reflexivity].
      destruct Hany as [Ha | (f & Hin & Hr)]; [now left | right].
      exists f. split; [now apply in_sorted_files | exact Hr].
    + split; [ | reflexivity]. intros _. split; [discriminate | ].
      destruct (proj1 H) as [Ha | (f & Hin & Hr)]; [discriminate | now left | right].
      exists f. split; [now apply in_sorted_files | exact Hr].
Qed.

(** X14.  Every record that a run from an empty aggregator leaves
    under a year comes from a classified line of a page of a file
    labelled with that year, extracted with that year; when the
    label is four digits that do not start with [0], both dates of
    the record are written in that year. *)
Theorem record_provenance :
  forall (pdf_open : string -> document) (files : list string)
         (y : string) (ts : list transaction) (r : transaction),
    In (y, ts) (snd (fst (process_all_statements pdf_open files []))) ->
    In r ts ->
    (exists (f : string) (texts : list string) (line : string),
        In f files /\ extract_year_from_filename f = y
        /\ pdf_open f = Some (map Some texts)
        /\ In line (lines_of texts)
        /\ is_transaction_line (split line) = true
        /\ extract y (split line) = Ok r)
    /\ (full_year y -> in_year y r).
Proof.
  intros pdf_open files y ts r Hentry Hr.
  rewrite (run_entry _ _ _ _ Hentry) in Hr.
  apply year_records_in in Hr. destruct Hr as (f & Hf & Hy & Hr).
  apply records_of_provenance in Hr.
  destruct Hr as (texts & line & Hopen & Hline & Hc & He).
  rewrite Hy in He. split.
  - exists f, texts, line. repeat split; auto. now apply in_sorted_files.
  - intros Hd. now apply extract_year_of_record with line.
Qed.

Lemma record_provenance_witness :
  let pdf_open : string -> document :=
    fun _ => Some [Some "Dec 31 Jan 2 SHOP $1.00"] in
  exists ts r,
    In ("2023", ts)
       (snd (fst (process_all_statements pdf_open
                    ["/d/2023 Dec CreditCardStatement.pdf"] [])))
    /\ In r ts
    /\ post_date r = "2023-01-02"
    /\ in_year "2023" r.
Proof.
  intros pdf_open.
  assert (H : exists ts r,
             snd (fst (process_all_statements pdf_open
                         ["/d/2023 Dec CreditCardStatement.pdf"] []))
             = [("2023", ts)]
             /\ ts = [r] /\ post_date r = "2023-01-02").
  { do 2 eexists. split; [vm_compute; reflexivity | ].
    split; reflexivity. }
  destruct H as (ts & r & Hagg & Hts & Hpost).
  assert (Hentry : In ("2023", ts)
                      (snd (fst (process_all_statements pdf_open
                                   ["/d/2023 Dec CreditCardStatement.pdf"] []))))
    by (rewrite Hagg; now left).
  assert (Hr : In r ts) by (rewrite Hts; now left).
  exists ts, r. split; [exact Hentry | split; [exact Hr | split; [exact Hpost | ]]].
  apply (@record_provenance pdf_open _ "2023" ts r Hentry Hr).
  split; [split; reflexivity | reflexivity].
Defined.

End Run.
(* ================================================================== *)
(** * The files of the years *)
(* ================================================================== *)

Module YearFiles.
Import Str StrFacts Pipeline Exporter YearFacts Extractor Aggregator
       SortingFacts DocumentFacts RunFacts ExportFacts Document Run.

(** X15.  When the records of the first year of the aggregator hold
    one whose ['Transaction Date'] is not a date of the form
    [%Y-%m-%d], and its file can be opened, the export fails while
    sorting, after the header is written: the file of that year is
    left with its header only, none of the records of the year is
    written, the error is printed and [False] is returned without
    any other year being attempted. *)
Theorem export_key_failure :
  forall (directory : string) (io : string -> io_outcome) (fs : file_system)
         (year : string) (ts : list transaction) (later : aggregator)
         (t : transaction),
    io (output_file directory year) = Io_ok ->
    In t ts -> ~ has_date_key t ->
    save_transactions_by_year directory io ((year, ts) :: later) fs
    = (false,
       write_file fs (output_file directory year) [Header_row fieldnames],
       [Error_saving_csv year]).
Proof.
  intros directory io fs year ts later t Hio Hin Hk.
  destruct (@sorted_transactions_raises ts t Hin Hk) as [e He].
  unfold save_transactions_by_year. simpl. unfold save_year.
  rewrite Hio, He. reflexivity.
Qed.

Lemma export_key_failure_witness :
  let t := Transaction "Jan 5" "2023-01-06" "SHOP" (S754_zero false) in
  let fs : file_system := fun _ => None in
  (fun _ : string => Io_ok) (output_file "/d" "2023") = Io_ok
  /\ In t [t] /\ ~ has_date_key t
  /\ save_transactions_by_year "/d" (fun _ => Io_ok) [("2023", [t])] fs
     = (false,
        write_file fs "/d/2023_transactions.csv" [Header_row fieldnames],
        [Error_saving_csv "2023"]).
Proof.
  intros t fs.
  assert (Hk : ~ has_date_key t) by (intros [k Hk]; vm_compute in Hk; discriminate).
  split; [reflexivity | split; [now left | split; [exact Hk | ]]].
  apply (@export_key_failure "/d" (fun _ => Io_ok) fs "2023" [t] [] t
           eq_refl (or_introl eq_refl) Hk).
Defined.

(** X16.  Whatever happens while the years are written,
    [save_transactions_by_year] leaves every path alone that is not
    the output file of a year of the aggregator. *)
Theorem export_touches_year_files_only :
  forall (directory : string) (io : string -> io_outcome)
         (agg : aggregator) (fs : file_system) (p : string),
    (forall y : string, In y (map fst agg) -> p <> output_file directory y) ->
    snd (fst (save_transactions_by_year directory io agg fs)) p = fs p.
Proof.
  intros directory io agg fs p Hp.
  now apply save_transactions_by_year_other_files.
Qed.

Lemma export_touches_year_files_only_witness :
  let r := Transaction "2023-01-05" "2023-01-06" "SHOP" (S754_zero false) in
  let fs : file_system := fun _ => Some [] in
  (forall y : string, In y (map fst [("2023", [r])]) ->
                      "/d/notes.csv" <> output_file "/d" y)
  /\ snd (fst (save_transactions_by_year "/d" (fun _ => Io_ok)
                 [("2023", [r])] fs)) "/d/notes.csv"
     = Some [].
Proof.
  intros r fs.
  assert (H : forall y : string, In y (map fst [("2023", [r])]) ->
                                 "/d/notes.csv" <> output_file "/d" y).
  { intros y [<- | []]. discriminate. }
  split; [exact H | ].
  apply (@export_touches_year_files_only "/d" (fun _ => Io_ok)
           [("2023", [r])] fs "/d/notes.csv" H).
Defined.

(** A year whose file can be written and whose records have keys. *)
Lemma run_years_saved pdf_open directory io files :
  let agg := snd (fst (process_all_statements pdf_open files [])) in
  (forall y, In y (map fst agg) -> full_year y) ->
  (forall y, In y (map fst agg) -> io (output_file directory y) = Io_ok) ->
  Forall (fun e => forall fs0,
              fst (fst (save_year directory io fs0 (fst e) (snd e))) = true) agg.
Proof.
  intros agg Hfull Hio. apply Forall_forall.
  intros [y ts] Hin fs0. simpl.
  assert (Hy : In y (map fst agg)) by (now apply (in_map fst) in Hin).
  apply save_year_succeeds; [now apply Hio | ].
  rewrite (@run_entry pdf_open files y ts Hin).
  apply Forall_forall. intros r Hr.
  apply year_records_in in Hr. destruct Hr as (f & _ & Hf & Hr).
  unfold records_of in Hr.
  destruct (fst (parse_statement pdf_open f)) as [l | ] eqn:E; [ | destruct Hr].
  assert (Hl : full_year (extract_year_from_filename f))
    by (rewrite Hf; now apply Hfull).
  pose proof (@parse_statement_keys pdf_open f l Hl E) as Hk.
  rewrite Forall_forall in Hk. now apply Hk.
Qed.

(** X17.  From the files to the output: when a run from an empty
    aggregator leaves records, each of its years is four digits that
    do not start with [0] and the file of each of its years can be
    written, [save_transactions_by_year] returns [True] and the
    file of each year holds the header and then, in the order of
    their transaction dates, exactly the records that the files
    labelled with that year gave, each once; it prints one line for
    each year, and leaves every other path alone. *)
Theorem run_then_export :
  forall (pdf_open : string -> document) (directory : string)
         (io : string -> io_outcome) (files : list string) (fs : file_system),
    let agg := snd (fst (process_all_statements pdf_open files [])) in
    agg <> [] ->
    (forall y : string, In y (map fst agg) -> full_year y) ->
    (forall y : string,
        In y (map fst agg) -> io (output_file directory y) = Io_ok) ->
    exists fs' : file_system,
      save_transactions_by_year directory io agg fs
      = (true, fs',
         map (fun e => Saved_transactions (List.length (snd e)) (fst e)
                         (output_file directory (fst e))) agg)
      /\ (forall y : string,
            In y (map fst agg) ->
            exists l : list transaction,
              Permutation
                (year_records pdf_open y
                   (Sorting.sorted String.ltb (fun f => f) files)) l
              /\ StronglySorted in_date_order l
              /\ fs' (output_file directory y)
                 = Some (Header_row fieldnames :: map Data_row l))
      /\ (forall p : string,
            (forall y : string,
                In y (map fst agg) -> p <> output_file directory y) ->
            fs' p = fs p).
Proof.
  intros pdf_open directory io files fs agg Hne Hfull Hio.
  pose proof (@run_well_formed pdf_open files [] well_formed_nil) as [Hnd _].
  fold agg in Hnd.
  pose proof (@run_years_saved pdf_open directory io files Hfull Hio) as Hok.
  fold agg in Hok.
  destruct (@save_all_years directory io agg fs Hne Hnd Hok)
    as (fs' & Hsave & Hfiles).
  exists fs'. split; [exact Hsave | split].
  - intros y Hy. apply in_map_iff in Hy. destruct Hy as ([y' ts] & <- & Hin).
    simpl. destruct (Hfiles _ _ Hin) as (l & Hl & Hf).
    exists l. rewrite <- (@run_entry pdf_open files y' ts Hin).
    destruct (sorted_transactions_spec _ Hl) as (Hperm & Hsorted & _).
    auto.
  - intros p Hp.
    pose proof (@save_transactions_by_year_other_files directory io agg fs p Hp)
      as H.
    now rewrite Hsave in H.
Qed.

Lemma run_then_export_witness :
  let pdf_open : string -> document :=
    fun _ => Some [Some "Jan 5 Jan 6 COFFEE SHOP $4.50"] in
  let files := ["/d/2024 Jan CreditCardStatement.pdf"] in
  let fs : file_system := fun _ => None in
  snd (fst (process_all_statements pdf_open files [])) <> []
  /\ (forall y : string,
        In y (map fst (snd (fst (process_all_statements pdf_open files []))))
        -> full_year y)
  /\ exists fs' : file_system,
       fst (fst (save_transactions_by_year "/d" (fun _ => Io_ok)
                   (snd (fst (process_all_statements pdf_open files []))) fs))
       = true
       /\ snd (fst (save_transactions_by_year "/d" (fun _ => Io_ok)
                      (snd (fst (process_all_statements pdf_open files []))) fs))
          = fs'.
Proof.
  intros pdf_open files fs.
  assert (Hne : snd (fst (process_all_statements pdf_open files [])) <> [])
    by (vm_compute; discriminate).
  assert (Hfull : forall y : string,
             In y (map fst (snd (fst (process_all_statements pdf_open files []))))
             -> full_year y).
  { assert (E : map fst (snd (fst (process_all_statements pdf_open files [])))
                = ["2024"]) by (vm_compute; reflexivity).
    rewrite E. intros y [<- | []]. split; [split; reflexivity | reflexivity]. }
  split; [exact Hne | split; [exact Hfull | ]].
  destruct (@run_then_export pdf_open "/d" (fun _ => Io_ok) files fs Hne Hfull
              (fun _ _ => eq_refl)) as (fs' & Hsave & _).
  exists fs'. rewrite Hsave. split; reflexivity.
Defined.

End YearFiles.
(* ================================================================== *)
(** * [main] *)
(* ================================================================== *)

Module CommandLine.
Import Str StrFacts Pipeline Exporter Extractor Aggregator SortingFacts
       FileFacts DocumentFacts RunFacts ExportFacts MainFacts Document Run
       YearFiles.

(** ** Helper facts *)

Section Cases.
Variable isdir : string -> bool.
Variable path_of : string -> string.
Variable glob_pdf : string -> list string.
Variable pdf_open : string -> document.
Variable io : string -> io_outcome.

(** The four ways in which [main] ends. *)
Lemma main_cases typed fs :
  let directory := strip_chars quotes (strip typed) in
  let dir := path_of directory in
  let files := get_statement_files dir (glob_pdf dir) in
  let run := process_all_statements pdf_open (fst files) [] in
  let agg := snd (fst run) in
  let saved := save_transactions_by_year dir io agg fs in
  let before :=
    ([Processing_statements_in directory] ++ snd files
       ++ map Printed (snd run))%list in
  main isdir path_of glob_pdf pdf_open io typed fs
  = if negb (isdir directory) then (fs, [Directory_not_found directory])
    else if fst (fst run) then
      if fst (fst saved) then
        (snd (fst saved),
         ((before ++ map Printed (snd saved))
            ++ [Processing_complete; Summary;
                Total_transactions_processed (total_transactions agg)]
            ++ summary agg)%list)
      else (snd (fst saved),
            ((before ++ map Printed (snd saved)) ++ [Failed_to_save])%list)
    else (fs, (before ++ [No_transactions_processed])%list).
Proof.
  intros directory dir files run agg saved before.
  unfold main. fold directory. fold dir.
  destruct (negb (isdir directory)); [reflexivity | ].
  unfold before, saved, agg, run, files.
  destruct (get_statement_files dir (glob_pdf dir)) as [pdf_files printed0].
  cbn [fst snd].
  destruct (process_all_statements pdf_open pdf_files [])
    as [[processed agg0] printed1].
  cbn [fst snd].
  destruct processed; [ | now rewrite <- !app_assoc].
  destruct (save_transactions_by_year dir io agg0 fs) as [[ok fs1] printed2].
  cbn [fst snd].
  destruct ok; now rewrite <- !app_assoc.
Qed.
End Cases.

Lemma complete_not_printed (l : list event) :
  ~ In Processing_complete (map Printed l).
Proof.
  intros H. apply in_map_iff in H. destruct H as (e & He & _). discriminate.
Qed.

Lemma complete_not_in_files directory glob_pdf :
  ~ In Processing_complete (snd (get_statement_files directory glob_pdf)).
Proof.
  unfold get_statement_files.
  destruct (map _ (filter _ glob_pdf)); simpl; [ | tauto].
  intros [H | [H | H]]; try discriminate.
  apply in_app_or in H. destruct H as [H | [H | []]]; [ | discriminate].
  apply in_map_iff in H. destruct H as (n & Hn & _). discriminate.
Qed.

Lemma complete_not_before (directory : string) (l0 : list message)
      (l1 l2 : list event) :
  ~ In Processing_complete l0 ->
  ~ In Processing_complete
      ((([Processing_statements_in directory] ++ l0 ++ map Printed l1)
          ++ map Printed l2))%list.
Proof.
  intros H0 H. apply in_app_or in H. destruct H as [H | H].
  - apply in_app_or in H. destruct H as [[H | []] | H]; [discriminate | ].
    apply in_app_or in H. destruct H as [H | H]; [contradiction | ].
    now apply complete_not_printed in H.
  - now apply complete_not_printed in H.
Qed.

Lemma list_sum_permutation (l l' : list nat) :
  Permutation l l' -> list_sum l = list_sum l'.
Proof.
  induction 1; simpl; lia.
Qed.

(** The numbers of the summary, year by year. *)
Lemma summary_counts agg :
  NoDup (map fst agg) ->
  let counts :=
    map (fun y => (y, List.length (ledger y agg)))
        (Sorting.sorted String.ltb (fun y => y) (map fst agg)) in
  summary agg = map (fun c => Year_transactions (fst c) (snd c)) counts
  /\ total_transactions agg = list_sum (map snd counts)
  /\ map fst counts = Sorting.sorted String.ltb (fun y => y) (map fst agg).
Proof.
  intros Hnd counts. unfold counts, summary, total_transactions.
  rewrite !map_map. cbn [fst snd]. split; [reflexivity | split].
  - rewrite <- (list_sum_permutation
                  (Permutation_map (fun y => List.length (ledger y agg))
                     (sorted_permutation String.ltb (fun y : string => y)
                                         (map fst agg)))).
    rewrite map_map. f_equal. apply map_ext_in.
    intros [y ts] Hin. simpl. now rewrite (ledger_entry _ _ _ Hnd Hin).
  - apply map_id.
Qed.

(** ** The theorems *)

(** X18.  [main] reads the directory in what is typed by taking away
    the blanks around it and then the quotes, single or double,
    around what is left: a directory typed between blanks and quotes
    is handled as the directory typed alone, when it neither starts
    nor ends with a blank or a quote itself. *)
Theorem main_typed_directory :
  forall (isdir : string -> bool) (path_of : string -> string)
         (glob_pdf : string -> list string) (pdf_open : string -> document)
         (io : string -> io_outcome) (fs : file_system)
         (ws1 q1 p q2 ws2 : string),
    forall_chars is_space ws1 = true -> forall_chars is_space ws2 = true ->
    forall_chars is_quote q1 = true -> forall_chars is_quote q2 = true ->
    bare p ->
    strip_chars quotes (strip (ws1 ++ (q1 ++ p ++ q2) ++ ws2)) = p
    /\ main isdir path_of glob_pdf pdf_open io (ws1 ++ (q1 ++ p ++ q2) ++ ws2) fs
       = main isdir path_of glob_pdf pdf_open io p fs.
Proof.
  intros isdir path_of glob_pdf pdf_open io fs ws1 q1 p q2 ws2 H1 H2 Hq1 Hq2 Hp.
  pose proof (@typed_directory ws1 q1 p q2 ws2 H1 H2 Hq1 Hq2 Hp) as Htyped.
  pose proof (@typed_directory "" "" p "" "" eq_refl eq_refl eq_refl eq_refl Hp)
    as Hbare.
  simpl in Hbare. rewrite !append_nil_r in Hbare.
  split; [exact Htyped | ].
  unfold main. now rewrite Htyped, Hbare.
Qed.

Lemma main_typed_directory_witness :
  forall_chars is_space "  " = true /\ forall_chars is_space " " = true
  /\ forall_chars is_quote "'" = true /\ bare "/home/me/cc statements"
  /\ strip_chars quotes (strip ("  " ++ ("'" ++ "/home/me/cc statements" ++ "'")
                                    ++ " "))
     = "/home/me/cc statements".
Proof.
  assert (Hb : bare "/home/me/cc statements") by (split; reflexivity).
  split; [reflexivity | split; [reflexivity | split; [reflexivity | ]]].
  split; [exact Hb | ].
  exact (proj1 (@main_typed_directory (fun _ => false) (fun d => d) (fun _ => [])
                  (fun _ => None) (fun _ => Io_ok) (fun _ => None)
                  "  " "'" "/home/me/cc statements" "'" " "
                  eq_refl eq_refl eq_refl eq_refl Hb)).
Defined.

(** X19.  When [main] prints that the processing is complete, what it
    prints last is the summary: the total, and one line for each year
    of the aggregator, in the ascending order of the years, each year
    once.  The number of each year is the number of records in the
    file of that year, which holds the header and that many rows, one
    at least, and the total is the sum of these numbers. *)
Theorem main_summary_matches_files :
  forall (isdir : string -> bool) (path_of : string -> string)
         (glob_pdf : string -> list string) (pdf_open : string -> document)
         (io : string -> io_outcome) (typed : string) (fs : file_system),
    let directory := path_of (strip_chars quotes (strip typed)) in
    let fs' := fst (main isdir path_of glob_pdf pdf_open io typed fs) in
    let out := snd (main isdir path_of glob_pdf pdf_open io typed fs) in
    In Processing_complete out ->
    exists (before : list message) (counts : list (string * nat)),
      out = (before
               ++ [Processing_complete; Summary;
                   Total_transactions_processed (list_sum (map snd counts))]
               ++ map (fun c => Year_transactions (fst c) (snd c)) counts)%list
      /\ ~ In Processing_complete before
      /\ NoDup (map fst counts)
      /\ StronglySorted (fun y1 y2 : string => String.ltb y2 y1 = false)
                        (map fst counts)
      /\ Forall (fun c =>
                   0 < snd c
                   /\ exists rows : list transaction,
                        fs' (output_file directory (fst c))
                        = Some (Header_row fieldnames :: map Data_row rows)
                        /\ List.length rows = snd c)
                counts.
Proof.
  intros isdir path_of glob_pdf pdf_open io typed fs directory fs' out.
  unfold out, fs'. rewrite main_cases. fold directory.
  set (d0 := strip_chars quotes (strip typed)).
  set (files := get_statement_files directory (glob_pdf directory)).
  set (run := process_all_statements pdf_open (fst files) []).
  set (agg := snd (fst run)).
  set (saved := save_transactions_by_year directory io agg fs).
  assert (Hfiles : ~ In Processing_complete (snd files))
    by apply complete_not_in_files.
  destruct (negb (isdir d0)).
  { simpl. intros [H | []]. discriminate. }
  destruct (fst (fst run)) eqn:Hrun.
  2:{ cbn [fst snd]. intros H. exfalso.
      apply in_app_or in H. destruct H as [H | [H | []]]; [ | discriminate].
      rewrite <- (app_nil_r (_ ++ _ ++ map Printed (snd run))%list) in H.
      change [] with (map Printed []) in H.
      now apply (complete_not_before _ _ _ Hfiles) in H. }
  destruct (fst (fst saved)) eqn:Hsaved.
  2:{ cbn [fst snd]. intros H. exfalso.
      apply in_app_or in H. destruct H as [H | [H | []]]; [ | discriminate].
      now apply (complete_not_before _ _ _ Hfiles) in H. }
  cbn [fst snd]. intros _.
  pose proof (@run_well_formed pdf_open (fst files) [] well_formed_nil)
    as [Hnd Hne].
  fold run in Hnd, Hne. fold agg in Hnd, Hne.
  destruct (@summary_counts agg Hnd) as (Hsum & Htotal & Hkeys).
  set (counts := map (fun y => (y, List.length (ledger y agg)))
                     (Sorting.sorted String.ltb (fun y => y) (map fst agg))) in *.
  eexists. exists counts.
  split; [rewrite Hsum, Htotal; reflexivity | ].
  split; [now apply complete_not_before | ].
  split.
  { rewrite Hkeys. apply (Permutation_NoDup (sorted_permutation _ _ _) Hnd). }
  split.
  { rewrite Hkeys.
    apply sorted_ascending.
    all: first [exact string_ltb_trans | exact string_ltb_irrefl
               | exact string_ltb_total]. }
  assert (Hagg : agg <> []).
  { intros E. unfold saved in Hsaved. rewrite E in Hsaved. discriminate. }
  assert (Hok : Forall (fun e => forall fs0,
                          fst (fst (save_year directory io fs0 (fst e) (snd e)))
                          = true) agg).
  { unfold saved, save_transactions_by_year in Hsaved.
    destruct agg as [ | e agg'] eqn:E; [congruence | ].
    now apply save_years_true in Hsaved. }
  destruct (@save_all_years directory io agg fs Hagg Hnd Hok)
    as (fs1 & Hsave & Hwritten).
  fold saved in Hsave. rewrite Hsave. cbn [fst snd].
  apply Forall_forall. intros [y n] Hc. unfold counts in Hc.
  apply in_map_iff in Hc. destruct Hc as (y' & Heq & Hy).
  injection Heq as -> <-.
  apply (Permutation_in _ (Permutation_sym (sorted_permutation _ _ _))) in Hy.
  apply in_map_iff in Hy. destruct Hy as ([y' ts] & Hy' & Hin).
  simpl in Hy'. subst y'. cbn [fst snd].
  rewrite (ledger_entry _ _ _ Hnd Hin).
  split.
  - rewrite Forall_forall in Hne. specialize (Hne _ Hin). simpl in Hne.
    destruct ts; [congruence | simpl; lia].
  - destruct (Hwritten _ _ Hin) as (l & Hl & Hf).
    exists l. split; [exact Hf | ].
    destruct (sorted_transactions_spec _ Hl) as (Hperm & _).
    symmetry. now apply Permutation_length.
Qed.

Lemma main_summary_matches_files_witness :
  let glob_pdf : string -> list string :=
    fun _ => ["2023 Jan CreditCardStatement.pdf"] in
  let pdf_open : string -> document :=
    fun _ => Some [Some "Jan 5 Jan 6 COFFEE SHOP $4.50"] in
  let fs : file_system := fun _ => None in
  let out := snd (main (fun _ => true) (fun d => d) glob_pdf pdf_open
                       (fun _ => Io_ok) "/d" fs) in
  In Processing_complete out
  /\ exists (before : list message) (counts : list (string * nat)),
       out = (before
                ++ [Processing_complete; Summary;
                    Total_transactions_processed (list_sum (map snd counts))]
                ++ map (fun c => Year_transactions (fst c) (snd c)) counts)%list
       /\ NoDup (map fst counts).
Proof.
  intros glob_pdf pdf_open fs out.
  assert (H : In Processing_complete out).
  { vm_compute. repeat (try (left; reflexivity); right). }
  split; [exact H | ].
  destruct (@main_summary_matches_files (fun _ => true) (fun d => d) glob_pdf
              pdf_open (fun _ => Io_ok) "/d" fs H)
    as (before & counts & Hout & _ & Hnd & _).
  exists before, counts. split; [exact Hout | exact Hnd].
Defined.

(** X20.  [main] changes no file but output files of years: whatever
    is typed and whatever happens, a path whose content differs after
    [main] is the file [<year>_transactions.csv] of the directory,
    for a year of four digits. *)
Theorem main_writes_year_files_only :
  forall (isdir : string -> bool) (path_of : string -> string)
         (glob_pdf : string -> list string) (pdf_open : string -> document)
         (io : string -> io_outcome) (typed : string) (fs : file_system)
         (p : string),
    let directory := path_of (strip_chars quotes (strip typed)) in
    Forall entry_name (glob_pdf directory) ->
    fst (main isdir path_of glob_pdf pdf_open io typed fs) p <> fs p ->
    exists year : string,
      digits_exactly 4 year /\ p = output_file directory year.
Proof.
  intros isdir path_of glob_pdf pdf_open io typed fs p directory Hentries.
  rewrite main_cases. fold directory.
  set (d0 := strip_chars quotes (strip typed)).
  set (files := get_statement_files directory (glob_pdf directory)).
  set (run := process_all_statements pdf_open (fst files) []).
  set (agg := snd (fst run)).
  set (saved := save_transactions_by_year directory io agg fs).
  assert (Hsaved : snd (fst saved) p <> fs p ->
                   exists year, digits_exactly 4 year
                                /\ p = output_file directory year).
  { intros Hdiff.
    destruct (existsb (fun y => String.eqb p (output_file directory y))
                      (map fst agg)) eqn:E.
    - apply existsb_exists in E. destruct E as (y & Hy & Hp).
      apply String.eqb_eq in Hp. exists y. split; [ | exact Hp].
      apply (run_keys pdf_open (fst files) y well_formed_nil) in Hy.
      destruct Hy as [[] | (f & Hf & <- & _)].
      now apply (@selected_file directory (glob_pdf directory) f Hentries Hf).
    - exfalso. apply Hdiff.
      apply save_transactions_by_year_other_files.
      intros y Hy Hp.
      assert (Hex : existsb (fun y => String.eqb p (output_file directory y))
                            (map fst agg) = true).
      { apply existsb_exists. exists y. split; [exact Hy | ].
        now apply String.eqb_eq. }
      congruence. }
  destruct (negb (isdir d0)); [simpl; congruence | ].
  destruct (fst (fst run)); [ | simpl; congruence].
  destruct (fst (fst saved)); cbn [fst snd]; exact Hsaved.
Qed.

Lemma main_writes_year_files_only_witness :
  let glob_pdf : string -> list string :=
    fun _ => ["2023 Jan CreditCardStatement.pdf"] in
  let pdf_open : string -> document :=
    fun _ => Some [Some "Jan 5 Jan 6 COFFEE SHOP $4.50"] in
  let fs : file_system := fun _ => None in
  Forall entry_name (glob_pdf "/d")
  /\ fst (main (fun _ => true) (fun d => d) glob_pdf pdf_open (fun _ => Io_ok)
               "/d" fs) "/d/2023_transactions.csv" <> fs "/d/2023_transactions.csv"
  /\ exists year : string,
       digits_exactly 4 year
       /\ "/d/2023_transactions.csv" = output_file "/d" year.
Proof.
  intros glob_pdf pdf_open fs.
  assert (H1 : Forall entry_name (glob_pdf "/d")) by (repeat constructor).
  assert (H2 : fst (main (fun _ => true) (fun d => d) glob_pdf pdf_open
                         (fun _ => Io_ok) "/d" fs) "/d/2023_transactions.csv"
               <> fs "/d/2023_transactions.csv")
    by (vm_compute; discriminate).
  split; [exact H1 | split; [exact H2 | ]].
  exact (@main_writes_year_files_only (fun _ => true) (fun d => d) glob_pdf
           pdf_open (fun _ => Io_ok) "/d" fs "/d/2023_transactions.csv" H1 H2).
Defined.

End CommandLine.
